(** * nexus-cli.py: upload / download of a directory to a Nexus Maven2 repository

    A shallow embedding of [nexus-cli.py] and the properties of its
    specification.

    Python [str] values are lists of Unicode code points, [bytes] values are
    lists of octets.  The file system, the environment, the logger and the
    external [curl] process are components of an explicit world that every
    effectful function threads through. *)

From Stdlib Require Import List ZArith NArith Lia Bool String Ascii.
From Stdlib Require Import DecimalString DecimalZ.
Import ListNotations.

Set Implicit Arguments.
Local Open Scope N_scope.

(* ================================================================== *)
(** ** Python strings *)
(* ================================================================== *)

Module Str.

(** A code point. *)
Definition char := N.
(** A Python [str]. *)
Definition str := list char.
(** A Python [bytes]. *)
Definition bytes := list N.

Definition str_eq_dec : forall a b : str, {a = b} + {a <> b} :=
  list_eq_dec N.eq_dec.

Definition eqb (a b : str) : bool := if str_eq_dec a b then true else false.

(** String literals of the source, written with Rocq's [string]. *)
Definition lit (s : string) : str :=
  map N_of_ascii (list_ascii_of_string s).

Definition LF : char := 10.
Definition CR : char := 13.
Definition DOT : char := 46.
Definition SLASH : char := 47.
Definition BACKSLASH : char := 92.
Definition DQUOTE : char := 34.

(** [str.isspace] on one code point: the characters [str.strip()] removes. *)
Definition is_space (c : char) : bool :=
  ((9 <=? c) && (c <=? 13)) || ((28 <=? c) && (c <=? 32))
  || (c =? 133) || (c =? 160) || (c =? 5760)
  || ((8192 <=? c) && (c <=? 8202))
  || (c =? 8232) || (c =? 8233) || (c =? 8239) || (c =? 8287) || (c =? 12288).

(** The line boundaries of [str.splitlines]. *)
Definition is_linebreak (c : char) : bool :=
  ((10 <=? c) && (c <=? 13)) || ((28 <=? c) && (c <=? 30))
  || (c =? 133) || (c =? 8232) || (c =? 8233).

Fixpoint dropwhile (p : char -> bool) (s : str) : str :=
  match s with
  | [] => []
  | c :: r => if p c then dropwhile p r else s
  end.

Definition lstrip (p : char -> bool) (s : str) : str := dropwhile p s.
Definition rstrip (p : char -> bool) (s : str) : str :=
  rev (dropwhile p (rev s)).

(** [s.strip(chars)], the set [chars] given as a predicate. *)
Definition strip_by (p : char -> bool) (s : str) : str := rstrip p (lstrip p s).

(** [s.strip()] *)
Definition strip (s : str) : str := strip_by is_space s.

(** [s.splitlines()]: a CR LF pair is one boundary, and a boundary that ends
    the text opens no further line. *)
Fixpoint splitlines (s : str) : list str :=
  match s with
  | [] => []
  | c :: r =>
      if is_linebreak c then
        if c =? CR then
          match r with
          | c' :: r' => if c' =? LF then [] :: splitlines r' else [] :: splitlines r
          | [] => [[]]
          end
        else [] :: splitlines r
      else
        match splitlines r with
        | [] => [[c]]
        | l :: ls => (c :: l) :: ls
        end
  end.

(** [s.split(sep)] for a separator of one character: never empty. *)
Fixpoint split_on (sep : char) (s : str) : list str :=
  match s with
  | [] => [[]]
  | c :: r =>
      if c =? sep then [] :: split_on sep r
      else match split_on sep r with
           | [] => [[c]]
           | l :: ls => (c :: l) :: ls
           end
  end.

(** [sep.join(parts)] *)
Fixpoint join (sep : str) (parts : list str) : str :=
  match parts with
  | [] => []
  | [p] => p
  | p :: ps => p ++ sep ++ join sep ps
  end.

(** [c in s] for a one-character [c]. *)
Definition contains (c : char) (s : str) : bool := existsb (N.eqb c) s.

(** [s.startswith(c)] for a one-character [c]. *)
Definition startswith (c : char) (s : str) : bool :=
  match s with
  | c' :: _ => c' =? c
  | [] => false
  end.

Definition endswith (c : char) (s : str) : bool :=
  match rev s with
  | c' :: _ => c' =? c
  | [] => false
  end.

(** [s.replace(a, b)] for one-character [a] and [b]. *)
Definition replace (a b : char) (s : str) : str :=
  map (fun c => if c =? a then b else c) s.

(** [str(n)] for an [int]. *)
Definition of_Z (z : Z) : str := lit (NilZero.string_of_int (Z.to_int z)).

(** [int(s)]: surrounding white space, an optional sign, then ASCII digits
    with single underscores between them.  (Python also accepts the decimal
    digits of other scripts and bounds the number of digits; a text of either
    kind is outside this model.) *)
Definition digit_val (c : char) : option Z :=
  if (48 <=? c) && (c <=? 57) then Some (Z.of_N (c - 48)) else None.

Fixpoint int_digits (acc : Z) (after_underscore : bool) (s : str) : option Z :=
  match s with
  | [] => if after_underscore then None else Some acc
  | c :: r =>
      if c =? 95 then
        if after_underscore then None else int_digits acc true r
      else
        match digit_val c with
        | Some d => int_digits (10 * acc + d)%Z false r
        | None => None
        end
  end.

Definition to_int (s : str) : option Z :=
  let t := strip s in
  let '(sign, body) :=
    match t with
    | 43 :: r => (1%Z, r)
    | 45 :: r => ((-1)%Z, r)
    | _ => (1%Z, t)
    end in
  match body with
  | [] => None
  | c :: _ =>
      match digit_val c with
      | Some _ => option_map (Z.mul sign) (int_digits 0%Z false body)
      | None => None
      end
  end.

(** [b.decode('utf-8')], strict: over-long forms, surrogates and code points
    above U+10FFFF raise [UnicodeDecodeError] ([None]). *)
Definition is_cont (b : N) : bool := (128 <=? b) && (b <=? 191).

Fixpoint decode_utf8 (b : bytes) : option str :=
  match b with
  | [] => Some []
  | b0 :: r =>
      if b0 <? 128 then option_map (cons b0) (decode_utf8 r)
      else if (194 <=? b0) && (b0 <=? 223) then
        match r with
        | b1 :: r1 =>
            if is_cont b1 then
              option_map (cons ((b0 - 192) * 64 + (b1 - 128))) (decode_utf8 r1)
            else None
        | _ => None
        end
      else if (224 <=? b0) && (b0 <=? 239) then
        match r with
        | b1 :: b2 :: r2 =>
            if is_cont b1 && is_cont b2
               && negb ((b0 =? 224) && (b1 <? 160))
               && negb ((b0 =? 237) && (159 <? b1)) then
              option_map
                (cons ((b0 - 224) * 4096 + (b1 - 128) * 64 + (b2 - 128)))
                (decode_utf8 r2)
            else None
        | _ => None
        end
      else if (240 <=? b0) && (b0 <=? 244) then
        match r with
        | b1 :: b2 :: b3 :: r3 =>
            if is_cont b1 && is_cont b2 && is_cont b3
               && negb ((b0 =? 240) && (b1 <? 144))
               && negb ((b0 =? 244) && (143 <? b1)) then
              option_map
                (cons ((b0 - 240) * 262144 + (b1 - 128) * 4096
                       + (b2 - 128) * 64 + (b3 - 128)))
                (decode_utf8 r3)
            else None
        | _ => None
        end
      else None
  end.

End Str.
Import Str.

(* ================================================================== *)
(** ** Python dicts with string keys

    A [dict] keeps its keys in insertion order, and assigning to a key that
    is present keeps the key's position: [run_curl_cmd] emits the form fields
    in that order. *)
(* ================================================================== *)

Module Dict.

Definition dict := list (str * str).

Fixpoint get (k : str) (d : dict) : option str :=
  match d with
  | [] => None
  | (k', v) :: r => if eqb k' k then Some v else get k r
  end.


(** [d[k] = v] *)
Fixpoint set (k v : str) (d : dict) : dict :=
  match d with
  | [] => [(k, v)]
  | (k', v') :: r => if eqb k' k then (k, v) :: r else (k', v') :: set k v r
  end.

(** [d[k]] for a key the code knows to be present. *)
Definition get_or_empty (k : str) (d : dict) : str :=
  match get k d with Some v => v | None => [] end.

End Dict.

(* ================================================================== *)
(** ** The file system

    A tree of regular files and directories; a directory lists its entries
    in the order [os.scandir] yields them.  Paths follow [posixpath]: [/]
    separates components, an empty component or [.] stays in place, [..]
    moves to the parent.  Permissions, links and special files are outside
    the model. *)
(* ================================================================== *)

Module FS.

#[local] Set Warnings "-register-all".

Inductive node :=
| File (content : str)
| Dir (entries : list (str * node)).

Definition is_dir (o : option node) : bool :=
  match o with Some (Dir _) => true | _ => false end.

Definition is_file (o : option node) : bool :=
  match o with Some (File _) => true | _ => false end.

Section Entries.
Variable A : Type.

Fixpoint assoc (k : str) (l : list (str * A)) : option A :=
  match l with
  | [] => None
  | (k', a) :: r => if eqb k' k then Some a else assoc k r
  end.

(** Replace the entry named [k] where it stands, or add it at the end. *)
Fixpoint aset (k : str) (a : A) (l : list (str * A)) : list (str * A) :=
  match l with
  | [] => [(k, a)]
  | (k', a') :: r => if eqb k' k then (k, a) :: r else (k', a') :: aset k a r
  end.

Fixpoint adel (k : str) (l : list (str * A)) : list (str * A) :=
  match l with
  | [] => []
  | (k', a') :: r => if eqb k' k then adel k r else (k', a') :: adel k r
  end.

Fixpoint amap_at (k : str) (f : A -> A) (l : list (str * A)) : list (str * A) :=
  match l with
  | [] => []
  | (k', a') :: r => if eqb k' k then (k', f a') :: r else (k', a') :: amap_at k f r
  end.
End Entries.

(** The node at a canonical path (a list of names from the root). *)
Fixpoint lookup (n : node) (p : list str) {struct p} : option node :=
  match p with
  | [] => Some n
  | c :: p' =>
      match n with
      | Dir es =>
          match assoc c es with
          | Some ch => lookup ch p'
          | None => None
          end
      | File _ => None
      end
  end.

(** Put [v] at the canonical path [p] ([None] removes the entry).  Nothing
    changes unless the parent of [p] is a directory. *)
Fixpoint set_at (p : list str) (v : option node) (n : node) {struct p} : node :=
  match p with
  | [] => n
  | c :: p' =>
      match n with
      | File _ => n
      | Dir es =>
          match p' with
          | [] => Dir (match v with
                       | Some x => aset c x es
                       | None => adel c es
                       end)
          | _ :: _ => Dir (amap_at c (set_at p' v) es)
          end
      end
  end.

Definition is_dot (c : str) : bool := eqb c (lit ".").
Definition is_dotdot (c : str) : bool := eqb c (lit "..").

(** One component of a path walk: the place walked from must be a
    directory. *)
Definition step (root : node) (cur : option (list str)) (c : str)
  : option (list str) :=
  match cur with
  | None => None
  | Some q =>
      if is_dir (lookup root q) then
        match c with
        | [] => Some q
        | _ => if is_dot c then Some q
               else if is_dotdot c then Some (removelast q)
               else Some (q ++ [c])
        end
      else None
  end.

(** The canonical path a path string names, seen from [cwd].  Every
    component but the last one must exist; the empty path names nothing. *)
Definition resolve (root : node) (cwd : list str) (p : str) : option (list str) :=
  match p with
  | [] => None
  | c :: _ =>
      fold_left (step root) (split_on SLASH p)
                (Some (if c =? SLASH then [] else cwd))
  end.

Definition stat (root : node) (cwd : list str) (p : str) : option node :=
  match resolve root cwd p with
  | Some q => lookup root q
  | None => None
  end.

(** Why a path names nothing: the walk has to pass through a regular file
    ([ENOTDIR]), or a component is missing ([ENOENT]). *)
Inductive errno := ENOENT | ENOTDIR.

Fixpoint walk_errno (root : node) (cur : list str) (cs : list str) : errno :=
  match cs with
  | [] => ENOENT
  | c :: cs' =>
      match lookup root cur with
      | Some (Dir _) =>
          match step root (Some cur) c with
          | Some q => walk_errno root q cs'
          | None => ENOENT
          end
      | Some (File _) => ENOTDIR
      | None => ENOENT
      end
  end.

Definition resolve_errno (root : node) (cwd : list str) (p : str) : errno :=
  match p with
  | [] => ENOENT
  | c :: _ => walk_errno root (if c =? SLASH then [] else cwd) (split_on SLASH p)
  end.

(** [os.path.join(a, b)] *)
Definition path_join (a b : str) : str :=
  if startswith SLASH b then b
  else match a with
       | [] => b
       | _ => if endswith SLASH a then a ++ b else a ++ [SLASH] ++ b
       end.

(** [os.path.basename(p)] *)
Definition basename (p : str) : str := last (split_on SLASH p) [].

(** What [os.scandir] yields for one entry. *)
Record DirEntry := {
  de_name : str;
  de_path : str;
  de_is_file : bool;
  de_is_dir : bool
}.

Definition dir_entry (dir : str) (e : str * node) : DirEntry :=
  {| de_name := fst e;
     de_path := path_join dir (fst e);
     de_is_file := is_file (Some (snd e));
     de_is_dir := is_dir (Some (snd e)) |}.

End FS.
Import FS.

(* ================================================================== *)
(** ** The world of a run *)
(* ================================================================== *)

(** The pieces of an f-string: literal or interpolated text, an [int], a
    [timedelta] (in microseconds), a [bytes] value, a list of strings and
    [None].  The rendering of the last four is Python's. *)
Inductive frag :=
| T (s : str)
| I (z : Z)
| Delta (us : Z)
| B (b : bytes)
| L (l : list str)
| NoneV.

Definition msg := list frag.

Inductive level := DEBUG | INFO | WARNING | ERROR.

Definition level_rank (l : level) : nat :=
  match l with DEBUG => 0 | INFO => 1 | WARNING => 2 | ERROR => 3 end.

Inductive exn :=
| FileNotFoundError
| NotADirectoryError
| IsADirectoryError
| FileExistsError
| OSError
| TimeoutExpired
| UnicodeDecodeError
| IndexError
| ValueError
| EOFError
| RecursionError.

(** The exception of a failed path walk. *)
Definition os_error (e : errno) : exn :=
  match e with
  | ENOENT => FileNotFoundError
  | ENOTDIR => NotADirectoryError
  end.

(** What [subprocess.run] does with a command: it raises (the program
    cannot be started, the timeout expires), or the process ends with a
    return code and its captured standard output, after some time. *)
Inductive proc_result :=
| ProcError (e : exn)
| Completed (returncode : Z) (stdout : bytes) (duration : Z).

(** What a run does to its surroundings, oldest first. *)
Inductive event :=
| EvMkdir (p : str)
| EvWrite (p : str) (content : str)
| EvRemove (p : str)
| EvRun (cmd : list str).

(** The [args] dict of [parse_args]: with [argument_default=SUPPRESS] a key
    is there only if the option was given. *)
Record Args := {
  a_login : option str;
  a_passwd : option str;
  a_group : str;
  a_version : option str;
  a_verbose : option bool;
  a_action : str;
  a_directory : str
}.

Record World := {
  w_root : node;
  w_cwd : list str;
  w_environ : list (str * str);
  w_args : Args;
  (** what [getpass] reads from the terminal, [None] at end of input *)
  w_tty : option str;
  (** the clock of [datetime.utcnow], in microseconds *)
  w_now : Z;
  (** the external transfer program, as [subprocess.run] sees it *)
  w_curl : list str -> node -> list str -> proc_result;
  w_level : level;
  w_log : list (level * msg);
  w_trace : list event
}.

(** How a computation ends: it returns, [sys.exit] is called, or an
    exception leaves it. *)
Inductive outcome (A : Type) :=
| Ret (a : A)
| Exit (code : Z)
| Raise (e : exn).
Arguments Ret {A} a.
Arguments Exit {A} code.
Arguments Raise {A} e.

Definition M (A : Type) := World -> outcome A * World.

Definition ret {A} (a : A) : M A := fun w => (Ret a, w).

Definition bind {A B} (m : M A) (k : A -> M B) : M B :=
  fun w =>
    match m w with
    | (Ret a, w1) => k a w1
    | (Exit c, w1) => (Exit c, w1)
    | (Raise e, w1) => (Raise e, w1)
    end.

Notation "x <- m ;; k" := (bind m (fun x => k))
  (at level 61, m at next level, right associativity).
Notation "' pat <- m ;; k" := (bind m (fun x => match x with pat => k end))
  (at level 61, pat pattern, m at next level, right associativity).
Notation "m ;;; k" := (bind m (fun _ => k))
  (at level 61, right associativity).

Definition raise {A} (e : exn) : M A := fun w => (Raise e, w).
Definition sys_exit {A} (c : Z) : M A := fun w => (Exit c, w).

(** [try: m finally: c] *)
Definition try_finally {A} (m : M A) (c : M unit) : M A :=
  fun w =>
    let (o, w1) := m w in
    match c w1 with
    | (Ret _, w2) => (o, w2)
    | (Exit k, w2) => (Exit k, w2)
    | (Raise e, w2) => (Raise e, w2)
    end.

Fixpoint for_each {A S} (f : A -> S -> M S) (l : list A) (s : S) : M S :=
  match l with
  | [] => ret s
  | a :: r => s1 <- f a s ;; for_each f r s1
  end.

Definition get_world : M World := fun w => (Ret w, w).

Definition emit (e : event) : M unit :=
  fun w => (Ret tt,
            {| w_root := w_root w; w_cwd := w_cwd w; w_environ := w_environ w;
               w_args := w_args w; w_tty := w_tty w; w_now := w_now w;
               w_curl := w_curl w; w_level := w_level w; w_log := w_log w;
               w_trace := w_trace w ++ [e] |}).

Definition set_root (r : node) : M unit :=
  fun w => (Ret tt,
            {| w_root := r; w_cwd := w_cwd w; w_environ := w_environ w;
               w_args := w_args w; w_tty := w_tty w; w_now := w_now w;
               w_curl := w_curl w; w_level := w_level w; w_log := w_log w;
               w_trace := w_trace w |}).

Definition set_args (a : Args) : M unit :=
  fun w => (Ret tt,
            {| w_root := w_root w; w_cwd := w_cwd w; w_environ := w_environ w;
               w_args := a; w_tty := w_tty w; w_now := w_now w;
               w_curl := w_curl w; w_level := w_level w; w_log := w_log w;
               w_trace := w_trace w |}).

Definition set_now (t : Z) : M unit :=
  fun w => (Ret tt,
            {| w_root := w_root w; w_cwd := w_cwd w; w_environ := w_environ w;
               w_args := w_args w; w_tty := w_tty w; w_now := t;
               w_curl := w_curl w; w_level := w_level w; w_log := w_log w;
               w_trace := w_trace w |}).

(** [logging.basicConfig(level=...)] *)
Definition set_level (l : level) : M unit :=
  fun w => (Ret tt,
            {| w_root := w_root w; w_cwd := w_cwd w; w_environ := w_environ w;
               w_args := w_args w; w_tty := w_tty w; w_now := w_now w;
               w_curl := w_curl w; w_level := l; w_log := w_log w;
               w_trace := w_trace w |}).

(** [logging.debug], [.info], [.warning], [.error]: a record below the
    configured level is dropped. *)
Definition log (l : level) (m : msg) : M unit :=
  fun w =>
    (Ret tt,
     {| w_root := w_root w; w_cwd := w_cwd w; w_environ := w_environ w;
        w_args := w_args w; w_tty := w_tty w; w_now := w_now w;
        w_curl := w_curl w; w_level := w_level w;
        w_log := if (level_rank (w_level w) <=? level_rank l)%nat
                 then w_log w ++ [(l, m)] else w_log w;
        w_trace := w_trace w |}).

(** [path.exists] *)
Definition path_exists (p : str) : M bool :=
  fun w => (Ret (match stat (w_root w) (w_cwd w) p with
                 | Some _ => true
                 | None => false
                 end), w).

(** [path.isdir] *)
Definition path_isdir (p : str) : M bool :=
  fun w => (Ret (is_dir (stat (w_root w) (w_cwd w) p)), w).

(** [os.scandir] *)
Definition os_scandir (p : str) : M (list DirEntry) :=
  w <- get_world ;;
  match stat (w_root w) (w_cwd w) p with
  | Some (Dir es) => ret (map (dir_entry p) es)
  | Some (File _) => raise NotADirectoryError
  | None => raise (os_error (resolve_errno (w_root w) (w_cwd w) p))
  end.

(** [os.listdir] *)
Definition os_listdir (p : str) : M (list str) :=
  w <- get_world ;;
  match stat (w_root w) (w_cwd w) p with
  | Some (Dir es) => ret (map fst es)
  | Some (File _) => raise NotADirectoryError
  | None => raise (os_error (resolve_errno (w_root w) (w_cwd w) p))
  end.

(** [open(p, mode='w+')], [writelines(lines)], [close()]: the file is
    created or truncated, then holds the lines one after the other. *)
Definition write_file (p : str) (lines : list str) : M unit :=
  w <- get_world ;;
  match resolve (w_root w) (w_cwd w) p with
  | None => raise (os_error (resolve_errno (w_root w) (w_cwd w) p))
  | Some q =>
      match q, lookup (w_root w) q with
      | [], _ => raise IsADirectoryError
      | _, Some (Dir _) => raise IsADirectoryError
      | _, _ =>
          set_root (set_at q (Some (File (List.concat lines))) (w_root w)) ;;;
          emit (EvWrite p (List.concat lines))
      end
  end.

(** [os.remove] *)
Definition os_remove (p : str) : M unit :=
  w <- get_world ;;
  match resolve (w_root w) (w_cwd w) p with
  | None => raise (os_error (resolve_errno (w_root w) (w_cwd w) p))
  | Some q =>
      match q, lookup (w_root w) q with
      | _ :: _, Some (File _) =>
          set_root (set_at q None (w_root w)) ;;;
          emit (EvRemove p)
      | _, Some _ => raise IsADirectoryError
      | _, None => raise FileNotFoundError
      end
  end.

(** [os.mkdir]: slashes after the last component are allowed. *)
Definition os_mkdir (p : str) : M unit :=
  w <- get_world ;;
  match p, rstrip (N.eqb SLASH) p with
  | [], _ => raise FileNotFoundError
  | _ :: _, [] => raise FileExistsError
  | _ :: _, p' =>
      match resolve (w_root w) (w_cwd w) p' with
      | None => raise (os_error (resolve_errno (w_root w) (w_cwd w) p'))
      | Some q =>
          match lookup (w_root w) q with
          | Some _ => raise FileExistsError
          | None =>
              set_root (set_at q (Some (Dir [])) (w_root w)) ;;;
              emit (EvMkdir p)
          end
      end
  end.

(** [datetime.datetime.utcnow()] *)
Definition utcnow : M Z := fun w => (Ret (w_now w), w).

(** [subprocess.run(cmd, stdout=PIPE, stderr=sys.stderr, timeout=2*60*60)]:
    returns the return code and the captured output.  The program reads the
    file system, and what it writes there itself is not followed: the upload
    and the index fetch of a download write no file, the bulk fetch of a
    download writes into its [--output-dir], so that [w_root] tells the file
    system of a download up to the start of the bulk fetch only. *)
Definition subprocess_run (cmd : list str) : M (Z * bytes) :=
  emit (EvRun cmd) ;;;
  w <- get_world ;;
  match w_curl w cmd (w_root w) (w_cwd w) with
  | ProcError e => raise e
  | Completed rc out d => set_now (w_now w + d)%Z ;;; ret (rc, out)
  end.

(** [getpass.getpass] *)
Definition getpass : M str :=
  w <- get_world ;;
  match w_tty w with
  | Some s => ret s
  | None => raise EOFError
  end.

(** [os.environ] *)
Definition environ_get (k : str) : M (option str) :=
  fun w => (Ret (assoc k (w_environ w)), w).

(* ================================================================== *)
(** ** The program *)
(* ================================================================== *)

Record NexusCliConfig := {
  upload_url : str;
  upload_repo : str;
  download_url : str;
  download_repo : str;
  groupId_prefix : str;
  verify_tls : bool;
  verbose : bool
}.

Definition CONF : NexusCliConfig :=
  {| upload_url := lit "https://nexus.gsissc.myatos.net";
     upload_repo := lit "GH_FR_BEZ_RRF_MAVEN2_RHR";
     download_url := lit "https://nexus.forge-dc.cloudmi.minint.fr";
     download_repo := lit "rrf-myatos.net";
     groupId_prefix := lit "fr.gouv.minint.rrf";
     verify_tls := true;
     verbose := false |}.

(** Truth value of a string: the empty one is false. *)
Definition truthy (s : str) : bool :=
  match s with [] => false | _ :: _ => true end.

Definition get_args : M Args := fun w => (Ret (w_args w), w).

(** [die(msg)] *)
Definition die {A} (m : msg) : M A :=
  log ERROR m ;;; sys_exit 1.

Definition msg_no_passwd : msg :=
  [T (lit "NEXUS_PASSWD env variable is not defined")].

(** [get_auth(args)].  The function calls itself once [args] holds the
    login and password of the environment; [fuel] bounds the depth. *)
Fixpoint get_auth_rec (fuel : nat) : M (option str) :=
  match fuel with
  | O => raise RecursionError
  | S fuel' =>
      args <- get_args ;;
      match a_login args with
      | Some login =>
          passwd <-
            match a_passwd args with
            | Some p => ret p
            | None =>
                p <- getpass ;;
                set_args {| a_login := a_login args; a_passwd := Some p;
                            a_group := a_group args; a_version := a_version args;
                            a_verbose := a_verbose args; a_action := a_action args;
                            a_directory := a_directory args |} ;;;
                ret p
            end ;;
          ret (Some (login ++ lit ":" ++ passwd))
      | None =>
          env_login <- environ_get (lit "NEXUS_LOGIN") ;;
          match env_login with
          | Some l =>
              env_passwd <- environ_get (lit "NEXUS_PASSWD") ;;
              match env_passwd with
              | Some p =>
                  set_args {| a_login := Some l; a_passwd := Some p;
                              a_group := a_group args; a_version := a_version args;
                              a_verbose := a_verbose args; a_action := a_action args;
                              a_directory := a_directory args |}
              | None =>
                  set_args {| a_login := Some l; a_passwd := a_passwd args;
                              a_group := a_group args; a_version := a_version args;
                              a_verbose := a_verbose args; a_action := a_action args;
                              a_directory := a_directory args |} ;;;
                  die msg_no_passwd
              end ;;;
              get_auth_rec fuel'
          | None => ret None
          end
      end
  end.

Definition get_auth : M (option str) := get_auth_rec 2.

(** [get_groupId(args)] *)
Definition get_groupId : M str :=
  args <- get_args ;;
  let groupId := a_group args in
  ret (if truthy (groupId_prefix CONF)
       then groupId_prefix CONF ++ lit "." ++ groupId
       else groupId).

Definition write_out_format : str :=
  [LF] ++ lit "**http_status=%{http_code}" ++ [LF].

(** The command line of [run_curl_cmd]. *)
Definition curl_cmd (auth : option str) (url : str) (data : option Dict.dict)
           (outdir : option str) : list str :=
  let curlCmd := [lit "curl"; lit "--parallel"; lit "--write-out"; write_out_format] in
  let curlCmd :=
    match auth with
    | Some a => if truthy a then curlCmd ++ [lit "-u"; a] else curlCmd
    | None => curlCmd
    end in
  let curlCmd :=
    if negb (verify_tls CONF) then curlCmd ++ [lit "--insecure"] else curlCmd in
  let curlCmd :=
    match data with
    | Some ((_ :: _) as d) =>
        curlCmd ++ flat_map (fun nv => [lit "-F"; fst nv ++ lit "=" ++ snd nv]) d
    | _ => curlCmd
    end in
  let curlCmd :=
    match outdir with
    | Some ((_ :: _) as o) =>
        curlCmd ++ [lit "--remote-name-all"; lit "--retry"; lit "6";
                    lit "--retry-delay"; lit "10"; lit "--output-dir"; o]
    | _ => curlCmd
    end in
  curlCmd ++ [url].

(** The loop over the lines of the output: the stripped lines that are not
    empty. *)
Definition resp_lines (text : str) : list str :=
  fold_left
    (fun respLines line =>
       let strippedLine := strip line in
       if truthy strippedLine then respLines ++ [strippedLine] else respLines)
    (splitlines text) [].

(** [int(respLines[-1].split('=')[1])] *)
Definition parse_status (respLines : list str) : outcome Z :=
  match rev respLines with
  | [] => Raise IndexError
  | lastLine :: _ =>
      match split_on 61 lastLine with
      | _ :: field :: _ =>
          match to_int field with
          | Some z => Ret z
          | None => Raise ValueError
          end
      | _ => Raise IndexError
      end
  end.

Definition lift_outcome {A} (o : outcome A) : M A := fun w => (o, w).

Definition msg_curl_failed (rc elapsed : Z) (out : bytes) : msg :=
  [T (lit "curl failed: status="); I rc; T (lit " time="); Delta elapsed;
   T (lit " stdout="); B out; T (lit " stderr="); NoneV].

Definition msg_auth (httpStatus : Z) : msg :=
  [T (lit "curl failed: status="); I httpStatus;
   T (lit " (authentication error) => check login and password ")].

(** [run_curl_cmd(args, url, data, outdir)]: the response lines, the HTTP
    status and the elapsed time. *)
Definition run_curl_cmd (url : str) (data : option Dict.dict) (outdir : option str)
  : M (list str * Z * Z) :=
  auth <- get_auth ;;
  let curlCmd := curl_cmd auth url data outdir in
  log DEBUG [T (lit "curl cmd="); L curlCmd] ;;;
  start <- utcnow ;;
  curlOut <- subprocess_run curlCmd ;;
  stop <- utcnow ;;
  let elapsed := (stop - start)%Z in
  log DEBUG [T (lit "curl => status="); I (fst curlOut); T (lit " stdout=");
             B (snd curlOut); T (lit " stderr="); NoneV] ;;;
  (if (fst curlOut =? 0)%Z then ret tt
   else die (msg_curl_failed (fst curlOut) elapsed (snd curlOut))) ;;;
  text <- match decode_utf8 (snd curlOut) with
          | Some t => ret t
          | None => raise UnicodeDecodeError
          end ;;
  let respLines := resp_lines text in
  httpStatus <- lift_outcome (parse_status respLines) ;;
  (if (httpStatus =? 401)%Z || (httpStatus =? 403)%Z
   then die (msg_auth httpStatus) else ret tt) ;;;
  ret (removelast respLines, httpStatus, elapsed).

(** The state of the directory scan of [do_upload]. *)
Record scan_state := {
  data : Dict.dict;
  idxEntries : list str;
  assetIdx : Z
}.

Definition asset_key (n : Z) : str := lit "maven2.asset" ++ of_Z n.

Definition msg_no_extension (name : str) : msg :=
  [T (lit "skipping a file without extension: "); T name].

Definition msg_subdir (name : str) : msg :=
  [T (lit "skipping sub-directory: "); T name].

(** The body of the loop over the directory entries. *)
Definition scan_entry (file : DirEntry) (st : scan_state) : M scan_state :=
  if negb (startswith DOT (de_name file)) && de_is_file file then
    let parts := split_on DOT (de_name file) in
    if (List.length parts <? 2)%nat then
      log WARNING (msg_no_extension (de_name file)) ;;; ret st
    else
      let k := asset_key (assetIdx st) in
      let d := Dict.set k (lit "@" ++ de_path file) (data st) in
      let d := Dict.set (k ++ lit ".classifier")
                        (join (lit ".") (removelast parts)) d in
      let d := Dict.set (k ++ lit ".extension") (last parts []) d in
      ret {| data := d;
             idxEntries :=
               idxEntries st
               ++ [Dict.get_or_empty (lit "maven2.artifactId") d ++ lit "-"
                   ++ Dict.get_or_empty (lit "maven2.version") d ++ lit "-"
                   ++ Dict.get_or_empty (k ++ lit ".classifier") d ++ lit "."
                   ++ Dict.get_or_empty (k ++ lit ".extension") d ++ [LF]];
             assetIdx := (assetIdx st + 1)%Z |}
  else if de_is_dir file then
    log INFO (msg_subdir (de_name file)) ;;; ret st
  else ret st.

Definition is_sep (c : char) : bool := (c =? SLASH) || (c =? BACKSLASH).

Definition msg_dot : msg :=
  [T (lit "dir name must not contain a " ++ [DQUOTE] ++ lit "." ++ [DQUOTE]
      ++ lit " (dot)")].

Definition upload_url_full : str :=
  upload_url CONF ++ lit "/service/rest/v1/components?repository="
  ++ upload_repo CONF.

Definition msg_upload_ok (elapsed : Z) : msg :=
  [T (lit "upload OK ("); Delta elapsed; T (lit ")")].

Definition msg_upload_failed (httpStatus : Z) (httpResponse : list str)
           (elapsed : Z) : msg :=
  [T (lit "upload failed stats="); I httpStatus; T (lit " != 204 response=");
   L httpResponse; T (lit " ("); Delta elapsed; T (lit ")")].

Definition msg_no_such (directory : str) : msg :=
  [T (lit "no such file or directory: "); T directory].

Definition msg_not_a_directory : msg :=
  [T (lit "ERROR: target must be a directory")].

(** The form fields known before the scan. *)
Definition upload_data (groupId : str) (version : option str) : Dict.dict :=
  [(lit "maven2.groupId", groupId);
   (lit "maven2.version",
    match version with Some v => v | None => lit "1.0" end)].

(** [do_upload], lines 59 to 80: the checks of the directory.  Returns
    [directory] and [data]. *)
Definition upload_validate : M (str * Dict.dict) :=
  args <- get_args ;;
  let directory := strip_by is_sep (a_directory args) in
  log INFO [T (lit "directory="); T directory] ;;;
  ex <- path_exists directory ;;
  (if negb ex then die (msg_no_such directory) else ret tt) ;;;
  groupId <- get_groupId ;;
  let d := upload_data groupId (a_version args) in
  isd <- path_isdir directory ;;
  (if negb isd then die msg_not_a_directory else ret tt) ;;;
  (if contains DOT directory then die msg_dot else ret tt) ;;;
  let d := Dict.set (lit "maven2.artifactId") (basename directory) d in
  log INFO [T (lit "Nexus artifact path: ");
            T (replace DOT SLASH (Dict.get_or_empty (lit "maven2.groupId") d));
            T (lit "/"); T (Dict.get_or_empty (lit "maven2.artifactId") d)] ;;;
  ret (directory, d).

(** [do_upload], lines 83 to 99: the scan of the directory. *)
Definition upload_scan (d : Dict.dict) : M scan_state :=
  args <- get_args ;;
  dirScan <- os_scandir (a_directory args) ;;
  for_each scan_entry dirScan {| data := d; idxEntries := []; assetIdx := 2 |}.

Definition idx_file_path (directory : str) (d : Dict.dict) : str :=
  directory ++ lit "/" ++ Dict.get_or_empty (lit "maven2.artifactId") d
  ++ lit ".txt".

(** The index file as asset 1. *)
Definition register_index (idxFilePath : str) (d : Dict.dict) : Dict.dict :=
  Dict.set (lit "maven2.asset1.extension") (lit "txt")
           (Dict.set (lit "maven2.asset1") (lit "@" ++ idxFilePath) d).

(** [do_upload], lines 101 to 120: the index file, the transfer, the
    removal of the index file and the check of the status. *)
Definition upload_transfer (directory : str) (st : scan_state) : M unit :=
  let idxFilePath := idx_file_path directory (data st) in
  write_file idxFilePath (idxEntries st) ;;;
  let d := register_index idxFilePath (data st) in
  r <- try_finally (run_curl_cmd upload_url_full (Some d) None)
                   (os_remove idxFilePath) ;;
  let '(httpResponse, httpStatus, elapsed) := r in
  (if negb (httpStatus =? 204)%Z
   then die (msg_upload_failed httpStatus httpResponse elapsed)
   else ret tt) ;;;
  log INFO (msg_upload_ok elapsed).

(** [do_upload(args)] *)
Definition do_upload : M unit :=
  vd <- upload_validate ;;
  st <- upload_scan (snd vd) ;;
  upload_transfer (fst vd) st.

Definition msg_dest_not_empty (destDir : str) : msg :=
  [T (lit "destination directory="); T destDir; T (lit " exists and not empty")].

Definition msg_index_not_found : msg :=
  [T (lit "download failed: directory or index file not found. Did you upload using this tool ?")].

Definition msg_download_failed (httpStatus elapsed : Z) (httpResponse : list str)
  : msg :=
  [T (lit "download failed httpStatus="); I httpStatus; T (lit " (");
   Delta elapsed; T (lit ") httpResp="); L httpResponse; T (lit " ")].

Definition version_or_default (args : Args) : str :=
  match a_version args with Some v => v | None => lit "1.0" end.

Definition dest_dir (args : Args) : str :=
  a_directory args ++ lit "-" ++ version_or_default args.

(** [do_download], lines 124 to 134: the destination directory. *)
Definition download_dest : M unit :=
  args <- get_args ;;
  let artifactId := a_directory args in
  let version := version_or_default args in
  log INFO [T (lit "downloading to directory="); T artifactId; T (lit "-");
            T version; T (lit " ...")] ;;;
  let destDir := dest_dir args in
  ex <- path_exists destDir ;;
  if ex then
    names <- os_listdir destDir ;;
    if negb (List.length names =? 0)%nat then die (msg_dest_not_empty destDir)
    else ret tt
  else os_mkdir destDir.

Definition msg_index_empty : msg :=
  [T (lit "nothing to download (index file is empty !)")].

Definition download_base_url (groupId artifactId version : str) : str :=
  download_url CONF ++ lit "/repository/" ++ download_repo CONF ++ lit "/"
  ++ groupId ++ lit "/" ++ artifactId ++ lit "/" ++ version.

Definition download_files_url (baseUrl : str) (fileNames : list str) : str :=
  let fileHashes := map (fun file => file ++ lit ".md5") fileNames in
  join [] [baseUrl; lit "/"; lit "{";
           join (lit ",") (fileHashes ++ fileNames); lit "}"].

Definition msg_download_ok (elapsed : Z) : msg :=
  [T (lit "donwload OK ("); Delta elapsed; T (lit ")")].

(** [do_download], lines 136 to 158: the index, then the files. *)
Definition download_fetch : M unit :=
  args <- get_args ;;
  let artifactId := a_directory args in
  let version := version_or_default args in
  let destDir := dest_dir args in
  g <- get_groupId ;;
  let groupId := replace DOT SLASH g in
  let baseUrl := download_base_url groupId artifactId version in
  let idxUrl := baseUrl ++ lit "/" ++ destDir ++ lit ".txt" in
  r <- run_curl_cmd idxUrl None None ;;
  let '(fileNames, httpStatus, elapsed) := r in
  (if negb (httpStatus =? 200)%Z then die msg_index_not_found else ret tt) ;;;
  (if (List.length fileNames =? 0)%nat then die msg_index_empty else ret tt) ;;;
  let filesUrl := download_files_url baseUrl fileNames in
  r <- run_curl_cmd filesUrl None (Some destDir) ;;
  let '(httpResponse, httpStatus, elapsed) := r in
  (if negb (httpStatus =? 200)%Z
   then die (msg_download_failed httpStatus elapsed httpResponse)
   else ret tt) ;;;
  log INFO (msg_download_ok elapsed).

(** [do_download(args)] *)
Definition do_download : M unit :=
  download_dest ;;; download_fetch.

(** [main()], after [parse_args]. *)
Definition main : M unit :=
  args <- get_args ;;
  let logLevel :=
    match a_verbose args with
    | Some _ => DEBUG
    | None => if verbose CONF then DEBUG else INFO
    end in
  set_level logLevel ;;;
  if eqb (a_action args) (lit "up") || eqb (a_action args) (lit "upload")
  then do_upload
  else do_download.

(* ================================================================== *)
(** ** Vocabulary of the specification *)
(* ================================================================== *)

(** An eligible file of the scan: no leading dot, a regular file, a dot in
    the name. *)
Definition eligible (f : DirEntry) : bool :=
  negb (startswith DOT (de_name f)) && de_is_file f && contains DOT (de_name f).

(** The file name minus its extension, and the suffix after the last dot. *)
Definition classifier_of (name : str) : str :=
  join (lit ".") (removelast (split_on DOT name)).

Definition extension_of (name : str) : str := last (split_on DOT name) [].

(** [<artifactId>-<version>-<classifier>.<extension>] *)
Definition index_line (artifactId version classifier extension : str) : str :=
  artifactId ++ lit "-" ++ version ++ lit "-" ++ classifier ++ lit "."
  ++ extension.

Definition entry_line (artifactId version : str) (f : DirEntry) : str :=
  index_line artifactId version (classifier_of (de_name f))
             (extension_of (de_name f)).

(** The three form fields of an asset. *)
Inductive role := RFile | RClassifier | RExtension.

Definition key_of (n : Z) (r : role) : str :=
  asset_key n ++ match r with
                 | RFile => []
                 | RClassifier => lit ".classifier"
                 | RExtension => lit ".extension"
                 end.

Definition field_of (f : DirEntry) (r : role) : str :=
  match r with
  | RFile => lit "@" ++ de_path f
  | RClassifier => classifier_of (de_name f)
  | RExtension => extension_of (de_name f)
  end.

(** The state of the scan after one entry, and what the entry adds to the
    log. *)
Definition scan_step (st : scan_state) (f : DirEntry) : scan_state :=
  if eligible f then
    {| data := Dict.set (key_of (assetIdx st) RExtension) (field_of f RExtension)
                 (Dict.set (key_of (assetIdx st) RClassifier) (field_of f RClassifier)
                    (Dict.set (key_of (assetIdx st) RFile) (field_of f RFile)
                       (data st)));
       idxEntries :=
         idxEntries st
         ++ [entry_line (Dict.get_or_empty (lit "maven2.artifactId") (data st))
                        (Dict.get_or_empty (lit "maven2.version") (data st)) f
             ++ [LF]];
       assetIdx := (assetIdx st + 1)%Z |}
  else st.

Definition scan_notice (f : DirEntry) : option (level * msg) :=
  if negb (startswith DOT (de_name f)) && de_is_file f then
    if contains DOT (de_name f) then None
    else Some (WARNING, msg_no_extension (de_name f))
  else if de_is_dir f then Some (INFO, msg_subdir (de_name f))
  else None.

Definition log_notice (o : option (level * msg)) (w : World) : World :=
  match o with
  | Some (l, m) => snd (log l m w)
  | None => w
  end.

(** The form fields at the start of the scan. *)
Definition scan_start (groupId : str) (version : option str) (artifactId : str)
  : scan_state :=
  {| data := Dict.set (lit "maven2.artifactId") artifactId
                      (upload_data groupId version);
     idxEntries := [];
     assetIdx := 2 |}.

(** What the transfer program prints for a fetched body under the write-out
    format of [run_curl_cmd]. *)
Definition curl_output (body : str) (http_code : Z) : str :=
  body ++ [LF] ++ lit "**http_status=" ++ of_Z http_code ++ [LF].



(** An entry of the scan that nothing is done with: the state and the world
    stay as they are. *)
Definition skipped_silently (f : DirEntry) (st : scan_state) (w : World) : Prop :=
  scan_entry f st w = (Ret st, w).

(** An entry that is skipped with one log record. *)
Definition skipped_with (l : level) (m : msg) (f : DirEntry) (st : scan_state)
           (w : World) : Prop :=
  exists w', scan_entry f st w = (Ret st, w')
             /\ w_log w' = w_log w ++ [(l, m)]
             /\ w_root w' = w_root w /\ w_trace w' = w_trace w.

(** An entry that becomes one manifest entry: three form fields under the
    next asset number, one line of the index, and no log record. *)
Definition one_manifest_entry (f : DirEntry) (st : scan_state) (w : World) : Prop :=
  exists st',
    scan_entry f st w = (Ret st', w)
    /\ assetIdx st' = (assetIdx st + 1)%Z
    /\ (forall r, Dict.get (key_of (assetIdx st) r) (data st') = Some (field_of f r))
    /\ (forall k, (forall r, k <> key_of (assetIdx st) r) ->
                  Dict.get k (data st') = Dict.get k (data st))
    /\ idxEntries st'
       = idxEntries st
         ++ [entry_line (Dict.get_or_empty (lit "maven2.artifactId") (data st))
                        (Dict.get_or_empty (lit "maven2.version") (data st)) f
             ++ [LF]]
    /\ classifier_of (de_name f) ++ lit "." ++ extension_of (de_name f) = de_name f
    /\ contains DOT (extension_of (de_name f)) = false.

(** ** Observations on a run *)

(** The messages logged at level [ERROR]. *)
Definition errors (l : list (level * msg)) : list msg :=
  map snd (filter (fun r => match fst r with ERROR => true | _ => false end) l).

Definition is_run (e : event) : bool :=
  match e with EvRun _ => true | _ => false end.

(** No transfer program is started in a piece of a trace. *)
Definition no_run (t : list event) : Prop := Forall (fun e => is_run e = false) t.

(** What the transfer leaves alone: the file system and the surroundings
    of the process. *)
Definition same_env (w w' : World) : Prop :=
  w_root w' = w_root w /\ w_cwd w' = w_cwd w /\ w_environ w' = w_environ w
  /\ w_curl w' = w_curl w /\ w_level w' = w_level w /\ w_tty w' = w_tty w.

(** Worlds that differ in the log only. *)
Definition same_but_log (w w' : World) : Prop :=
  same_env w w' /\ w_args w' = w_args w /\ w_now w' = w_now w
  /\ w_trace w' = w_trace w.

(** No login on the command line, [NEXUS_LOGIN] in the environment,
    [NEXUS_PASSWD] not. *)
Definition login_without_passwd (w : World) : Prop :=
  a_login (w_args w) = None
  /\ (exists l, assoc (lit "NEXUS_LOGIN") (w_environ w) = Some l)
  /\ assoc (lit "NEXUS_PASSWD") (w_environ w) = None.

(** A piece of a message that stands for a transfer: a status code, an
    elapsed time, a captured output. *)
Definition has_status (m : msg) : bool :=
  existsb (fun f => match f with I _ => true | _ => false end) m.

Definition has_elapsed (m : msg) : bool :=
  existsb (fun f => match f with Delta _ => true | _ => false end) m.

Definition has_output (m : msg) : bool :=
  existsb (fun f => match f with B _ | L _ => true | _ => false end) m.

Definition reports_transfer (m : msg) : bool :=
  has_status m && has_elapsed m && has_output m.

(** How [run_curl_cmd] ends once the process has ended with return code
    [rc] and output [out] after [d] microseconds, and the message it logs at
    level [ERROR], if any. *)
Definition transfer_result (rc : Z) (out : bytes) (d : Z)
  : outcome (list str * Z * Z) * list msg :=
  if negb (rc =? 0)%Z then (Exit 1, [msg_curl_failed rc d out])
  else
    match decode_utf8 out with
    | None => (Raise UnicodeDecodeError, [])
    | Some text =>
        match parse_status (resp_lines text) with
        | Ret s =>
            if (s =? 401)%Z || (s =? 403)%Z then (Exit 1, [msg_auth s])
            else (Ret (removelast (resp_lines text), s, d), [])
        | Exit c => (Exit c, [])
        | Raise e => (Raise e, [])
        end
    end.

(** Worlds that differ in the file system and the trace only. *)
Definition same_but_fs (w w' : World) : Prop :=
  w_cwd w' = w_cwd w /\ w_environ w' = w_environ w /\ w_curl w' = w_curl w
  /\ w_level w' = w_level w /\ w_tty w' = w_tty w /\ w_args w' = w_args w
  /\ w_now w' = w_now w /\ w_log w' = w_log w.

(** The [groupId] of a run. *)
Definition full_groupId (args : Args) : str :=
  if truthy (groupId_prefix CONF)
  then groupId_prefix CONF ++ lit "." ++ a_group args
  else a_group args.

(** The directory of an upload, trimmed. *)
Definition upload_directory (args : Args) : str :=
  strip_by is_sep (a_directory args).

(** A trace that holds process starts only. *)
Definition only_runs (t : list event) : Prop :=
  Forall (fun e => is_run e = true) t.

(** The URL of the index file of a download. *)
Definition index_url (args : Args) : str :=
  download_base_url (replace DOT SLASH (full_groupId args)) (a_directory args)
                    (version_or_default args)
  ++ lit "/" ++ dest_dir args ++ lit ".txt".

(** The URL of the files of a download. *)
Definition files_url (args : Args) (fileNames : list str) : str :=
  download_files_url
    (download_base_url (replace DOT SLASH (full_groupId args)) (a_directory args)
                       (version_or_default args))
    fileNames.

(** The world of a run once [main] has configured the logger. *)
Definition configured (w : World) : World :=
  snd (set_level (match a_verbose (w_args w) with
                  | Some _ => DEBUG
                  | None => if verbose CONF then DEBUG else INFO
                  end) w).

Definition is_upload (args : Args) : bool :=
  eqb (a_action args) (lit "up") || eqb (a_action args) (lit "upload").

(** The call [run_curl_cmd url data outdir] in the world [w] finds its
    credentials, and its process ends with return code [rc] and output [out]
    after [d] microseconds. *)
Definition completed_with (w : World) (url : str) (data : option Dict.dict)
           (outdir : option str) (rc : Z) (out : bytes) (d : Z) : Prop :=
  exists auth wa,
    get_auth w = (Ret auth, wa)
    /\ w_curl wa (curl_cmd auth url data outdir) (w_root wa) (w_cwd wa)
       = Completed rc out d.

(** The call is answered: the process ends well after [d] microseconds, its
    output is the text [text], and the status line of the text reads [s]. *)
Definition answered (w : World) (url : str) (data : option Dict.dict)
           (outdir : option str) (text : str) (d s : Z) : Prop :=
  exists out,
    completed_with w url data outdir 0 out d
    /\ decode_utf8 out = Some text
    /\ parse_status (resp_lines text) = Ret s.

(** The process of the call cannot be run, or runs out of time. *)
Definition not_run (w : World) (url : str) (data : option Dict.dict)
           (outdir : option str) (e : exn) : Prop :=
  exists auth wa,
    get_auth w = (Ret auth, wa)
    /\ w_curl wa (curl_cmd auth url data outdir) (w_root wa) (w_cwd wa)
       = ProcError e.

(** An upload that has passed its checks, listed its directory and written
    its index file: the state of the scan, the path and the manifest of the
    transfer call, and the world of that call. *)
Definition upload_reaches_transfer (w : World) (st : scan_state) (p : str)
           (w1 : World) : Prop :=
  exists vd wv ws,
    upload_validate w = (Ret vd, wv)
    /\ upload_scan (snd vd) wv = (Ret st, ws)
    /\ p = idx_file_path (fst vd) (data st)
    /\ write_file p (idxEntries st) ws = (Ret tt, w1).

(** A run ends with [sys.exit(1)], the message [m] being the one error
    message of its log. *)
Definition exits_with (A : Type) (r : outcome A * World) (w : World) (m : msg)
  : Prop :=
  fst r = Exit 1
  /\ exists l, w_log (snd r) = w_log w ++ l /\ errors l = [m].

(** ** Sample worlds *)

Definition sample_report : node :=
  Dir [(lit "summary.pdf", File (lit "%PDF"));
       (lit "data.csv", File (lit "a,b"));
       (lit ".DS_Store", File [])].

Definition sample_root : node :=
  Dir [(lit "home", Dir [(lit "u", Dir [(lit "report", sample_report)])])].

Definition sample_args (action directory : str) : Args :=
  {| a_login := Some (lit "alice"); a_passwd := Some (lit "secret");
     a_group := lit "ops"; a_version := Some (lit "2.1"); a_verbose := None;
     a_action := action; a_directory := directory |}.

(** A transfer program that answers every command with the HTTP status
    [code] and no body. *)
Definition curl_status (code : string) : list str -> node -> list str -> proc_result :=
  fun _ _ _ => Completed 0 ([LF] ++ lit "**http_status=" ++ lit code ++ [LF]) 1500000.

Definition sample_world (root : node) (args : Args) (environ : list (str * str))
           (curl : list str -> node -> list str -> proc_result) : World :=
  {| w_root := root; w_cwd := [lit "home"; lit "u"]; w_environ := environ;
     w_args := args; w_tty := None; w_now := 0%Z; w_curl := curl;
     w_level := INFO; w_log := []; w_trace := [] |}.

Definition world_upload_ok : World :=
  sample_world sample_root (sample_args (lit "upload") (lit "report")) []
               (curl_status "204").

Definition regular_file (dir name : str) : DirEntry :=
  dir_entry dir (name, File []).

Definition sub_directory (dir name : str) : DirEntry :=
  dir_entry dir (name, Dir []).

Definition world_upload_500 : World :=
  sample_world sample_root (sample_args (lit "upload") (lit "report")) []
               (curl_status "500").

(** A transfer program that cannot be started. *)
Definition curl_missing : list str -> node -> list str -> proc_result :=
  fun _ _ _ => ProcError FileNotFoundError.

Definition world_upload_no_curl : World :=
  sample_world sample_root (sample_args (lit "upload") (lit "report")) []
               curl_missing.

(** The path of the index file of an upload. *)
Definition index_path (args : Args) : str :=
  upload_directory args ++ lit "/" ++ basename (upload_directory args)
  ++ lit ".txt".

(** An upload that ends with [sys.exit(1)] after logging the one error
    message [m]. *)
Definition upload_fails_with (m : msg) (w : World) : Prop :=
  exists w' l, do_upload w = (Exit 1, w') /\ w_log w' = w_log w ++ l
               /\ errors l = [m].

(** A directory [c] inside a directory whose name has a dot. *)
Definition dotted_root : node :=
  Dir [(lit "home", Dir [(lit "u", Dir [(lit "a.b", Dir [(lit "c", sample_report)])])])].

Definition world_dotted_parent : World :=
  sample_world dotted_root (sample_args (lit "upload") (lit "a.b/c")) []
               (curl_status "204").

Definition world_dotted_name : World :=
  sample_world dotted_root (sample_args (lit "upload") (lit "a.b")) []
               (curl_status "204").

(** A repository that holds the index and the files of [report], version
    2.1: the index fetch gives the two names, the bulk fetch gives nothing
    on its output. *)
Definition curl_download : list str -> node -> list str -> proc_result :=
  fun cmd _ _ =>
    if existsb (eqb (lit "--output-dir")) cmd
    then Completed 0 ([LF] ++ lit "**http_status=200" ++ [LF]) 2500000
    else Completed 0 (lit "report-2.1-summary.pdf" ++ [LF]
                      ++ lit "report-2.1-data.csv" ++ [LF]
                      ++ [LF] ++ lit "**http_status=200" ++ [LF]) 300000.

Definition world_download_ok : World :=
  sample_world sample_root (sample_args (lit "download") (lit "report")) []
               curl_download.

Definition world_download_404 : World :=
  sample_world sample_root (sample_args (lit "download") (lit "report")) []
               (curl_status "404").



(** A run that ends with [sys.exit(1)], its one error message being the one
    about [NEXUS_PASSWD], with no process started. *)
Definition config_error_run (w : World) : Prop :=
  exists w' l t,
    main w = (Exit 1, w') /\ w_log w' = w_log w ++ l
    /\ errors l = [msg_no_passwd]
    /\ w_trace w' = w_trace w ++ t /\ no_run t.

Definition args_no_login (action directory : str) : Args :=
  {| a_login := None; a_passwd := None;
     a_group := lit "ops"; a_version := Some (lit "2.1"); a_verbose := None;
     a_action := action; a_directory := directory |}.

Definition environ_login_only : list (str * str) :=
  [(lit "NEXUS_LOGIN", lit "alice")].

(** [NEXUS_LOGIN] without [NEXUS_PASSWD]: an upload of [report], and an
    upload of a directory that does not exist. *)
Definition world_no_passwd : World :=
  sample_world sample_root (args_no_login (lit "upload") (lit "report"))
               environ_login_only (curl_status "204").

Definition world_no_passwd_missing : World :=
  sample_world sample_root (args_no_login (lit "upload") (lit "missing"))
               environ_login_only (curl_status "204").

Definition world_upload_403 : World :=
  sample_world sample_root (sample_args (lit "upload") (lit "report")) []
               (curl_status "403").

(** A transfer program that ends with return code 22. *)
Definition curl_exit_22 : list str -> node -> list str -> proc_result :=
  fun _ _ _ => Completed 22 (lit "curl: (22) error") 700000.

Definition world_upload_exit_22 : World :=
  sample_world sample_root (sample_args (lit "upload") (lit "report")) []
               curl_exit_22.

(** A run that ends with [sys.exit(1)] and one error message, which tells
    a status code, an elapsed time and a captured output. *)
Definition transport_failure_reported (w : World) : Prop :=
  exists m, exits_with (main w) w m /\ reports_transfer m = true.

(** The directory [D] lists a regular file [name] with the content [c0];
    the directory [D] lists no entry [name]. *)
Definition dir_has_file (root : node) (cwd : list str) (D name c0 : str) : Prop :=
  exists es, stat root cwd D = Some (Dir es) /\ assoc name es = Some (File c0).

Definition dir_lacks (root : node) (cwd : list str) (D name : str) : Prop :=
  exists es, stat root cwd D = Some (Dir es) /\ assoc name es = None.

(** The name of the index file of an upload. *)
Definition index_name (args : Args) : str :=
  basename (upload_directory args) ++ lit ".txt".

(** The loss of the file as the specification states it: a file with the
    name of the index file that the uploaded directory holds before the run
    is gone after a run that has reached the transfer call. *)
Definition index_file_lost (w : World) : Prop :=
  forall c0 st p w1,
    dir_has_file (w_root w) (w_cwd w) (a_directory (w_args w))
                 (index_name (w_args w)) c0 ->
    upload_reaches_transfer w st p w1 ->
    dir_lacks (w_root (snd (do_upload w))) (w_cwd (snd (do_upload w)))
              (a_directory (w_args w)) (index_name (w_args w)).

(** The directory argument and its trimmed form name the same directory. *)
Definition same_directory (w : World) : Prop :=
  resolve (w_root w) (w_cwd w) (a_directory (w_args w))
  = resolve (w_root w) (w_cwd w) (upload_directory (w_args w)).

(** [/srv/report] holds a file [report.txt]; the current directory holds an
    empty directory [srv/report]. *)
Definition absolute_root : node :=
  Dir [(lit "srv",
        Dir [(lit "report",
              Dir [(lit "report.txt", File (lit "precious"));
                   (lit "a.bin", File [])])]);
       (lit "home",
        Dir [(lit "u", Dir [(lit "srv", Dir [(lit "report", Dir [])])])])].

Definition world_absolute : World :=
  sample_world absolute_root (sample_args (lit "upload") (lit "/srv/report")) []
               (curl_status "204").

(** [report] holds a file [report.txt] already. *)
Definition clobber_root : node :=
  Dir [(lit "home",
        Dir [(lit "u",
              Dir [(lit "report",
                    Dir [(lit "report.txt", File (lit "precious"));
                         (lit "a.bin", File [])])])])].

Definition world_clobber : World :=
  sample_world clobber_root (sample_args (lit "upload") (lit "report")) []
               (curl_status "204").

(** ** Relations between the worlds of a run *)

(** A computation keeps a relation between the world it starts in and the
    world it ends in. *)
Definition preserves (A : Type) (R : World -> World -> Prop) (m : M A) : Prop :=
  forall w, R w (snd (m w)).

(** What a run is asked for: the action, the directory, the group, the
    version and the verbosity. *)
Definition same_request (a a' : Args) : Prop :=
  a_group a' = a_group a /\ a_version a' = a_version a
  /\ a_verbose a' = a_verbose a /\ a_action a' = a_action a
  /\ a_directory a' = a_directory a.

(** The records of a piece of a log are at the level [lv] or above. *)
Definition at_or_above (lv : level) (l : list (level * msg)) : Prop :=
  Forall (fun r => (level_rank lv <= level_rank (fst r))%nat) l.

(** The request, the surroundings and the level of the logger stay, and the
    log grows by records at that level or above. *)
Definition steady (w w' : World) : Prop :=
  same_request (w_args w) (w_args w')
  /\ w_cwd w' = w_cwd w /\ w_environ w' = w_environ w /\ w_curl w' = w_curl w
  /\ w_tty w' = w_tty w /\ w_level w' = w_level w
  /\ exists l, w_log w' = w_log w ++ l /\ at_or_above (w_level w) l.


(** The regular file at a canonical path, if there is one. *)
Definition file_at (root : node) (q : list str) : option str :=
  match lookup root q with
  | Some (File c) => Some c
  | _ => None
  end.

(** The status line of an output under the write-out format. *)
Definition status_line (http_code : Z) : str :=
  lit "**http_status=" ++ of_Z http_code.


(** ** More sample worlds *)

Definition environ_credentials : list (str * str) :=
  [(lit "NEXUS_LOGIN", lit "alice"); (lit "NEXUS_PASSWD", lit "secret")].

(** The credentials come from the environment. *)
Definition world_env_credentials : World :=
  sample_world sample_root (args_no_login (lit "upload") (lit "report"))
               environ_credentials (curl_status "204").

(** A transfer program that ends well and prints nothing. *)
Definition curl_silent : list str -> node -> list str -> proc_result :=
  fun _ _ _ => Completed 0 [] 1000.

Definition world_silent : World :=
  sample_world sample_root (sample_args (lit "download") (lit "report")) []
               curl_silent.

(** A transfer program whose output is no UTF-8 text. *)
Definition curl_binary : list str -> node -> list str -> proc_result :=
  fun _ _ _ => Completed 0 [255; 254] 1000.

Definition world_binary : World :=
  sample_world sample_root (sample_args (lit "download") (lit "report")) []
               curl_binary.

(** The target of the upload is a regular file. *)
Definition world_upload_file : World :=
  sample_world sample_root (sample_args (lit "upload") (lit "report/data.csv")) []
               (curl_status "204").

Definition world_upload_missing : World :=
  sample_world sample_root (sample_args (lit "upload") (lit "missing")) []
               (curl_status "204").

(** The directory is named with a backslash after it. *)
Definition world_upload_backslash : World :=
  sample_world sample_root (sample_args (lit "upload") (lit "report" ++ [BACKSLASH])) []
               (curl_status "204").

(** A directory without an eligible file. *)
Definition bare_root : node :=
  Dir [(lit "home",
        Dir [(lit "u",
              Dir [(lit "bare",
                    Dir [(lit ".keep", File []);
                         (lit "README", File (lit "read me"));
                         (lit "old", Dir [])])])])].

Definition world_upload_bare : World :=
  sample_world bare_root (sample_args (lit "upload") (lit "bare")) []
               (curl_status "204").

(** The destination of the download is there: a regular file, or an empty
    directory. *)
Definition dest_file_root : node :=
  Dir [(lit "home", Dir [(lit "u", Dir [(lit "report-2.1", File [])])])].

Definition world_download_dest_file : World :=
  sample_world dest_file_root (sample_args (lit "download") (lit "report")) []
               curl_download.

Definition dest_empty_root : node :=
  Dir [(lit "home", Dir [(lit "u", Dir [(lit "report-2.1", Dir [])])])].

Definition world_download_dest_empty : World :=
  sample_world dest_empty_root (sample_args (lit "download") (lit "report")) []
               curl_download.

(** The index of the repository is empty. *)
Definition world_download_empty : World :=
  sample_world sample_root (sample_args (lit "download") (lit "report")) []
               (curl_status "200").

(** A verbose upload. *)
Definition verbose_args (action directory : str) : Args :=
  {| a_login := Some (lit "alice"); a_passwd := Some (lit "secret");
     a_group := lit "ops"; a_version := Some (lit "2.1"); a_verbose := Some true;
     a_action := action; a_directory := directory |}.

Definition world_verbose : World :=
  configured (sample_world sample_root (verbose_args (lit "upload") (lit "report"))
                           [] (curl_status "204")).

(** The world of a run that is given another directory. *)
Definition with_directory (w : World) (d : str) : World :=
  {| w_root := w_root w; w_cwd := w_cwd w; w_environ := w_environ w;
     w_args := {| a_login := a_login (w_args w); a_passwd := a_passwd (w_args w);
                  a_group := a_group (w_args w);
                  a_version := a_version (w_args w);
                  a_verbose := a_verbose (w_args w);
                  a_action := a_action (w_args w); a_directory := d |};
     w_tty := w_tty w; w_now := w_now w; w_curl := w_curl w;
     w_level := w_level w; w_log := w_log w; w_trace := w_trace w |}.

(** ** Names that are free, and the record of the command line *)

(** The walk along [p] ends where nothing stands: every component before
    the last names a directory that is there, and the last names no entry of
    it. *)
Definition free_name (root : node) (cwd : list str) (p : str) : Prop :=
  exists q, resolve root cwd p = Some q /\ lookup root q = None.




(** [/f] is a regular file; the current directory holds a directory
    [f/report]. *)
Definition through_file_root : node :=
  Dir [(lit "f", File (lit "x"));
       (lit "home",
        Dir [(lit "u", Dir [(lit "f", Dir [(lit "report", sample_report)])])])].

Definition world_upload_through_file : World :=
  sample_world through_file_root (sample_args (lit "upload") (lit "/f/report")) []
               (curl_status "204").

(** The record that holds the command line of the transfer program. *)
Definition is_cmd_record (m : msg) : bool :=
  match m with
  | [T s; L _] => eqb s (lit "curl cmd=")
  | _ => false
  end.

(** The log grows by records that are at the level [DEBUG], or are not the
    record of the command line. *)
Definition discreet (w w' : World) : Prop :=
  exists l, w_log w' = w_log w ++ l
            /\ Forall (fun r => fst r = DEBUG \/ is_cmd_record (snd r) = false) l.


(* ================================================================== *)
(** * Properties *)
(* ================================================================== *)

(** ** The model at work *)

Example splitlines_ex :
  splitlines (lit "a" ++ [CR; LF] ++ lit "b" ++ [LF; LF] ++ lit "c" ++ [LF])
  = [lit "a"; lit "b"; []; lit "c"].
Proof. reflexivity. Qed.

Example split_ex : split_on DOT (lit "a.tar.gz") = [lit "a"; lit "tar"; lit "gz"].
Proof. reflexivity. Qed.

Example strip_ex : strip (lit "  a b " ++ [CR]) = lit "a b".
Proof. reflexivity. Qed.

Example to_int_ex :
  to_int (lit " 4_03 ") = Some 403%Z /\ to_int (lit "4__03") = None
  /\ to_int (lit "-12") = Some (-12)%Z /\ to_int (lit "") = None.
Proof. repeat split. Qed.

Example of_Z_ex : of_Z 12 = lit "12" /\ asset_key 2 = lit "maven2.asset2".
Proof. split; reflexivity. Qed.

Example decode_utf8_ex :
  decode_utf8 [104; 195; 169; 226; 130; 172] = Some [104; 233; 8364]
  /\ decode_utf8 [192; 128] = None /\ decode_utf8 [237; 160; 128] = None.
Proof. repeat split. Qed.

Example resolve_ex :
  resolve sample_root [lit "home"; lit "u"] (lit "../u/./report//")
  = Some [lit "home"; lit "u"; lit "report"]
  /\ resolve sample_root [lit "home"; lit "u"] (lit "report/data.csv/") = None
  /\ stat sample_root [] (lit "/home/u/report/data.csv") = Some (File (lit "a,b"))
  /\ basename (lit "a/b/report") = lit "report".
Proof. repeat split. Qed.

(** The scenario of the specification: the upload of [report], with the
    group [ops] and the version 2.1. *)
Example upload_report_run :
  fst (do_upload world_upload_ok) = Ret tt
  /\ w_trace (snd (do_upload world_upload_ok))
     = [EvWrite (lit "report/report.txt")
                (lit "report-2.1-summary.pdf" ++ [LF]
                 ++ lit "report-2.1-data.csv" ++ [LF]);
        EvRun
          ([lit "curl"; lit "--parallel"; lit "--write-out"; write_out_format;
            lit "-u"; lit "alice:secret";
            lit "-F"; lit "maven2.groupId=fr.gouv.minint.rrf.ops";
            lit "-F"; lit "maven2.version=2.1";
            lit "-F"; lit "maven2.artifactId=report";
            lit "-F"; lit "maven2.asset2=@report/summary.pdf";
            lit "-F"; lit "maven2.asset2.classifier=summary";
            lit "-F"; lit "maven2.asset2.extension=pdf";
            lit "-F"; lit "maven2.asset3=@report/data.csv";
            lit "-F"; lit "maven2.asset3.classifier=data";
            lit "-F"; lit "maven2.asset3.extension=csv";
            lit "-F"; lit "maven2.asset1=@report/report.txt";
            lit "-F"; lit "maven2.asset1.extension=txt";
            upload_url_full]);
        EvRemove (lit "report/report.txt")].
Proof. split; vm_compute; reflexivity. Qed.

(** The download of the same artifact into an empty working directory. *)
Example download_report_run :
  fst (do_download world_download_ok) = Ret tt
  /\ w_trace (snd (do_download world_download_ok))
     = [EvMkdir (lit "report-2.1");
        EvRun
          [lit "curl"; lit "--parallel"; lit "--write-out"; write_out_format;
           lit "-u"; lit "alice:secret";
           lit "https://nexus.forge-dc.cloudmi.minint.fr/repository/rrf-myatos.net/fr/gouv/minint/rrf/ops/report/2.1/report-2.1.txt"];
        EvRun
          [lit "curl"; lit "--parallel"; lit "--write-out"; write_out_format;
           lit "-u"; lit "alice:secret";
           lit "--remote-name-all"; lit "--retry"; lit "6";
           lit "--retry-delay"; lit "10"; lit "--output-dir"; lit "report-2.1";
           lit "https://nexus.forge-dc.cloudmi.minint.fr/repository/rrf-myatos.net/fr/gouv/minint/rrf/ops/report/2.1/{report-2.1-summary.pdf.md5,report-2.1-data.csv.md5,report-2.1-summary.pdf,report-2.1-data.csv}"]]
  /\ w_log (snd (do_download world_download_ok))
     = [(INFO, [T (lit "downloading to directory="); T (lit "report");
                T (lit "-"); T (lit "2.1"); T (lit " ...")]);
        (INFO, [T (lit "donwload OK ("); Delta 2500000; T (lit ")")])].
Proof. repeat split; vm_compute; reflexivity. Qed.

(** ** Strings *)

Lemma eqb_eq (a b : str) : eqb a b = true <-> a = b.
Proof. unfold eqb. destruct (str_eq_dec a b); split; congruence. Qed.

Lemma eqb_neq (a b : str) : eqb a b = false <-> a <> b.
Proof. unfold eqb. destruct (str_eq_dec a b); split; congruence. Qed.

Lemma eqb_refl (a : str) : eqb a a = true.
Proof. now apply eqb_eq. Qed.

Lemma eqb_sym (a b : str) : eqb a b = eqb b a.
Proof.
  unfold eqb. destruct (str_eq_dec a b), (str_eq_dec b a); congruence.
Qed.

Lemma contains_app c a b : contains c (a ++ b) = contains c a || contains c b.
Proof. apply existsb_app. Qed.

Lemma contains_false_iff c s :
  contains c s = false <-> Forall (fun x => x <> c) s.
Proof.
  unfold contains. induction s as [|x s IH]; simpl.
  - split; auto.
  - rewrite orb_false_iff, IH. split.
    + intros [Hx Hs]. constructor; auto.
      intros ->. now rewrite N.eqb_refl in Hx.
    + intros H. inversion_clear H. split; auto.
      apply N.eqb_neq. congruence.
Qed.

Lemma split_on_not_nil sep s : split_on sep s <> [].
Proof.
  destruct s as [|c r]; simpl; [discriminate|].
  destruct (c =? sep); [discriminate|].
  destruct (split_on sep r); discriminate.
Qed.

Lemma split_on_no_sep sep s : contains sep s = false -> split_on sep s = [s].
Proof.
  unfold contains. induction s as [|c r IH]; simpl; auto.
  rewrite orb_false_iff. intros [Hc Hr].
  rewrite N.eqb_sym, Hc, (IH Hr). reflexivity.
Qed.

Lemma split_on_sep_length sep s :
  contains sep s = true -> (2 <= List.length (split_on sep s))%nat.
Proof.
  unfold contains. induction s as [|c r IH]; simpl; [discriminate|].
  rewrite N.eqb_sym. destruct (c =? sep) eqn:E; simpl.
  - intros _. pose proof (split_on_not_nil sep r).
    destruct (split_on sep r); simpl; [congruence | lia].
  - intros H. specialize (IH H).
    destruct (split_on sep r); simpl in *; lia.
Qed.

(** [len(parts) < 2] is the test for a name without a dot. *)
Lemma split_on_short sep s :
  (List.length (split_on sep s) <? 2)%nat = negb (contains sep s).
Proof.
  destruct (contains sep s) eqn:E; simpl.
  - apply Nat.ltb_ge. now apply split_on_sep_length.
  - now rewrite split_on_no_sep.
Qed.

Lemma join_split sep s : join [sep] (split_on sep s) = s.
Proof.
  induction s as [|c r IH]; simpl; auto.
  destruct (c =? sep) eqn:E.
  - apply N.eqb_eq in E. subst c.
    pose proof (split_on_not_nil sep r).
    destruct (split_on sep r) eqn:S; [congruence|].
    simpl. now rewrite <- IH.
  - pose proof (split_on_not_nil sep r).
    destruct (split_on sep r) as [|l ls] eqn:S; [congruence|].
    rewrite <- IH. destruct ls; reflexivity.
Qed.

Lemma split_on_parts_no_sep sep s :
  Forall (fun p => contains sep p = false) (split_on sep s).
Proof.
  induction s as [|c r IH]; simpl.
  - constructor; auto.
  - destruct (c =? sep) eqn:E.
    + constructor; auto.
    + destruct (split_on sep r) as [|l ls].
      * constructor; auto. simpl. now rewrite N.eqb_sym, E.
      * inversion_clear IH. constructor; auto.
        simpl. now rewrite N.eqb_sym, E.
Qed.

Lemma join_snoc sep (l : list str) x :
  l <> [] -> join sep (l ++ [x]) = join sep l ++ sep ++ x.
Proof.
  induction l as [|p l IH]; [congruence|]. intros _.
  destruct l as [|p' l'].
  - reflexivity.
  - change (join sep ((p :: p' :: l') ++ [x]))
      with (p ++ sep ++ join sep ((p' :: l') ++ [x])).
    rewrite IH by discriminate.
    change (join sep (p :: p' :: l')) with (p ++ sep ++ join sep (p' :: l')).
    now rewrite <- !app_assoc.
Qed.

Lemma join_removelast_last sep (parts : list str) :
  (2 <= List.length parts)%nat ->
  join sep (removelast parts) ++ sep ++ last parts [] = join sep parts.
Proof.
  intros H.
  destruct (@exists_last _ parts) as (l & a & ->).
  { destruct parts; simpl in H; [lia | discriminate]. }
  rewrite removelast_last, last_last.
  symmetry. apply join_snoc.
  destruct l; [simpl in H; lia | discriminate].
Qed.

(** The classifier and the extension of a name with a dot give the name
    back, and the extension is the suffix after the last dot. *)
Lemma classifier_extension name :
  contains DOT name = true ->
  let parts := split_on DOT name in
  join (lit ".") (removelast parts) ++ lit "." ++ last parts [] = name
  /\ contains DOT (last parts []) = false.
Proof.
  intros H parts. split.
  - unfold parts. change (lit ".") with [DOT].
    rewrite join_removelast_last by now apply split_on_sep_length.
    apply join_split.
  - pose proof (split_on_parts_no_sep DOT name) as F.
    pose proof (split_on_not_nil DOT name) as NN.
    fold parts in F, NN.
    rewrite Forall_forall in F. apply F.
    destruct parts; [congruence|]. apply (@exists_last _ (s :: parts)) in NN.
    destruct NN as (l' & a & ->). rewrite last_last. apply in_or_app. right. now left.
Qed.

Lemma dropwhile_id p s : (forall c r, s = c :: r -> p c = false) -> dropwhile p s = s.
Proof.
  destruct s as [|c r]; simpl; auto.
  intros H. now rewrite (H c r eq_refl).
Qed.

Lemma strip_by_contains p c s :
  p c = false -> contains c (strip_by p s) = contains c s.
Proof.
  intros Hc.
  assert (D : forall t, contains c (dropwhile p t) = contains c t).
  { induction t as [|x t IH]; simpl; auto.
    destruct (p x) eqn:E; simpl; auto.
    rewrite IH. destruct (c =? x) eqn:E2; auto.
    apply N.eqb_eq in E2. congruence. }
  assert (R : forall t, contains c (rev t) = contains c t).
  { intros t. unfold contains. induction t as [|x t IH]; auto.
    change (rev (x :: t)) with (rev t ++ [x]).
    rewrite existsb_app. simpl. rewrite orb_false_r, orb_comm. f_equal. exact IH. }
  unfold strip_by, rstrip, lstrip. now rewrite R, D, R, D.
Qed.

(** *** Lines *)

Lemma splitlines_line l s :
  forallb (fun c => negb (is_linebreak c)) l = true ->
  splitlines (l ++ LF :: s) = l :: splitlines s.
Proof.
  induction l as [|c l IH]; simpl.
  - reflexivity.
  - rewrite andb_true_iff, negb_true_iff. intros [Hc Hl].
    rewrite Hc, (IH Hl). reflexivity.
Qed.

Lemma splitlines_last l :
  forallb (fun c => negb (is_linebreak c)) l = true ->
  splitlines (l ++ [LF]) = [l].
Proof.
  intros H. now rewrite splitlines_line.
Qed.

Lemma resp_lines_filter text :
  resp_lines text = filter truthy (map strip (splitlines text)).
Proof.
  unfold resp_lines.
  enough (G : forall ls acc,
             fold_left
               (fun respLines line =>
                  let strippedLine := strip line in
                  if truthy strippedLine then respLines ++ [strippedLine]
                  else respLines) ls acc
             = acc ++ filter truthy (map strip ls)) by apply (G _ []).
  induction ls as [|l ls IH]; intros acc; simpl.
  - now rewrite app_nil_r.
  - rewrite IH. destruct (truthy (strip l)); simpl; auto.
    now rewrite <- app_assoc.
Qed.

(** *** Decimal numerals *)

Lemma lit_inj a b : lit a = lit b -> a = b.
Proof.
  unfold lit. intros H.
  rewrite <- (string_of_list_ascii_of_string a), <- (string_of_list_ascii_of_string b).
  f_equal. revert H. generalize (list_ascii_of_string a) (list_ascii_of_string b).
  intros la. induction la as [|x la IH]; intros [|y lb]; simpl;
    try discriminate; auto.
  intros [= H1 H2]. f_equal; auto.
  rewrite <- (ascii_N_embedding x), <- (ascii_N_embedding y). now f_equal.
Qed.

Lemma to_int_not_nil z : Z.to_int z <> Decimal.Pos Decimal.Nil /\ Z.to_int z <> Decimal.Neg Decimal.Nil.
Proof.
  split; intros H; pose proof (DecimalZ.of_to z) as E; rewrite H in E;
    simpl in E; subst z; discriminate.
Qed.

Lemma of_Z_inj a b : of_Z a = of_Z b -> a = b.
Proof.
  unfold of_Z. intros H. apply lit_inj in H.
  apply DecimalZ.to_int_inj.
  destruct (to_int_not_nil a), (to_int_not_nil b).
  assert (Some (Z.to_int a) = Some (Z.to_int b)) as [= E]; auto.
  rewrite <- (@NilZero.isi (Z.to_int a)), <- (@NilZero.isi (Z.to_int b)) by auto.
  now rewrite H.
Qed.

Lemma lit_app a b : lit (a ++ b) = lit a ++ lit b.
Proof.
  unfold lit. induction a as [|x a IH]; simpl; auto. now rewrite IH.
Qed.

Lemma uint_no_dot d : contains DOT (lit (NilEmpty.string_of_uint d)) = false.
Proof.
  induction d; simpl; auto.
Qed.

Lemma of_Z_no_dot z : contains DOT (of_Z z) = false.
Proof.
  unfold of_Z. destruct (Z.to_int z) as [d|d]; simpl.
  - destruct d; try reflexivity; apply (uint_no_dot (_ d)).
  - destruct d; try reflexivity; apply (uint_no_dot (_ d)).
Qed.

(** ** Dicts and the keys of the form *)

Lemma get_set_same k v d : Dict.get k (Dict.set k v d) = Some v.
Proof.
  induction d as [|[k' v'] d IH]; simpl.
  - now rewrite eqb_refl.
  - destruct (eqb k' k) eqn:E; simpl.
    + now rewrite eqb_refl.
    + now rewrite E.
Qed.

Lemma get_set_other k k' v d : k <> k' -> Dict.get k (Dict.set k' v d) = Dict.get k d.
Proof.
  intros N. induction d as [|[k0 v0] d IH]; simpl.
  - apply eqb_neq in N. destruct (eqb k' k) eqn:E; auto.
    apply eqb_eq in E. apply eqb_neq in N. congruence.
  - destruct (eqb k0 k') eqn:E; simpl.
    + apply eqb_eq in E. subst k0.
      destruct (eqb k' k) eqn:E2; auto.
      apply eqb_eq in E2. congruence.
    + destruct (eqb k0 k); auto.
Qed.

Lemma key_of_inj a r b r' : key_of a r = key_of b r' -> a = b /\ r = r'.
Proof.
  unfold key_of, asset_key. rewrite <- !app_assoc.
  intros H. apply app_inv_head in H.
  assert (Ha := of_Z_no_dot a). assert (Hb := of_Z_no_dot b).
  destruct r, r'; rewrite ?app_nil_r in H.
  - split; auto. now apply of_Z_inj.
  - rewrite H, contains_app in Ha. simpl in Ha. now rewrite orb_true_r in Ha.
  - rewrite H, contains_app in Ha. simpl in Ha. now rewrite orb_true_r in Ha.
  - rewrite <- H, contains_app in Hb. simpl in Hb. now rewrite orb_true_r in Hb.
  - apply app_inv_tail in H. split; auto. now apply of_Z_inj.
  - apply (f_equal (@rev _)) in H. rewrite !rev_app_distr in H. discriminate.
  - rewrite <- H, contains_app in Hb. simpl in Hb. now rewrite orb_true_r in Hb.
  - apply (f_equal (@rev _)) in H. rewrite !rev_app_distr in H. discriminate.
  - apply app_inv_tail in H. split; auto. now apply of_Z_inj.
Qed.

Lemma key_of_not_static n r :
  key_of n r <> lit "maven2.groupId" /\ key_of n r <> lit "maven2.version"
  /\ key_of n r <> lit "maven2.artifactId".
Proof.
  unfold key_of, asset_key. repeat split; intros [=].
Qed.

(** ** The scan of the directory *)

#[local] Arguments lit : simpl never.
#[local] Arguments of_Z : simpl never.
#[local] Arguments asset_key : simpl never.
#[local] Arguments key_of : simpl never.

Lemma get_or_empty_set_other k k' v d :
  k <> k' -> Dict.get_or_empty k (Dict.set k' v d) = Dict.get_or_empty k d.
Proof. intros H. unfold Dict.get_or_empty. now rewrite get_set_other. Qed.

Lemma get_or_empty_set_same k v d : Dict.get_or_empty k (Dict.set k v d) = v.
Proof. unfold Dict.get_or_empty. now rewrite get_set_same. Qed.

Lemma key_of_RFile n : key_of n RFile = asset_key n.
Proof. unfold key_of. apply app_nil_r. Qed.

(** One turn of the loop returns: it changes the state as [scan_step] says
    and the world by at most one log record. *)
Lemma scan_entry_eq f st w :
  scan_entry f st w = (Ret (scan_step st f), log_notice (scan_notice f) w).
Proof.
  unfold scan_entry, scan_step, scan_notice, eligible.
  rewrite split_on_short.
  destruct (negb (startswith DOT (de_name f)) && de_is_file f) eqn:E1;
    cbv beta iota zeta.
  - destruct (contains DOT (de_name f)) eqn:E2; cbn [negb andb].
    + change (asset_key (assetIdx st) ++ lit ".classifier")
        with (key_of (assetIdx st) RClassifier).
      change (asset_key (assetIdx st) ++ lit ".extension")
        with (key_of (assetIdx st) RExtension).
      rewrite <- (key_of_RFile (assetIdx st)).
      destruct (key_of_not_static (assetIdx st) RFile) as (_ & A1 & A2).
      destruct (key_of_not_static (assetIdx st) RClassifier) as (_ & B1 & B2).
      destruct (key_of_not_static (assetIdx st) RExtension) as (_ & C1 & C2).
      rewrite !get_or_empty_set_same.
      rewrite (@get_or_empty_set_other (key_of (assetIdx st) RClassifier)
                 (key_of (assetIdx st) RExtension))
        by (intros H; apply key_of_inj in H; destruct H; discriminate).
      rewrite get_or_empty_set_same.
      rewrite !get_or_empty_set_other by congruence.
      unfold entry_line, index_line, field_of, classifier_of, extension_of, ret.
      rewrite <- !app_assoc. reflexivity.
    + reflexivity.
  - destruct (de_is_dir f); reflexivity.
Qed.

Lemma for_each_scan files : forall st w,
  for_each scan_entry files st w
  = (Ret (fold_left scan_step files st),
     fold_left (fun w f => log_notice (scan_notice f) w) files w).
Proof.
  induction files as [|f files IH]; intros st w; simpl.
  - reflexivity.
  - unfold bind. rewrite scan_entry_eq. apply IH.
Qed.

Lemma scan_step_static st f k :
  (forall n r, k <> key_of n r) ->
  Dict.get k (data (scan_step st f)) = Dict.get k (data st).
Proof.
  intros H. unfold scan_step. destruct (eligible f); auto. simpl.
  rewrite !get_set_other; auto.
Qed.






(** ** The index file and its parser *)








(** ** The manifest *)






(** ** The entries of the scan *)

Lemma startswith_contains c s : startswith c s = true -> contains c s = true.
Proof.
  destruct s as [|x s]; simpl; [discriminate|].
  intros H. now rewrite N.eqb_sym, H.
Qed.

Lemma log_emitted l m w :
  (level_rank (w_level w) <= level_rank l)%nat ->
  w_log (snd (log l m w)) = w_log w ++ [(l, m)].
Proof.
  intros H. cbn. apply Nat.leb_le in H. now rewrite H.
Qed.

(** C5, as amended: a hidden entry that is not a sub-directory is skipped
    without a log record; a sub-directory, hidden or not, is skipped with the
    notice; a regular file without a dot in its name is skipped with the
    warning; every other regular file gives one manifest entry, whose
    classifier and extension are the name around its last dot; and the scan
    of a directory always returns. *)
Theorem scan_entry_cases f st w :
  (level_rank (w_level w) <= level_rank INFO)%nat ->
  (startswith DOT (de_name f) = true -> de_is_dir f = false ->
   skipped_silently f st w)
  /\ (de_is_dir f = true -> de_is_file f = false ->
      skipped_with INFO (msg_subdir (de_name f)) f st w)
  /\ (de_is_file f = true -> contains DOT (de_name f) = false ->
      skipped_with WARNING (msg_no_extension (de_name f)) f st w)
  /\ (de_is_file f = true -> startswith DOT (de_name f) = false ->
      contains DOT (de_name f) = true ->
      one_manifest_entry f st w)
  /\ (forall files, exists st' w', for_each scan_entry files st w = (Ret st', w')).
Proof.
  intros Hl. repeat apply conj.
  - intros Hh Hd. unfold skipped_silently.
    rewrite scan_entry_eq. unfold scan_step, scan_notice, eligible.
    now rewrite Hh, Hd.
  - intros Hd Hf. unfold skipped_with.
    rewrite scan_entry_eq. unfold scan_step, scan_notice, eligible.
    rewrite Hd, Hf, andb_false_r. cbn [andb log_notice].
    eexists. split; [reflexivity|]. split; [|split; reflexivity].
    apply log_emitted. exact Hl.
  - intros Hf Hc. unfold skipped_with.
    assert (Hs : startswith DOT (de_name f) = false).
    { destruct (startswith DOT (de_name f)) eqn:E; auto.
      apply startswith_contains in E. congruence. }
    rewrite scan_entry_eq. unfold scan_step, scan_notice, eligible.
    rewrite Hs, Hf, Hc. cbn [negb andb log_notice].
    eexists. split; [reflexivity|]. split; [|split; reflexivity].
    apply log_emitted. simpl in *. lia.
  - intros Hf Hs Hc. unfold one_manifest_entry.
    rewrite scan_entry_eq. unfold scan_step, scan_notice, eligible.
    rewrite Hs, Hf, Hc. cbn [negb andb log_notice].
    eexists. split; [reflexivity|]. cbn [data idxEntries assetIdx].
    split; [reflexivity|]. split; [|split; [|split; [reflexivity|]]].
    + intros [| |].
      * rewrite get_set_other, get_set_other, get_set_same; auto;
          intros H; apply key_of_inj in H; destruct H; discriminate.
      * rewrite get_set_other, get_set_same; auto;
          intros H; apply key_of_inj in H; destruct H; discriminate.
      * apply get_set_same.
    + intros k Hk. rewrite !get_set_other; auto.
    + apply (classifier_extension _ Hc).
  - intros files. rewrite for_each_scan. eexists. eexists. reflexivity.
Qed.

Lemma scan_entry_cases_witness :
  (level_rank (w_level world_upload_ok) <= level_rank INFO)%nat
  /\ one_manifest_entry (regular_file (lit "report") (lit "summary.pdf"))
       (scan_start (lit "fr.gouv.minint.rrf.ops") (Some (lit "2.1")) (lit "report"))
       world_upload_ok
  /\ skipped_silently (regular_file (lit "report") (lit ".DS_Store"))
       (scan_start (lit "fr.gouv.minint.rrf.ops") (Some (lit "2.1")) (lit "report"))
       world_upload_ok.
Proof.
  assert (H : (level_rank (w_level world_upload_ok) <= level_rank INFO)%nat)
    by (simpl; lia).
  split; [exact H|]. split.
  - apply (@scan_entry_cases (regular_file (lit "report") (lit "summary.pdf"))
             (scan_start (lit "fr.gouv.minint.rrf.ops") (Some (lit "2.1")) (lit "report"))
             world_upload_ok H);
      reflexivity.
  - apply (@scan_entry_cases (regular_file (lit "report") (lit ".DS_Store"))
             (scan_start (lit "fr.gouv.minint.rrf.ops") (Some (lit "2.1")) (lit "report"))
             world_upload_ok H);
      reflexivity.
Defined.

(** C5, as stated, fails for a hidden sub-directory: it is skipped with the
    notice of a sub-directory, not silently. *)
Lemma hidden_subdirectory_counterexample :
  startswith DOT (de_name (sub_directory (lit "report") (lit ".git"))) = true
  /\ ~ skipped_silently (sub_directory (lit "report") (lit ".git"))
         (scan_start (lit "fr.gouv.minint.rrf.ops") None (lit "report"))
         world_upload_ok.
Proof.
  split; [reflexivity|].
  unfold skipped_silently. rewrite scan_entry_eq.
  intros H. apply (f_equal (fun r => List.length (w_log (snd r)))) in H.
  vm_compute in H. discriminate.
Qed.

(** ** The file system *)

Section AssocFacts.
Variable A : Type.
Implicit Types (l : list (str * A)) (k : str).

Lemma assoc_aset k k' a l :
  assoc k (aset k' a l) = if eqb k' k then Some a else assoc k l.
Proof.
  induction l as [|[k0 a0] l IH]; simpl.
  - destruct (eqb k' k); reflexivity.
  - destruct (eqb k0 k') eqn:E; simpl.
    + apply eqb_eq in E. subst k0. destruct (eqb k' k); reflexivity.
    + rewrite IH. destruct (eqb k0 k) eqn:E2; auto.
      apply eqb_eq in E2. subst k0. now rewrite eqb_sym, E.
Qed.

Lemma assoc_adel k k' l :
  assoc k (adel k' l) = if eqb k' k then None else assoc k l.
Proof.
  induction l as [|[k0 a0] l IH]; simpl.
  - destruct (eqb k' k); reflexivity.
  - destruct (eqb k0 k') eqn:E; simpl.
    + apply eqb_eq in E. subst k0. rewrite IH.
      destruct (eqb k' k); reflexivity.
    + rewrite IH. destruct (eqb k0 k) eqn:E2; auto.
      apply eqb_eq in E2. subst k0. now rewrite eqb_sym, E.
Qed.

Lemma assoc_amap_at k k' f l :
  assoc k (amap_at k' f l)
  = if eqb k' k then option_map f (assoc k l) else assoc k l.
Proof.
  induction l as [|[k0 a0] l IH]; simpl.
  - destruct (eqb k' k); reflexivity.
  - destruct (eqb k0 k') eqn:E; simpl.
    + apply eqb_eq in E. subst k0. destruct (eqb k' k); reflexivity.
    + rewrite IH. destruct (eqb k0 k) eqn:E2; auto.
      apply eqb_eq in E2. subst k0. now rewrite eqb_sym, E.
Qed.

Lemma assoc_In k a l : assoc k l = Some a -> In (k, a) l.
Proof.
  induction l as [|[k0 a0] l IH]; simpl; [discriminate|].
  destruct (eqb k0 k) eqn:E.
  - apply eqb_eq in E. intros [= ->]. left. now subst.
  - auto.
Qed.
End AssocFacts.

Lemma lookup_app n q r :
  lookup n (q ++ r) = match lookup n q with
                      | Some x => lookup x r
                      | None => None
                      end.
Proof.
  revert n. induction q as [|c q IH]; intros n; simpl; auto.
  destruct n as [|es]; auto.
  destruct (assoc c es); auto.
Qed.

Lemma lookup_parent_dir n q c x :
  lookup n (q ++ [c]) = Some x -> is_dir (lookup n q) = true.
Proof.
  rewrite lookup_app. destruct (lookup n q) as [[|es]|]; simpl; auto; discriminate.
Qed.

(** The node put at a path is the node found there. *)
Lemma lookup_set_at_same q : forall n v,
  q <> [] -> is_dir (lookup n (removelast q)) = true ->
  lookup (set_at q v n) q = v.
Proof.
  induction q as [|c q IH]; intros n v Hq Hp; [congruence|].
  destruct q as [|c' q'].
  - simpl in Hp. destruct n as [|es]; [discriminate|].
    simpl. destruct v as [x|].
    + now rewrite assoc_aset, eqb_refl.
    + now rewrite assoc_adel, eqb_refl.
  - change (removelast (c :: c' :: q')) with (c :: removelast (c' :: q')) in Hp.
    simpl in Hp. destruct n as [|es]; [discriminate|].
    destruct (assoc c es) as [ch|] eqn:E; [|discriminate].
    change (set_at (c :: c' :: q') v (Dir es))
      with (Dir (amap_at c (set_at (c' :: q') v) es)).
    change (lookup (Dir (amap_at c (set_at (c' :: q') v) es)) (c :: c' :: q'))
      with (match assoc c (amap_at c (set_at (c' :: q') v) es) with
            | Some ch => lookup ch (c' :: q')
            | None => None
            end).
    rewrite assoc_amap_at, eqb_refl, E. simpl option_map.
    apply IH; [discriminate | assumption].
Qed.

Lemma is_dir_lookup_file c r : is_dir (lookup (File c) r) = false.
Proof. destruct r; reflexivity. Qed.

(** Putting a regular file, or nothing, where no directory stands changes
    no directory. *)
Lemma is_dir_lookup_set_at q : forall v n r,
  is_dir v = false -> is_dir (lookup n q) = false ->
  is_dir (lookup (set_at q v n) r) = is_dir (lookup n r).
Proof.
  induction q as [|c q IH]; intros v n r Hv Hn; [reflexivity|].
  destruct n as [c0|es]; [reflexivity|].
  destruct r as [|c0 r].
  - simpl. destruct q; reflexivity.
  - destruct q as [|c' q'].
    + simpl in Hn |- *.
      destruct v as [x|].
      * rewrite assoc_aset. destruct (eqb c c0) eqn:E; auto.
        apply eqb_eq in E. subst c0.
        destruct x as [cx|]; [|discriminate].
        rewrite is_dir_lookup_file.
        destruct (assoc c es) as [[cy|es']|]; try discriminate.
        -- now rewrite is_dir_lookup_file.
        -- reflexivity.
      * rewrite assoc_adel. destruct (eqb c c0) eqn:E; auto.
        apply eqb_eq in E. subst c0.
        destruct (assoc c es) as [[cy|es']|]; try discriminate.
        -- now rewrite is_dir_lookup_file.
        -- reflexivity.
    + change (set_at (c :: c' :: q') v (Dir es))
        with (Dir (amap_at c (set_at (c' :: q') v) es)).
      change (lookup (Dir (amap_at c (set_at (c' :: q') v) es)) (c0 :: r))
        with (match assoc c0 (amap_at c (set_at (c' :: q') v) es) with
              | Some ch => lookup ch r
              | None => None
              end).
      change (lookup (Dir es) (c0 :: r))
        with (match assoc c0 es with
              | Some ch => lookup ch r
              | None => None
              end).
      rewrite assoc_amap_at.
      destruct (eqb c c0) eqn:E; auto.
      apply eqb_eq in E. subst c0.
      change (lookup (Dir es) (c :: c' :: q'))
        with (match assoc c es with
              | Some ch => lookup ch (c' :: q')
              | None => None
              end) in Hn.
      destruct (assoc c es) as [ch|] eqn:E2; simpl option_map; auto.
      apply IH; assumption.
Qed.

Lemma step_same_dirs root root' :
  (forall r, is_dir (lookup root' r) = is_dir (lookup root r)) ->
  forall cur c, step root' cur c = step root cur c.
Proof.
  intros H [q|] c; simpl; auto. now rewrite H.
Qed.

Lemma resolve_same_dirs root root' cwd p :
  (forall r, is_dir (lookup root' r) = is_dir (lookup root r)) ->
  resolve root' cwd p = resolve root cwd p.
Proof.
  intros H. unfold resolve. destruct p as [|c p]; auto.
  generalize (Some (if c =? SLASH then [] else cwd)).
  generalize (split_on SLASH (c :: p)).
  induction l as [|x l IH]; intros init; simpl; auto.
  now rewrite (@step_same_dirs root root' H), IH.
Qed.

Lemma fold_step_none root l : fold_left (step root) l None = None.
Proof. induction l; simpl; auto. Qed.

(** A resolved path that is no directory has a directory as its parent. *)
Lemma resolve_parent_dir root cwd p q :
  resolve root cwd p = Some q -> is_dir (lookup root q) = false ->
  q <> [] /\ is_dir (lookup root (removelast q)) = true.
Proof.
  unfold resolve. destruct p as [|c0 p]; [discriminate|].
  generalize (Some (if c0 =? SLASH then [] else cwd)).
  pose proof (split_on_not_nil SLASH (c0 :: p)) as NN.
  destruct (@exists_last _ (split_on SLASH (c0 :: p)) NN) as (l & c & ->).
  intros init. rewrite fold_left_app. simpl.
  destruct (fold_left (step root) l init) as [q0|]; simpl; [|discriminate].
  destruct (is_dir (lookup root q0)) eqn:D; [|discriminate].
  assert (U : forall q1, Some q0 = Some q1 -> is_dir (lookup root q1) = false -> False)
    by (intros q1 [= <-]; congruence).
  destruct c as [|x c].
  { intros E F. destruct (U _ E F). }
  destruct (is_dot (x :: c)).
  { intros E F. destruct (U _ E F). }
  destruct (is_dotdot (x :: c)).
  - intros [= <-] F. exfalso.
    destruct (@exists_last _ q0) as (q1 & c1 & ->).
    + intros ->. simpl in F, D. congruence.
    + rewrite removelast_last in F.
      destruct (lookup root (q1 ++ [c1])) eqn:E; [|discriminate].
      apply lookup_parent_dir in E. congruence.
  - intros [= <-] F. split.
    + destruct q0; discriminate.
    + now rewrite removelast_last.
Qed.

(** ** Credentials *)

Lemma level_le_error l : (level_rank l <=? 3)%nat = true.
Proof. destruct l; reflexivity. Qed.

Lemma same_env_refl w : same_env w w.
Proof. repeat split. Qed.

Lemma same_env_trans w1 w2 w3 : same_env w1 w2 -> same_env w2 w3 -> same_env w1 w3.
Proof.
  unfold same_env. intros (A1 & A2 & A3 & A4 & A5 & A6) (B1 & B2 & B3 & B4 & B5 & B6).
  repeat split; congruence.
Qed.

Lemma errors_app l l' : errors (l ++ l') = errors l ++ errors l'.
Proof. unfold errors. now rewrite filter_app, map_app. Qed.

(** [die] logs its message and leaves with code 1. *)
Lemma die_eq (A : Type) (m : msg) w :
  exists w', @die A m w = (Exit 1, w')
             /\ w_log w' = w_log w ++ [(ERROR, m)]
             /\ same_but_log w w'.
Proof.
  unfold die, bind, log, sys_exit. cbn. rewrite level_le_error.
  eexists. split; [reflexivity|]. cbn. repeat split.
Qed.

(** What [get_auth] does to the world: at most the password is asked for
    and kept in [args], or the run ends for want of [NEXUS_PASSWD]. *)
Lemma get_auth_spec w :
  exists o w',
    get_auth w = (o, w') /\ same_env w w' /\ w_trace w' = w_trace w
    /\ w_now w' = w_now w
    /\ match o with
       | Exit c => c = 1%Z /\ w_log w' = w_log w ++ [(ERROR, msg_no_passwd)]
                   /\ login_without_passwd w
       | _ => w_log w' = w_log w
       end.
Proof.
  unfold get_auth, get_auth_rec, login_without_passwd, bind, get_args, environ_get,
    getpass, get_world, set_args, ret, raise, die, log, sys_exit.
  cbn.
  destruct (a_login (w_args w)) as [login|] eqn:E1.
  - destruct (a_passwd (w_args w)) as [p|] eqn:E2; cbn.
    + do 2 eexists. split; [reflexivity|]. repeat split.
    + destruct (w_tty w) as [p|] eqn:E3; cbn.
      * do 2 eexists. split; [reflexivity|]. repeat split; cbn; auto.
      * do 2 eexists. split; [reflexivity|]. repeat split.
  - destruct (assoc (lit "NEXUS_LOGIN") (w_environ w)) as [l|] eqn:E2; cbn.
    + destruct (assoc (lit "NEXUS_PASSWD") (w_environ w)) as [p|] eqn:E3; cbn.
      * do 2 eexists. split; [reflexivity|]. repeat split.
      * rewrite level_le_error.
        do 2 eexists. split; [reflexivity|]. repeat split; cbn; eauto.
    + do 2 eexists. split; [reflexivity|]. repeat split.
Qed.

(** With [NEXUS_LOGIN] but no [NEXUS_PASSWD], and no login in [args],
    [get_auth] ends the run. *)
Lemma get_auth_no_passwd w :
  login_without_passwd w ->
  exists w', get_auth w = (Exit 1, w')
             /\ w_log w' = w_log w ++ [(ERROR, msg_no_passwd)]
             /\ same_env w w' /\ w_trace w' = w_trace w.
Proof.
  intros (H1 & (l & H2) & H3).
  unfold get_auth, get_auth_rec, bind, get_args, environ_get,
    set_args, ret, die, log, sys_exit.
  cbn. rewrite H1. cbn. rewrite H2. cbn. rewrite H3. cbn.
  rewrite level_le_error.
  eexists. split; [reflexivity|]. repeat split.
Qed.

(** The depth of the recursion of [get_auth] is two: more fuel changes
    nothing. *)
Lemma get_auth_fuel n w : get_auth_rec (2 + n) w = get_auth w.
Proof.
  unfold get_auth. change (2 + n)%nat with (S (S n)).
  cbn [get_auth_rec].
  unfold bind, get_args, environ_get, set_args, ret. cbn.
  destruct (a_login (w_args w)) as [login|]; auto.
  destruct (assoc (lit "NEXUS_LOGIN") (w_environ w)) as [l|]; auto.
  destruct (assoc (lit "NEXUS_PASSWD") (w_environ w)) as [p|]; auto.
Qed.

(** ** The Transport Invoker *)

#[local] Arguments curl_cmd : simpl never.
#[local] Arguments resp_lines : simpl never.
#[local] Arguments parse_status : simpl never.
#[local] Arguments decode_utf8 : simpl never.
#[local] Arguments removelast : simpl never.

Ltac run_step :=
  progress (unfold bind, ret, raise, sys_exit, die, log, emit, get_world, get_args,
             set_now, set_root, utcnow, lift_outcome, subprocess_run; cbn).

(** [w_log w' = w_log w ++ ?l] for a log that was appended to. *)
Ltac log_tail :=
  rewrite <- ?app_assoc; first [reflexivity | symmetry; apply app_nil_r].

(** Every way [run_curl_cmd] ends.  The file system and the surroundings
    stay as they are; at most one process is started; the run ends only
    with one of three messages. *)
Lemma run_curl_cmd_spec url data outdir w :
  exists o w',
    run_curl_cmd url data outdir w = (o, w') /\ same_env w w'
    /\ exists l t,
        w_log w' = w_log w ++ l /\ w_trace w' = w_trace w ++ t
        /\ match o with
           | Ret (_, status, _) =>
               errors l = []
               /\ (exists auth, t = [EvRun (curl_cmd auth url data outdir)])
               /\ status <> 401%Z /\ status <> 403%Z
           | Exit c =>
               c = 1%Z
               /\ exists m, errors l = [m]
                  /\ ((m = msg_no_passwd /\ t = [] /\ login_without_passwd w)
                      \/ (exists auth rc elapsed out,
                             t = [EvRun (curl_cmd auth url data outdir)]
                             /\ m = msg_curl_failed rc elapsed out
                             /\ rc <> 0%Z)
                      \/ (exists auth s,
                             t = [EvRun (curl_cmd auth url data outdir)]
                             /\ m = msg_auth s
                             /\ (s = 401%Z \/ s = 403%Z)))
           | Raise _ =>
               errors l = []
               /\ (t = [] \/ exists auth, t = [EvRun (curl_cmd auth url data outdir)])
           end.
Proof.
  destruct (get_auth_spec w) as (oa & wa & Ha & Henv & Htr & Hnow & Hlog).
  unfold run_curl_cmd. unfold bind at 1. rewrite Ha.
  destruct oa as [auth|c|e].
  2:{ destruct Hlog as (-> & Hl & Hc).
      do 2 eexists. split; [reflexivity|]. split; [assumption|].
      exists [(ERROR, msg_no_passwd)], []. rewrite app_nil_r.
      repeat split; auto. exists msg_no_passwd. split; auto. }
  2:{ do 2 eexists. split; [reflexivity|]. split; [assumption|].
      exists [], []. rewrite !app_nil_r. repeat split; auto. }
  destruct Henv as (E1 & E2 & E3 & E4 & E5 & E6).
  set (cmd := curl_cmd auth url data outdir).
  run_step. rewrite E1, E2, E4, E5, Htr, Hlog.
  destruct (level_rank (w_level w) <=? 0)%nat eqn:Hdbg;
    (destruct (w_curl w cmd (w_root w) (w_cwd w)) as [e|rc out d] eqn:Hc; cbn;
     [ | destruct (rc =? 0)%Z eqn:Hrc; repeat run_step; rewrite ?level_le_error;
         [ destruct (decode_utf8 out) as [text|] eqn:Hd; cbn;
           [ destruct (parse_status (resp_lines text)) as [s|c|e] eqn:Hp; cbn;
             [ destruct ((s =? 401)%Z || (s =? 403)%Z) eqn:Hs; repeat run_step;
               rewrite ?level_le_error | | ]
           | ]
         | ] ]);
    try (exfalso; unfold parse_status in Hp;
         destruct (rev (resp_lines text)) as [|x xs]; [discriminate|];
         destruct (split_on 61 x) as [|y [|z zs]]; try discriminate;
         destruct (to_int z); discriminate);
    rewrite ?Hdbg;
    (do 2 eexists; split; [reflexivity|]; split; [repeat split; cbn; auto|];
     do 2 eexists; cbn; split; [log_tail|]; split; [reflexivity|]).
  all: subst cmd.
  all: try (split; [reflexivity | right; exists auth; reflexivity]).
  all: try (apply orb_true_iff in Hs;
            split; [reflexivity|]; eexists; split; [reflexivity|];
            right; right; exists auth, s; repeat split;
            destruct Hs as [H|H]; apply Z.eqb_eq in H; auto).
  all: try (apply orb_false_iff in Hs; destruct Hs as [H1 H2];
            apply Z.eqb_neq in H1, H2; repeat split; eauto).
  all: split; [reflexivity|]; eexists; split; [reflexivity|];
    right; left; exists auth, rc, (w_now wa + d - w_now wa)%Z, out;
    repeat split; now apply Z.eqb_neq.
Qed.

(** [run_curl_cmd] once the credentials are there and the process has
    ended: one process was started, and the outcome and the error message
    are those of [transfer_result]. *)
Lemma run_curl_cmd_completed url data outdir w auth wa rc out d :
  get_auth w = (Ret auth, wa) ->
  w_curl wa (curl_cmd auth url data outdir) (w_root wa) (w_cwd wa)
  = Completed rc out d ->
  exists w' l,
    run_curl_cmd url data outdir w = (fst (transfer_result rc out d), w')
    /\ same_env wa w'
    /\ w_log w' = w_log wa ++ l
    /\ errors l = snd (transfer_result rc out d)
    /\ w_trace w' = w_trace wa ++ [EvRun (curl_cmd auth url data outdir)].
Proof.
  intros Ha Hc.
  unfold run_curl_cmd, transfer_result. unfold bind at 1. rewrite Ha.
  set (cmd := curl_cmd auth url data outdir) in *.
  run_step. rewrite Hc. cbn.
  replace (w_now wa + d - w_now wa)%Z with d by lia.
  destruct (level_rank (w_level wa) <=? 0)%nat eqn:Hdbg;
    (destruct (rc =? 0)%Z eqn:Hrc; repeat run_step; rewrite ?level_le_error;
     [ destruct (decode_utf8 out) as [text|] eqn:Hd; cbn;
       [ destruct (parse_status (resp_lines text)) as [s|c|e] eqn:Hp; cbn;
         [ destruct ((s =? 401)%Z || (s =? 403)%Z) eqn:Hs; repeat run_step;
           rewrite ?level_le_error | | ]
       | ]
     | ]);
    rewrite ?Hdbg;
    (do 2 eexists; split; [reflexivity|]; split; [repeat split; cbn; auto|];
     cbn; split; [log_tail|]; split; reflexivity).
Qed.

(** [run_curl_cmd] when the process cannot be run, or runs out of time: the
    exception leaves [run_curl_cmd], and nothing is logged as an error. *)
Lemma run_curl_cmd_proc_error url data outdir w auth wa e :
  get_auth w = (Ret auth, wa) ->
  w_curl wa (curl_cmd auth url data outdir) (w_root wa) (w_cwd wa) = ProcError e ->
  exists w' l,
    run_curl_cmd url data outdir w = (Raise e, w')
    /\ same_env wa w'
    /\ w_log w' = w_log wa ++ l /\ errors l = []
    /\ w_trace w' = w_trace wa ++ [EvRun (curl_cmd auth url data outdir)].
Proof.
  intros Ha Hc.
  unfold run_curl_cmd. unfold bind at 1. rewrite Ha.
  set (cmd := curl_cmd auth url data outdir) in *.
  run_step. rewrite Hc. cbn.
  destruct (level_rank (w_level wa) <=? 0)%nat eqn:Hdbg;
    (do 2 eexists; split; [reflexivity|]; split; [repeat split; cbn; auto|];
     cbn; split; [log_tail|]; split; reflexivity).
Qed.

(** With [NEXUS_LOGIN] but no [NEXUS_PASSWD] every call of the Transport
    Invoker ends the run before a process is started. *)
Lemma run_curl_cmd_no_passwd url data outdir w :
  login_without_passwd w ->
  exists w', run_curl_cmd url data outdir w = (Exit 1, w')
             /\ w_log w' = w_log w ++ [(ERROR, msg_no_passwd)]
             /\ same_env w w' /\ w_trace w' = w_trace w.
Proof.
  intros H. destruct (get_auth_no_passwd H) as (w' & Ha & L & E & Tr).
  exists w'. unfold run_curl_cmd. unfold bind at 1. rewrite Ha. auto.
Qed.

(** ** Files written and removed *)

#[local] Arguments lookup : simpl never.
#[local] Arguments set_at : simpl never.
#[local] Arguments resolve : simpl never.
#[local] Arguments stat : simpl never.
#[local] Arguments rstrip : simpl never.
#[local] Arguments strip_by : simpl never.
#[local] Arguments contains : simpl never.
#[local] Arguments basename : simpl never.
#[local] Arguments replace : simpl never.

Lemma write_file_spec p lines w :
  (exists e, write_file p lines w = (Raise e, w))
  \/ (exists q w1,
        write_file p lines w = (Ret tt, w1)
        /\ resolve (w_root w) (w_cwd w) p = Some q
        /\ q <> [] /\ is_dir (lookup (w_root w) q) = false
        /\ is_dir (lookup (w_root w) (removelast q)) = true
        /\ w_root w1 = set_at q (Some (File (List.concat lines))) (w_root w)
        /\ w_trace w1 = w_trace w ++ [EvWrite p (List.concat lines)]
        /\ same_but_fs w w1).
Proof.
  unfold write_file, bind, get_world, raise, set_root, emit. cbn.
  destruct (resolve (w_root w) (w_cwd w) p) as [q|] eqn:R; [|left; eauto].
  destruct q as [|c q]; [left; eauto|].
  destruct (lookup (w_root w) (c :: q)) as [[cf|es]|] eqn:K; [|left; eauto|];
    (right; do 2 eexists; split; [reflexivity|]; split; [reflexivity|];
     assert (D : is_dir (lookup (w_root w) (c :: q)) = false) by (now rewrite K);
     destruct (resolve_parent_dir _ _ _ R D) as [N P];
     repeat split; auto).
Qed.

Lemma dirs_after_write root q c :
  is_dir (lookup root q) = false ->
  forall r, is_dir (lookup (set_at q (Some (File c)) root) r) = is_dir (lookup root r).
Proof. intros H r. now apply is_dir_lookup_set_at. Qed.

(** A file that was written can be removed, and is gone afterwards. *)
Lemma os_remove_written p q c root0 w :
  resolve root0 (w_cwd w) p = Some q -> q <> [] ->
  is_dir (lookup root0 q) = false ->
  is_dir (lookup root0 (removelast q)) = true ->
  w_root w = set_at q (Some (File c)) root0 ->
  exists w',
    os_remove p w = (Ret tt, w')
    /\ w_root w' = set_at q None (w_root w)
    /\ w_trace w' = w_trace w ++ [EvRemove p]
    /\ same_but_fs w w'
    /\ stat (w_root w') (w_cwd w') p = None
    /\ (forall r, is_dir (lookup (w_root w') r) = is_dir (lookup root0 r)).
Proof.
  intros R N D P Hr.
  assert (S1 : forall r, is_dir (lookup (w_root w) r) = is_dir (lookup root0 r))
    by (intros r; rewrite Hr; now apply dirs_after_write).
  assert (K : lookup (w_root w) q = Some (File c))
    by (rewrite Hr; now apply lookup_set_at_same).
  destruct q as [|x q]; [congruence|].
  unfold os_remove, bind, get_world, raise, set_root, emit. cbn.
  rewrite (@resolve_same_dirs _ _ (w_cwd w) p S1), R, K.
  assert (S2 : forall r, is_dir (lookup (set_at (x :: q) None (w_root w)) r)
                         = is_dir (lookup root0 r)).
  { intros r. rewrite is_dir_lookup_set_at; auto. now rewrite K. }
  eexists. split; [reflexivity|]. cbn.
  split; [reflexivity|]. split; [reflexivity|].
  split; [repeat split|]. split; [|exact S2].
  unfold stat.
  rewrite (@resolve_same_dirs _ _ (w_cwd w) p S2), R.
  apply lookup_set_at_same; auto. now rewrite S1.
Qed.

(** ** The transfer of an upload *)

Lemma login_without_passwd_same w w' :
  w_args w' = w_args w -> w_environ w' = w_environ w ->
  login_without_passwd w' -> login_without_passwd w.
Proof.
  unfold login_without_passwd. intros -> ->. auto.
Qed.

(** Every way the last part of [do_upload] ends.  Either the index file
    cannot be written and nothing else happens, or it is written, at most
    one process is started, and the index file is removed and gone. *)
Lemma upload_transfer_spec directory st w :
  let p := idx_file_path directory (data st) in
  let content := List.concat (idxEntries st) in
  (exists e, write_file p (idxEntries st) w = (Raise e, w)
             /\ upload_transfer directory st w = (Raise e, w))
  \/ (exists o w' t l,
        upload_transfer directory st w = (o, w')
        /\ w_trace w' = w_trace w ++ EvWrite p content :: t ++ [EvRemove p]
        /\ (t = []
            \/ exists auth,
                t = [EvRun (curl_cmd auth upload_url_full
                                     (Some (register_index p (data st))) None)])
        /\ stat (w_root w') (w_cwd w') p = None
        /\ w_cwd w' = w_cwd w
        /\ (forall r, is_dir (lookup (w_root w') r) = is_dir (lookup (w_root w) r))
        /\ w_log w' = w_log w ++ l
        /\ (login_without_passwd w -> t = [] /\ o = Exit 1)
        /\ match o with
           | Ret _ => errors l = [] /\ t <> []
           | Exit c =>
               c = 1%Z
               /\ exists m, errors l = [m]
                  /\ ((m = msg_no_passwd /\ t = [] /\ login_without_passwd w)
                      \/ (exists rc e out, m = msg_curl_failed rc e out /\ rc <> 0%Z)
                      \/ (exists s, m = msg_auth s /\ (s = 401%Z \/ s = 403%Z))
                      \/ (exists s resp e, m = msg_upload_failed s resp e
                                           /\ s <> 204%Z))
           | Raise _ => errors l = []
           end).
Proof.
  intros p content.
  destruct (write_file_spec p (idxEntries st) w)
    as [[e He] | (q & w1 & Hw & R & N & D & P & Hr1 & Ht1 & F1)].
  { left. exists e. split; [exact He|].
    unfold upload_transfer, bind. fold p. now rewrite He. }
  right.
  destruct F1 as (C1 & V1 & U1 & L1 & Y1 & A1 & N1 & G1).
  destruct (run_curl_cmd_spec upload_url_full
              (Some (register_index p (data st))) None w1)
    as (o2 & w2 & H2 & (E1 & E2 & E3 & E4 & E5 & E6) & l2 & t2 & Hl2 & Ht2 & Ho2).
  assert (NP : login_without_passwd w -> t2 = [] /\ o2 = Exit 1).
  { intros Hlw.
    assert (Hlw1 : login_without_passwd w1)
      by (apply (@login_without_passwd_same w1 w); auto).
    destruct (@run_curl_cmd_no_passwd upload_url_full
                (Some (register_index p (data st))) None w1 Hlw1)
      as (w2' & H2' & _ & _ & T2').
    rewrite H2 in H2'. injection H2' as -> <-.
    split; [|reflexivity].
    assert (X : w_trace w1 ++ t2 = w_trace w1 ++ [])
      by (rewrite app_nil_r; congruence).
    now apply app_inv_head in X. }
  assert (Hc2 : w_cwd w2 = w_cwd w) by congruence.
  assert (Hroot2 : w_root w2 = set_at q (Some (File content)) (w_root w))
    by (rewrite E1, Hr1; reflexivity).
  assert (R2 : resolve (w_root w) (w_cwd w2) p = Some q)
    by (rewrite Hc2; exact R).
  destruct (@os_remove_written p q content (w_root w) w2 R2 N D P Hroot2)
    as (w3 & H3 & Hr3 & Ht3 & F3 & S3 & DD).
  destruct F3 as (C3 & V3 & U3 & L3 & Y3 & A3 & N3 & G3).
  unfold upload_transfer, bind, try_finally. fold p. rewrite Hw, H2, H3.
  assert (TR : w_trace w3 = w_trace w ++ EvWrite p content :: t2 ++ [EvRemove p]).
  { rewrite Ht3, Ht2, Ht1, <- !app_assoc. reflexivity. }
  assert (LG : w_log w3 = w_log w ++ l2) by congruence.
  destruct o2 as [[[resp status] elapsed]|c|e].
  - destruct Ho2 as (He & (cmd & ->) & S401 & S403).
    assert (NP' : forall o : outcome unit, login_without_passwd w ->
                    [EvRun (curl_cmd cmd upload_url_full
                              (Some (register_index p (data st))) None)] = []
                    /\ o = Exit 1)
      by (intros o Hlw; destruct (NP Hlw) as [_ X]; discriminate X).
    destruct (status =? 204)%Z eqn:Hs; cbn [negb].
    + unfold ret, log. cbn.
      destruct (level_rank (w_level w3) <=? 1)%nat;
        (do 4 eexists; split; [reflexivity|]; cbn;
         split; [exact TR|]; split; [eauto|]; split; [exact S3|];
         split; [congruence|]; split; [exact DD|];
         split; [rewrite LG; log_tail|]; split; [apply NP'|]).
      * rewrite errors_app, He. split; [reflexivity | discriminate].
      * rewrite He. split; [reflexivity | discriminate].
    + destruct (@die_eq unit (msg_upload_failed status resp elapsed) w3)
        as (w4 & H4 & L4 & (K1 & K2 & K3 & K4 & K5 & K6) & K7 & K8 & K9).
      rewrite H4.
      do 4 eexists. split; [reflexivity|].
      split; [rewrite K9; exact TR|]. split; [eauto|].
      split; [now rewrite K1, K2|].
      split; [congruence|]. split; [rewrite K1; exact DD|].
      split; [rewrite L4, LG; log_tail|]. split; [apply NP'|].
      split; [reflexivity|]. eexists. split.
      * rewrite errors_app, He. reflexivity.
      * right. right. right. exists status, resp, elapsed. split; auto.
        now apply Z.eqb_neq.
  - destruct Ho2 as (-> & m & Hm & Hcase).
    do 4 eexists. split; [reflexivity|].
    split; [exact TR|].
    split; [destruct Hcase as [(_ & -> & _) | [(cmd & _ & _ & _ & -> & _)
                                              | (cmd & _ & -> & _)]]; eauto|].
    split; [exact S3|]. split; [congruence|]. split; [exact DD|].
    split; [exact LG|].
    split; [intros Hlw; destruct (NP Hlw) as [X _]; now split|].
    split; [reflexivity|]. exists m. split; [exact Hm|].
    destruct Hcase as [(-> & -> & Hlw) | [(cmd & rc & e & out & -> & -> & Hrc)
                                         | (cmd & s & -> & -> & Hs)]].
    + left. split; [reflexivity|]. split; [reflexivity|].
      exact (@login_without_passwd_same w w1 A1 V1 Hlw).
    + right. left. eauto.
    + right. right. left. eauto.
  - destruct Ho2 as (He & Hcase).
    do 4 eexists. split; [reflexivity|].
    split; [exact TR|]. split; [exact Hcase|].
    split; [exact S3|]. split; [congruence|]. split; [exact DD|].
    split; [exact LG|].
    split; [|exact He].
    intros Hlw. destruct (NP Hlw) as [_ X]. discriminate X.
Qed.


(** ** The checks and the scan of an upload *)

Lemma same_but_log_refl w : same_but_log w w.
Proof. repeat split. Qed.

Lemma same_but_log_trans w1 w2 w3 :
  same_but_log w1 w2 -> same_but_log w2 w3 -> same_but_log w1 w3.
Proof.
  intros (A & A1 & A2 & A3) (B & B1 & B2 & B3).
  split; [eapply same_env_trans; eassumption|]. repeat split; congruence.
Qed.

(** Every way the checks of [do_upload] end: with the directory and the
    first form fields, or with one of three messages. *)
Lemma upload_validate_spec w :
  let args := w_args w in
  let directory := upload_directory args in
  let found := stat (w_root w) (w_cwd w) directory in
  exists o w' l,
    upload_validate w = (o, w') /\ same_but_log w w' /\ w_log w' = w_log w ++ l
    /\ match o with
       | Ret vd =>
           vd = (directory,
                 data (scan_start (full_groupId args) (a_version args)
                                  (basename directory)))
           /\ errors l = [] /\ is_dir found = true
           /\ contains DOT directory = false
       | Exit c =>
           c = 1%Z
           /\ exists m, errors l = [m]
              /\ ((found = None /\ m = msg_no_such directory)
                  \/ (found <> None /\ is_dir found = false
                      /\ m = msg_not_a_directory)
                  \/ (is_dir found = true /\ contains DOT directory = true
                      /\ m = msg_dot))
       | Raise _ => False
       end.
Proof.
  intros args directory found. subst args directory found.
  unfold upload_validate, get_groupId, path_exists, path_isdir, upload_directory.
  repeat run_step.
  set (directory := strip_by is_sep (a_directory (w_args w))).
  destruct (level_rank (w_level w) <=? 1)%nat eqn:Hl;
    (destruct (stat (w_root w) (w_cwd w) directory) as [[cf|es]|] eqn:Hf;
     repeat run_step; rewrite ?Hf; cbn; repeat run_step;
     rewrite ?level_le_error, ?Hl;
     [ | destruct (contains DOT directory) eqn:Hd; repeat run_step;
         rewrite ?level_le_error, ?Hl | ]);
    (do 3 eexists; split; [reflexivity|]; split; [repeat split|];
     cbn; split; [log_tail|]).
  all: try (split; [reflexivity|]; eexists; split; [reflexivity|]).
  all: try (left; split; reflexivity).
  all: try (right; left; repeat split; discriminate).
  all: try (right; right; repeat split; reflexivity).
  all: repeat split; reflexivity.
Qed.

Lemma log_notice_spec f w :
  let w' := log_notice (scan_notice f) w in
  same_but_log w w' /\ exists l, w_log w' = w_log w ++ l /\ errors l = [].
Proof.
  unfold scan_notice, log_notice.
  destruct (negb (startswith DOT (de_name f)) && de_is_file f).
  - destruct (contains DOT (de_name f)); cbn.
    + split; [apply same_but_log_refl|]. exists []. now rewrite app_nil_r.
    + split; [repeat split|].
      destruct (level_rank (w_level w) <=? 2)%nat; eexists; split;
        try reflexivity; log_tail.
  - destruct (de_is_dir f); cbn.
    + split; [repeat split|].
      destruct (level_rank (w_level w) <=? 1)%nat; eexists; split;
        try reflexivity; log_tail.
    + split; [apply same_but_log_refl|]. exists []. now rewrite app_nil_r.
Qed.

Lemma scan_log files : forall w,
  let w' := fold_left (fun w f => log_notice (scan_notice f) w) files w in
  same_but_log w w' /\ exists l, w_log w' = w_log w ++ l /\ errors l = [].
Proof.
  induction files as [|f files IH]; intros w; simpl.
  - split; [apply same_but_log_refl|]. exists []. now rewrite app_nil_r.
  - destruct (log_notice_spec f w) as (S1 & l1 & L1 & E1).
    destruct (IH (log_notice (scan_notice f) w)) as (S2 & l2 & L2 & E2).
    split; [eapply same_but_log_trans; eassumption|].
    exists (l1 ++ l2). rewrite L2, L1, <- app_assoc, errors_app, E1, E2.
    split; reflexivity.
Qed.

(** The scan of [do_upload]: it raises when the directory cannot be listed,
    and else returns the state after all entries. *)
Lemma upload_scan_spec d w :
  let D := a_directory (w_args w) in
  (exists e, upload_scan d w = (Raise e, w)
             /\ is_dir (stat (w_root w) (w_cwd w) D) = false)
  \/ (exists es w' l,
        stat (w_root w) (w_cwd w) D = Some (Dir es)
        /\ upload_scan d w
           = (Ret (fold_left scan_step (map (dir_entry D) es)
                             {| data := d; idxEntries := []; assetIdx := 2 |}),
              w')
        /\ same_but_log w w' /\ w_log w' = w_log w ++ l /\ errors l = []).
Proof.
  intros D. unfold upload_scan, os_scandir. repeat run_step. fold D.
  destruct (stat (w_root w) (w_cwd w) D) as [[cf|es]|] eqn:Hs; cbn.
  - left. eauto.
  - right. rewrite for_each_scan.
    destruct (scan_log (map (dir_entry D) es) w) as (S1 & l & L1 & E1).
    exists es. do 2 eexists. split; [reflexivity|]. split; [reflexivity|].
    split; [exact S1|]. split; [exact L1 | exact E1].
  - left. eauto.
Qed.

Lemma scan_artifactId files st :
  Dict.get_or_empty (lit "maven2.artifactId") (data (fold_left scan_step files st))
  = Dict.get_or_empty (lit "maven2.artifactId") (data st).
Proof.
  revert st. induction files as [|f files IH]; intros st; simpl; auto.
  rewrite IH. unfold Dict.get_or_empty. rewrite scan_step_static; auto.
  intros n r H. symmetry in H. revert H. apply key_of_not_static.
Qed.

(** ** Every way an upload ends *)

Lemma idx_file_path_scan directory files st :
  Dict.get_or_empty (lit "maven2.artifactId") (data st) = basename directory ->
  idx_file_path directory (data (fold_left scan_step files st))
  = directory ++ lit "/" ++ basename directory ++ lit ".txt".
Proof.
  intros H. unfold idx_file_path. now rewrite scan_artifactId, H.
Qed.

(** [do_upload] ends in one of three ways: a check fails, with its message
    and nothing done; the directory cannot be listed or the index file
    cannot be written, and an exception leaves with nothing done; or the
    index file is written, at most one process is started with the manifest
    as form fields, and the index file is removed and gone. *)
Lemma do_upload_spec w :
  let args := w_args w in
  let directory := upload_directory args in
  let D := a_directory args in
  let found := stat (w_root w) (w_cwd w) directory in
  exists o w' l t,
    do_upload w = (o, w') /\ w_log w' = w_log w ++ l
    /\ w_trace w' = w_trace w ++ t /\ w_cwd w' = w_cwd w
    /\ ((o = Exit 1 /\ t = [] /\ w_root w' = w_root w
         /\ exists m, errors l = [m]
            /\ ((found = None /\ m = msg_no_such directory)
                \/ (found <> None /\ is_dir found = false
                    /\ m = msg_not_a_directory)
                \/ (is_dir found = true /\ contains DOT directory = true
                    /\ m = msg_dot)))
        \/ (is_dir found = true /\ contains DOT directory = false
            /\ ((exists e, o = Raise e /\ t = [] /\ w_root w' = w_root w
                           /\ errors l = [])
                \/ (exists es t2,
                      stat (w_root w) (w_cwd w) D = Some (Dir es)
                      /\ let st := fold_left scan_step (map (dir_entry D) es)
                                     (scan_start (full_groupId args) (a_version args)
                                                 (basename directory)) in
                         let p := directory ++ lit "/" ++ basename directory
                                  ++ lit ".txt" in
                         t = EvWrite p (List.concat (idxEntries st))
                               :: t2 ++ [EvRemove p]
                         /\ (t2 = []
                             \/ exists auth,
                                 t2 = [EvRun (curl_cmd auth upload_url_full
                                         (Some (register_index p (data st))) None)])
                         /\ stat (w_root w') (w_cwd w') p = None
                         /\ (login_without_passwd w -> t2 = [] /\ o = Exit 1)
                         /\ match o with
                            | Ret _ => errors l = [] /\ t2 <> []
                            | Exit c =>
                                c = 1%Z
                                /\ exists m, errors l = [m]
                                   /\ ((m = msg_no_passwd /\ t2 = []
                                        /\ login_without_passwd w)
                                       \/ (exists rc e out,
                                              m = msg_curl_failed rc e out
                                              /\ rc <> 0%Z)
                                       \/ (exists s, m = msg_auth s
                                                     /\ (s = 401%Z \/ s = 403%Z))
                                       \/ (exists s resp e,
                                              m = msg_upload_failed s resp e
                                              /\ s <> 204%Z))
                            | Raise _ => errors l = []
                            end)))).
Proof.
  intros args directory D found.
  destruct (upload_validate_spec w) as (o1 & w1 & l1 & H1 & S1 & L1 & O1).
  fold args directory found in O1.
  destruct S1 as ((R1 & C1 & V1 & U1 & Y1 & T1) & A1 & N1 & X1).
  unfold do_upload. unfold bind at 1. rewrite H1.
  destruct o1 as [vd|c|e]; [|destruct O1 as (-> & m & Hm & Hcase)|destruct O1].
  2:{ exists (Exit 1), w1, l1, []. rewrite app_nil_r.
      repeat (split; [auto; fail|]). left. repeat (split; auto). eauto. }
  destruct O1 as (-> & E1 & Hdir & Hdot). cbn [fst snd].
  destruct (upload_scan_spec
              (data (scan_start (full_groupId args) (a_version args)
                                (basename directory))) w1)
    as [(e & H2 & _) | (es & w2 & l2 & Hs & H2 & S2 & L2 & E2)];
    unfold bind; rewrite H2.
  { exists (Raise e), w1, l1, []. rewrite app_nil_r.
    repeat (split; [auto; fail|]). right. repeat (split; auto).
    left. exists e. repeat (split; auto). }
  destruct S2 as ((R2 & C2 & V2 & U2 & Y2 & T2) & A2 & N2 & X2).
  rewrite A1 in Hs, H2 |- *. fold args D in Hs, H2 |- *.
  rewrite R1, C1 in Hs.
  change {| data := data (scan_start (full_groupId args) (a_version args)
                                     (basename directory));
            idxEntries := []; assetIdx := 2 |}
    with (scan_start (full_groupId args) (a_version args) (basename directory))
    in H2 |- *.
  set (st := fold_left scan_step (map (dir_entry D) es)
               (scan_start (full_groupId args) (a_version args)
                           (basename directory))) in *.
  assert (Hp : idx_file_path directory (data st)
               = directory ++ lit "/" ++ basename directory ++ lit ".txt")
    by (apply idx_file_path_scan; reflexivity).
  destruct (upload_transfer_spec directory st w2)
    as [(e & _ & H3) | (o3 & w3 & t3 & l3 & H3 & T3 & Ht3 & S3 & C3 & _ & L3 & NP3 & O3)];
    rewrite H3.
  { exists (Raise e), w2, (l1 ++ l2), []. rewrite app_nil_r.
    split; [reflexivity|]. split; [rewrite L2, L1; now rewrite app_assoc|].
    split; [congruence|]. split; [congruence|].
    right. repeat (split; auto).
    left. exists e. repeat (split; auto); try congruence.
    now rewrite errors_app, E1, E2. }
  cbv zeta in T3, S3, Ht3. rewrite Hp in T3, S3, Ht3.
  assert (EL : errors (l1 ++ l2 ++ l3) = errors l3)
    by (now rewrite !errors_app, E1, E2).
  exists o3, w3, (l1 ++ l2 ++ l3),
    (EvWrite (directory ++ lit "/" ++ basename directory ++ lit ".txt")
             (List.concat (idxEntries st)) :: t3
     ++ [EvRemove (directory ++ lit "/" ++ basename directory ++ lit ".txt")]).
  split; [reflexivity|].
  split; [rewrite L3, L2, L1; now rewrite <- !app_assoc|].
  split; [rewrite T3; congruence|]. split; [congruence|].
  right. split; [exact Hdir|]. split; [exact Hdot|].
  right. exists es, t3. split; [exact Hs|]. cbv zeta.
  split; [reflexivity|]. split; [exact Ht3|]. split; [exact S3|].
  assert (LW : login_without_passwd w2 -> login_without_passwd w).
  { apply login_without_passwd_same; congruence. }
  assert (LW' : login_without_passwd w -> login_without_passwd w2).
  { apply login_without_passwd_same; congruence. }
  split; [intros Hlw; apply NP3, LW', Hlw|].
  rewrite EL.
  destruct o3 as [u|c|e]; auto.
  destruct O3 as (-> & m & Hm & Hcase). split; [reflexivity|].
  exists m. split; [exact Hm|].
  destruct Hcase as [(-> & -> & Hlw) | Hcase]; [|right; exact Hcase].
  left. split; [reflexivity|]. split; [reflexivity|]. apply LW, Hlw.
Qed.

(** ** The index file is removed *)

Lemma in_write_shape p c q d t2 :
  (t2 = [] \/ exists cmd, t2 = [EvRun cmd]) ->
  In (EvWrite p c) (EvWrite q d :: t2 ++ [EvRemove q]) -> p = q /\ c = d.
Proof.
  intros H [E | I].
  - now injection E as <- <-.
  - apply in_app_or in I. destruct I as [I | [I | []]]; [|discriminate].
    destruct H as [-> | (cmd & ->)]; [destruct I|].
    destruct I as [I | []]. discriminate.
Qed.

(** C3: whenever [do_upload] has written the index file, it has reached the
    transfer call, and however it ends, with a return, with [sys.exit] or
    with an exception, the index file has been removed after the transfer
    and does not exist at the end. *)
Theorem index_file_removed w o w' t p c :
  do_upload w = (o, w') ->
  w_trace w' = w_trace w ++ t ->
  In (EvWrite p c) t ->
  p = index_path (w_args w)
  /\ stat (w_root w') (w_cwd w') p = None
  /\ exists t2, t = EvWrite p c :: t2 ++ [EvRemove p]
                /\ (t2 = [] \/ exists cmd, t2 = [EvRun cmd]).
Proof.
  intros H Ht Hin.
  destruct (do_upload_spec w) as (o0 & w0 & l & t0 & H0 & _ & T0 & _ & Hcase).
  rewrite H in H0. injection H0 as <- <-.
  rewrite Ht in T0. apply app_inv_head in T0. subst t0.
  destruct Hcase as [(_ & -> & _) | (_ & _ & [(e & _ & -> & _) | Hcase])];
    try destruct Hin.
  destruct Hcase as (es & t2 & _ & Hcase). cbv zeta in Hcase.
  destruct Hcase as (-> & Ht2 & Hstat & _).
  assert (Ht2' : t2 = [] \/ exists cmd, t2 = [EvRun cmd])
    by (destruct Ht2 as [-> | (auth & ->)]; eauto).
  destruct (in_write_shape Ht2' Hin) as (-> & ->).
  split; [reflexivity|]. split; [exact Hstat|]. eauto.
Qed.

Lemma index_file_removed_witness :
  stat (w_root (snd (do_upload world_upload_ok)))
       (w_cwd (snd (do_upload world_upload_ok))) (lit "report/report.txt") = None
  /\ stat (w_root (snd (do_upload world_upload_500)))
          (w_cwd (snd (do_upload world_upload_500))) (lit "report/report.txt") = None
  /\ stat (w_root (snd (do_upload world_upload_no_curl)))
          (w_cwd (snd (do_upload world_upload_no_curl))) (lit "report/report.txt")
     = None.
Proof.
  split; [|split].
  - refine (proj1 (proj2 (@index_file_removed world_upload_ok (Ret tt)
                            (snd (do_upload world_upload_ok))
                            (w_trace (snd (do_upload world_upload_ok)))
                            (lit "report/report.txt")
                            (lit "report-2.1-summary.pdf" ++ [LF]
                             ++ lit "report-2.1-data.csv" ++ [LF]) _ _ _)));
      vm_compute; auto.
  - refine (proj1 (proj2 (@index_file_removed world_upload_500 (Exit 1)
                            (snd (do_upload world_upload_500))
                            (w_trace (snd (do_upload world_upload_500)))
                            (lit "report/report.txt")
                            (lit "report-2.1-summary.pdf" ++ [LF]
                             ++ lit "report-2.1-data.csv" ++ [LF]) _ _ _)));
      vm_compute; auto.
  - refine (proj1 (proj2 (@index_file_removed world_upload_no_curl
                            (Raise FileNotFoundError)
                            (snd (do_upload world_upload_no_curl))
                            (w_trace (snd (do_upload world_upload_no_curl)))
                            (lit "report/report.txt")
                            (lit "report-2.1-summary.pdf" ++ [LF]
                             ++ lit "report-2.1-data.csv" ++ [LF]) _ _ _)));
      vm_compute; auto.
Defined.

(** ** The dot in the name of the directory *)

Lemma is_sep_dot : is_sep DOT = false.
Proof. reflexivity. Qed.

Ltac msg_clash :=
  exfalso;
  match goal with
  | H : [_] = [_] |- _ => vm_compute in H; discriminate H
  | H : _ = _ :> msg |- _ => vm_compute in H; discriminate H
  end.

(** C4, as amended: [do_upload] ends with the message about the dot exactly
    when the trimmed path exists, is a directory and holds a dot anywhere,
    not in its base name only; and if the directory argument holds a dot,
    [do_upload] ends with [sys.exit(1)] with no process started and the file
    system as it was. *)
Theorem dot_validation w :
  let directory := upload_directory (w_args w) in
  (upload_fails_with msg_dot w
   <-> is_dir (stat (w_root w) (w_cwd w) directory) = true
       /\ contains DOT directory = true)
  /\ (contains DOT (a_directory (w_args w)) = true ->
      exists w', do_upload w = (Exit 1, w') /\ w_trace w' = w_trace w
                 /\ w_root w' = w_root w).
Proof.
  intros directory.
  destruct (do_upload_spec w) as (o & w' & l & t & H & L & Tr & _ & Hcase).
  fold directory in Hcase.
  split; [split|].
  - intros (w1 & l1 & H1 & L1 & E1).
    rewrite H in H1. injection H1 as -> <-.
    rewrite L in L1. apply app_inv_head in L1. subst l1.
    destruct Hcase as [(_ & _ & _ & m & Hm & Hc) | (_ & _ & [(e & He & _) | Hc])].
    + rewrite E1 in Hm. injection Hm as <-.
      destruct Hc as [(_ & Hc) | [(_ & _ & Hc) | (Hd & Hdot & _)]];
        [msg_clash | msg_clash | auto].
    + discriminate.
    + destruct Hc as (es & t2 & _ & Hc). cbv zeta in Hc.
      destruct Hc as (_ & _ & _ & _ & _ & m & Hm & Hc).
      rewrite E1 in Hm. injection Hm as <-.
      destruct Hc as [(Hc & _) | [(rc & e & out & Hc & _)
                                  | [(s & Hc & _) | (s & resp & e & Hc & _)]]];
        msg_clash.
  - intros (Hd & Hdot).
    destruct Hcase as [(-> & _ & _ & m & Hm & Hc) | (_ & Hnd & _)]; [|congruence].
    exists w', l. split; [exact H|]. split; [exact L|].
    destruct Hc as [(Hc & _) | [(_ & Hc & _) | (_ & _ & ->)]]; auto;
      rewrite Hc in Hd; discriminate.
  - intros Hdot.
    assert (Hd : contains DOT directory = true)
      by (unfold directory, upload_directory;
          now rewrite strip_by_contains by apply is_sep_dot).
    destruct Hcase as [(-> & -> & Hr & _) | (_ & Hnd & _)]; [|congruence].
    exists w'. rewrite app_nil_r in Tr. auto.
Qed.

Lemma dot_validation_witness :
  upload_fails_with msg_dot world_dotted_name
  /\ exists w', do_upload world_dotted_name = (Exit 1, w')
                /\ w_trace w' = w_trace world_dotted_name
                /\ w_root w' = w_root world_dotted_name.
Proof.
  split.
  - apply (proj1 (dot_validation world_dotted_name)). split; reflexivity.
  - apply (proj2 (dot_validation world_dotted_name)). reflexivity.
Defined.

(** C4, as stated, fails for a directory [a.b/c]: its base name [c] has no
    dot, and the upload ends with the message about the dot all the same. *)
Lemma dotted_parent_counterexample :
  ~ (upload_fails_with msg_dot world_dotted_parent
     <-> contains DOT (basename (upload_directory (w_args world_dotted_parent)))
         = true).
Proof.
  intros [H _].
  assert (F : upload_fails_with msg_dot world_dotted_parent).
  { eexists. eexists. split; [vm_compute; reflexivity|].
    split; [vm_compute; reflexivity | reflexivity]. }
  specialize (H F). vm_compute in H. discriminate.
Qed.

(** ** The destination directory of a download *)

Lemma dropwhile_eq_decomp c t :
  exists n, t = repeat c n ++ dropwhile (N.eqb c) t.
Proof.
  induction t as [|x t (n & IH)]; simpl.
  - now exists 0%nat.
  - destruct (c =? x) eqn:E.
    + apply N.eqb_eq in E. subst x. exists (S n). simpl. now rewrite <- IH.
    + now exists 0%nat.
Qed.

Lemma rev_repeat_char (c : char) n : rev (repeat c n) = repeat c n.
Proof.
  induction n as [|n IH]; simpl; auto.
  rewrite IH. clear IH. induction n as [|n IH]; simpl; auto. now rewrite IH.
Qed.

Lemma rstrip_decomp c s : exists n, s = rstrip (N.eqb c) s ++ repeat c n.
Proof.
  unfold rstrip. destruct (dropwhile_eq_decomp c (rev s)) as (n & H).
  exists n. rewrite <- (rev_involutive s) at 1. rewrite H at 1.
  now rewrite rev_app_distr, rev_repeat_char.
Qed.

Lemma split_on_snoc_sep sep s : split_on sep (s ++ [sep]) = split_on sep s ++ [[]].
Proof.
  induction s as [|c r IH]; simpl.
  - now rewrite N.eqb_refl.
  - destruct (c =? sep); rewrite IH.
    + reflexivity.
    + pose proof (split_on_not_nil sep r).
      destruct (split_on sep r); [congruence | reflexivity].
Qed.

Lemma split_on_app_seps sep n : forall s,
  split_on sep (s ++ repeat sep n) = split_on sep s ++ repeat [] n.
Proof.
  induction n as [|n IH]; intros s; simpl.
  - now rewrite !app_nil_r.
  - change (s ++ sep :: repeat sep n) with (s ++ [sep] ++ repeat sep n).
    rewrite app_assoc, IH, split_on_snoc_sep, <- app_assoc. reflexivity.
Qed.

#[local] Arguments lookup : simpl nomatch.
#[local] Arguments set_at : simpl nomatch.

(** Putting a node where nothing stands leaves every directory a
    directory. *)
Lemma is_dir_lookup_set_at_mono q : forall v n r,
  lookup n q = None -> is_dir (lookup n r) = true ->
  is_dir (lookup (set_at q v n) r) = true.
Proof.
  induction q as [|c q IH]; intros v n r Hn Hr; [discriminate|].
  destruct n as [c0|es]; [exact Hr|].
  destruct r as [|c0 r].
  - destruct q; reflexivity.
  - change (lookup (Dir es) (c0 :: r))
      with (match assoc c0 es with
            | Some ch => lookup ch r
            | None => None
            end) in Hr.
    change (lookup (Dir es) (c :: q))
      with (match assoc c es with
            | Some ch => lookup ch q
            | None => None
            end) in Hn.
    destruct q as [|c' q'].
    + change (set_at [c] v (Dir es))
        with (Dir (match v with
                   | Some x => aset c x es
                   | None => adel c es
                   end)).
      change (lookup (Dir (match v with
                           | Some x => aset c x es
                           | None => adel c es
                           end)) (c0 :: r))
        with (match assoc c0 (match v with
                                | Some x => aset c x es
                                | None => adel c es
                                end) with
              | Some ch => lookup ch r
              | None => None
              end).
      destruct (eqb c c0) eqn:E.
      * apply eqb_eq in E. subst c0.
        destruct (assoc c es); discriminate.
      * destruct v; [rewrite assoc_aset | rewrite assoc_adel]; now rewrite E.
    + change (set_at (c :: c' :: q') v (Dir es))
        with (Dir (amap_at c (set_at (c' :: q') v) es)).
      change (lookup (Dir (amap_at c (set_at (c' :: q') v) es)) (c0 :: r))
        with (match assoc c0 (amap_at c (set_at (c' :: q') v) es) with
              | Some ch => lookup ch r
              | None => None
              end).
      rewrite assoc_amap_at.
      destruct (eqb c c0) eqn:E; auto.
      apply eqb_eq in E. subst c0.
      destruct (assoc c es) as [ch|]; [|discriminate].
      simpl option_map. now apply IH.
Qed.

Lemma fold_step_mono root root' :
  (forall r, is_dir (lookup root r) = true -> is_dir (lookup root' r) = true) ->
  forall l init q,
    fold_left (step root) l init = Some q -> fold_left (step root') l init = Some q.
Proof.
  intros H. induction l as [|x l IH]; intros init q; simpl; auto.
  intros F. apply IH. rewrite <- F. f_equal.
  destruct init as [q0|];
    [|simpl in F; rewrite fold_step_none in F; discriminate].
  destruct (is_dir (lookup root q0)) eqn:D.
  - simpl. now rewrite D, (H _ D).
  - simpl in F. rewrite D, fold_step_none in F. discriminate.
Qed.

Lemma fold_step_empty root q n :
  is_dir (lookup root q) = true ->
  fold_left (step root) (repeat [] n) (Some q) = Some q.
Proof.
  intros D. induction n as [|n IH]; simpl; auto. now rewrite D.
Qed.

#[local] Arguments lookup : simpl never.
#[local] Arguments set_at : simpl never.

(** [os.mkdir] of a path that names nothing: it raises, or the path names
    an empty directory afterwards. *)
Lemma os_mkdir_spec p w :
  stat (w_root w) (w_cwd w) p = None ->
  (exists e, os_mkdir p w = (Raise e, w))
  \/ (exists w',
        os_mkdir p w = (Ret tt, w')
        /\ stat (w_root w') (w_cwd w') p = Some (Dir [])
        /\ w_trace w' = w_trace w ++ [EvMkdir p]
        /\ same_but_fs w w').
Proof.
  intros Hs.
  unfold os_mkdir, bind, get_world, raise, set_root, emit. cbn.
  destruct p as [|c0 p0]; [left; eauto|].
  destruct (rstrip_decomp SLASH (c0 :: p0)) as (n & Hn).
  destruct (rstrip (N.eqb SLASH) (c0 :: p0)) as [|c p'] eqn:Hr; [left; eauto|].
  destruct (resolve (w_root w) (w_cwd w) (c :: p')) as [q|] eqn:R; [|left; eauto].
  destruct (lookup (w_root w) q) as [x|] eqn:K; [left; eauto|].
  right. eexists. split; [reflexivity|]. cbn.
  split; [|repeat split].
  assert (D : is_dir (lookup (w_root w) q) = false) by now rewrite K.
  destruct (resolve_parent_dir _ _ _ R D) as [N P].
  set (root' := set_at q (Some (Dir [])) (w_root w)).
  assert (K' : lookup root' q = Some (Dir []))
    by (apply lookup_set_at_same; assumption).
  assert (M : forall r, is_dir (lookup (w_root w) r) = true ->
                        is_dir (lookup root' r) = true)
    by (intros r; now apply is_dir_lookup_set_at_mono).
  unfold stat, resolve. rewrite Hn. cbn [app].
  assert (Hc : c0 = c) by (cbn in Hn; congruence). subst c0.
  change (c :: p' ++ repeat SLASH n) with ((c :: p') ++ repeat SLASH n).
  rewrite split_on_app_seps, fold_left_app.
  unfold resolve in R.
  rewrite (@fold_step_mono _ _ M _ _ _ R).
  rewrite fold_step_empty by now rewrite K'.
  exact K'.
Qed.

#[local] Arguments os_mkdir : simpl never.
#[local] Arguments dest_dir : simpl never.

(** Every way the first part of [do_download] ends, by what stands at the
    destination. *)
Lemma download_dest_spec w :
  let dest := dest_dir (w_args w) in
  exists o w' l t,
    download_dest w = (o, w') /\ w_log w' = w_log w ++ l
    /\ w_trace w' = w_trace w ++ t
    /\ (w_cwd w' = w_cwd w /\ w_environ w' = w_environ w
        /\ w_args w' = w_args w /\ w_curl w' = w_curl w)
    /\ match stat (w_root w) (w_cwd w) dest with
       | Some (Dir es) =>
           t = [] /\ w_root w' = w_root w
           /\ match es with
              | [] => o = Ret tt /\ errors l = []
              | _ :: _ => o = Exit 1 /\ errors l = [msg_dest_not_empty dest]
              end
       | Some (File _) =>
           (exists e, o = Raise e) /\ t = [] /\ w_root w' = w_root w
           /\ errors l = []
       | None =>
           errors l = []
           /\ ((exists e, o = Raise e /\ t = [] /\ w_root w' = w_root w)
               \/ (o = Ret tt /\ t = [EvMkdir dest]
                   /\ stat (w_root w') (w_cwd w') dest = Some (Dir [])))
       end.
Proof.
  intros dest.
  unfold download_dest, path_exists, os_listdir. repeat run_step.
  fold dest.
  destruct (stat (w_root w) (w_cwd w) dest) as [[cf|es]|] eqn:Hs;
    repeat run_step; cbn [w_root w_cwd]; rewrite ?Hs; repeat run_step.
  - destruct (level_rank (w_level w) <=? 1)%nat;
      (do 4 eexists; split; [reflexivity|]; cbn; split; [log_tail|];
       split; [symmetry; apply app_nil_r|]; split; [repeat split|];
       split; [eauto|]; repeat split).
  - destruct es as [|e es]; repeat run_step; rewrite ?level_le_error;
      destruct (level_rank (w_level w) <=? 1)%nat;
      (do 4 eexists; split; [reflexivity|]; cbn; split; [log_tail|];
       split; [symmetry; apply app_nil_r|]; split; [repeat split|];
       repeat split).
  - match goal with
    | |- context [os_mkdir dest ?w0] =>
        destruct (@os_mkdir_spec dest w0 Hs)
          as [(e & Hm) | (w1 & Hm & S1 & T1 & F1)]; rewrite Hm
    end.
    + destruct (level_rank (w_level w) <=? 1)%nat;
        (do 4 eexists; split; [reflexivity|]; cbn; split; [log_tail|];
         split; [symmetry; apply app_nil_r|]; split; [repeat split|];
         split; [reflexivity|]; left; eauto).
    + destruct F1 as (C1 & V1 & U1 & L1 & Y1 & A1 & N1 & G1). cbn in *.
      destruct (level_rank (w_level w) <=? 1)%nat;
        (do 4 eexists; split; [reflexivity|]; split; [rewrite G1; log_tail|];
         split; [exact T1|]; split; [repeat split; assumption|];
         split; [reflexivity|]; right; repeat split; exact S1).
Qed.

(** ** The fetches of a download *)

#[local] Arguments run_curl_cmd : simpl never.
#[local] Arguments join : simpl never.
#[local] Arguments download_base_url : simpl never.
#[local] Arguments download_files_url : simpl never.
#[local] Arguments index_url : simpl never.
#[local] Arguments files_url : simpl never.

Lemma download_fetch_unfold w :
  download_fetch w
  = (r <- run_curl_cmd (index_url (w_args w)) None None ;;
     let '(fileNames, httpStatus, elapsed) := r in
     (if negb (httpStatus =? 200)%Z then die msg_index_not_found else ret tt) ;;;
     (if (List.length fileNames =? 0)%nat then die msg_index_empty else ret tt) ;;;
     r <- run_curl_cmd (files_url (w_args w) fileNames) None
                       (Some (dest_dir (w_args w))) ;;
     let '(httpResponse, httpStatus, elapsed) := r in
     (if negb (httpStatus =? 200)%Z
      then die (msg_download_failed httpStatus elapsed httpResponse)
      else ret tt) ;;;
     log INFO (msg_download_ok elapsed)) w.
Proof. reflexivity. Qed.

Lemma only_runs_one cmd : only_runs [EvRun cmd].
Proof. repeat constructor. Qed.

Lemma only_runs_app t t' : only_runs t -> only_runs t' -> only_runs (t ++ t').
Proof. apply Forall_app_intro || (intros; apply Forall_app; auto). Qed.

(** What the second part of [do_download] does to the world: the file
    system stays as it is, and every event is the start of a process. *)
Lemma download_fetch_spec w :
  exists o w' l t,
    download_fetch w = (o, w') /\ same_env w w'
    /\ w_log w' = w_log w ++ l /\ w_trace w' = w_trace w ++ t
    /\ only_runs t
    /\ (login_without_passwd w -> t = [] /\ o = Exit 1).
Proof.
  rewrite download_fetch_unfold. unfold bind at 1.
  destruct (run_curl_cmd_spec (index_url (w_args w)) None None w)
    as (o1 & w1 & H1 & E1 & l1 & t1 & L1 & T1 & O1).
  assert (NP : login_without_passwd w -> t1 = [] /\ o1 = Exit 1).
  { intros Hlw.
    destruct (@run_curl_cmd_no_passwd (index_url (w_args w)) None None w Hlw)
      as (w1' & H1' & _ & _ & T1').
    rewrite H1 in H1'. injection H1' as -> <-. split; [|reflexivity].
    assert (X : w_trace w ++ t1 = w_trace w ++ [])
      by (rewrite app_nil_r; congruence).
    now apply app_inv_head in X. }
  rewrite H1.
  destruct o1 as [[[names status] el]|c|e].
  - destruct O1 as (Er1 & (auth1 & ->) & _ & _).
    assert (NP' : forall o : outcome unit, login_without_passwd w ->
                    [EvRun (curl_cmd auth1 (index_url (w_args w)) None None)] = []
                    /\ o = Exit 1)
      by (intros o Hlw; destruct (NP Hlw) as [_ X]; discriminate X).
    destruct (status =? 200)%Z; cbn [negb].
    2:{ destruct (@die_eq unit msg_index_not_found w1)
          as (w2 & H2 & L2 & SE & K7 & K8 & K9).
        unfold bind at 1. rewrite H2.
        do 4 eexists. split; [reflexivity|].
        split; [eapply same_env_trans; [exact E1 | exact SE]|].
        split; [rewrite L2, L1; log_tail|].
        split; [rewrite K9; exact T1|].
        split; [apply only_runs_one | apply NP']. }
    unfold bind at 1. unfold ret at 1.
    destruct (List.length names =? 0)%nat.
    { destruct (@die_eq unit msg_index_empty w1)
        as (w2 & H2 & L2 & SE & K7 & K8 & K9).
      unfold bind at 1. rewrite H2.
      do 4 eexists. split; [reflexivity|].
      split; [eapply same_env_trans; [exact E1 | exact SE]|].
      split; [rewrite L2, L1; log_tail|].
      split; [rewrite K9; exact T1|].
      split; [apply only_runs_one | apply NP']. }
    unfold bind at 1. unfold ret at 1. unfold bind at 1.
    destruct (run_curl_cmd_spec (files_url (w_args w) names) None
                (Some (dest_dir (w_args w))) w1)
      as (o2 & w2 & H2 & E2 & l2 & t2 & L2 & T2 & O2).
    rewrite H2.
    assert (R2 : only_runs t2).
    { destruct o2 as [[[resp2 status2] el2]|c2|e2].
      - destruct O2 as (_ & (a & ->) & _). apply only_runs_one.
      - destruct O2 as (_ & m & _ & [(_ & -> & _) | [(a & _ & _ & _ & -> & _)
                                                     | (a & _ & -> & _)]]);
          try apply only_runs_one; constructor.
      - destruct O2 as (_ & [-> | (a & ->)]);
          try apply only_runs_one; constructor. }
    assert (TT : forall w3, w_trace w3 = w_trace w2 ->
                 w_trace w3 = w_trace w
                   ++ [EvRun (curl_cmd auth1 (index_url (w_args w)) None None)]
                   ++ t2)
      by (intros w3 ->; rewrite T2, T1; now rewrite <- app_assoc).
    assert (RR : only_runs ([EvRun (curl_cmd auth1 (index_url (w_args w)) None None)]
                            ++ t2))
      by (apply only_runs_app; [apply only_runs_one | exact R2]).
    assert (NP2 : forall o : outcome unit, login_without_passwd w ->
                    [EvRun (curl_cmd auth1 (index_url (w_args w)) None None)] ++ t2
                    = [] /\ o = Exit 1)
      by (intros o Hlw; destruct (NP Hlw) as [_ X]; discriminate X).
    assert (EE : same_env w w2) by (eapply same_env_trans; eassumption).
    destruct o2 as [[[resp2 status2] el2]|c2|e2].
    + destruct (status2 =? 200)%Z; cbn [negb].
      * unfold bind, ret, log. cbn.
        destruct (level_rank (w_level w2) <=? 1)%nat;
          (do 4 eexists; split; [reflexivity|];
           split; [destruct EE as (A1 & A2 & A3 & A4 & A5 & A6);
                   repeat split; assumption|];
           cbn; split; [rewrite L2, L1; log_tail|];
           split; [apply TT; reflexivity|]; split; [exact RR | apply NP2]).
      * destruct (@die_eq unit (msg_download_failed status2 el2 resp2) w2)
          as (w3 & H3 & L3 & SE & K7 & K8 & K9).
        unfold bind at 1. rewrite H3.
        do 4 eexists. split; [reflexivity|].
        split; [eapply same_env_trans; [exact EE | exact SE]|].
        split; [rewrite L3, L2, L1; log_tail|].
        split; [apply TT; exact K9|]. split; [exact RR | apply NP2].
    + do 4 eexists. split; [reflexivity|]. split; [exact EE|].
      split; [rewrite L2, L1; log_tail|].
      split; [apply TT; reflexivity|]. split; [exact RR | apply NP2].
    + do 4 eexists. split; [reflexivity|]. split; [exact EE|].
      split; [rewrite L2, L1; log_tail|].
      split; [apply TT; reflexivity|]. split; [exact RR | apply NP2].
  - do 4 eexists. split; [reflexivity|]. split; [exact E1|].
    split; [exact L1|]. split; [exact T1|]. split.
    + destruct O1 as (_ & m & _ & [(_ & -> & _) | [(a & _ & _ & _ & -> & _)
                                                   | (a & _ & -> & _)]]);
        try apply only_runs_one; constructor.
    + intros Hlw. destruct (NP Hlw) as [X _]. split; [exact X|].
      destruct (NP Hlw) as [_ Y]. injection Y as ->. reflexivity.
  - do 4 eexists. split; [reflexivity|]. split; [exact E1|].
    split; [exact L1|]. split; [exact T1|]. split.
    + destruct O1 as (_ & [-> | (a & ->)]);
        try apply only_runs_one; constructor.
    + intros Hlw. destruct (NP Hlw) as [_ Y]. discriminate Y.
Qed.

(** ** Every way a download ends *)

Lemma do_download_spec w :
  let dest := dest_dir (w_args w) in
  exists o w' l t,
    do_download w = (o, w') /\ w_log w' = w_log w ++ l
    /\ w_trace w' = w_trace w ++ t
    /\ match stat (w_root w) (w_cwd w) dest with
       | Some (Dir (_ :: _)) =>
           o = Exit 1 /\ t = [] /\ w_root w' = w_root w
           /\ errors l = [msg_dest_not_empty dest]
       | Some (Dir []) => only_runs t /\ w_root w' = w_root w
       | Some (File _) => (exists e, o = Raise e) /\ t = [] /\ w_root w' = w_root w
       | None =>
           (exists e, o = Raise e /\ t = [] /\ w_root w' = w_root w)
           \/ (exists t', t = EvMkdir dest :: t' /\ only_runs t'
                          /\ stat (w_root w') (w_cwd w') dest = Some (Dir []))
       end
    /\ (login_without_passwd w -> no_run t /\ o <> Ret tt).
Proof.
  intros dest.
  destruct (download_dest_spec w)
    as (o1 & w1 & l1 & t1 & H1 & L1 & T1 & (C1 & V1 & A1 & U1) & O1).
  fold dest in O1.
  unfold do_download. unfold bind. rewrite H1.
  destruct (download_fetch_spec w1)
    as (o2 & w2 & l2 & t2 & H2 & (R2 & C2 & _) & L2 & T2 & Rn2 & NP2).
  assert (LW : login_without_passwd w -> login_without_passwd w1)
    by (apply login_without_passwd_same; congruence).
  assert (NR : forall t, only_runs t -> t = [] -> no_run t)
    by (intros t _ ->; constructor).
  destruct (stat (w_root w) (w_cwd w) dest) as [[cf|[|e es]]|] eqn:Hs.
  - destruct O1 as ((e & ->) & -> & Hr & _).
    exists (Raise e), w1, l1, []. rewrite app_nil_r in T1.
    split; [reflexivity|]. split; [exact L1|].
    split; [now rewrite app_nil_r|]. split; [eauto|].
    intros _. split; [constructor | discriminate].
  - destruct O1 as (-> & Hr & -> & E1). rewrite H2.
    rewrite app_nil_r in T1.
    exists o2, w2, (l1 ++ l2), t2.
    split; [reflexivity|]. split; [rewrite L2, L1; log_tail|].
    split; [congruence|]. split; [split; [exact Rn2 | congruence]|].
    intros Hlw. destruct (NP2 (LW Hlw)) as [-> ->].
    split; [constructor | discriminate].
  - destruct O1 as (-> & Hr & -> & E1). rewrite app_nil_r in T1.
    exists (Exit 1), w1, l1, []. split; [reflexivity|]. split; [exact L1|].
    split; [now rewrite app_nil_r|]. split; [auto|].
    intros _. split; [constructor | discriminate].
  - destruct O1 as (E1 & [(e & -> & -> & Hr) | (-> & -> & S1)]).
    + rewrite app_nil_r in T1.
      exists (Raise e), w1, l1, []. split; [reflexivity|]. split; [exact L1|].
      split; [now rewrite app_nil_r|]. split; [left; eauto|].
      intros _. split; [constructor | discriminate].
    + rewrite H2.
      exists o2, w2, (l1 ++ l2), (EvMkdir dest :: t2).
      split; [reflexivity|]. split; [rewrite L2, L1; log_tail|].
      split; [rewrite T2, T1, <- app_assoc; reflexivity|].
      split; [right; exists t2; repeat split; auto; now rewrite R2, C2|].
      intros Hlw. destruct (NP2 (LW Hlw)) as [-> ->].
      split; [repeat constructor | discriminate].
Qed.









Example download_ok_run :
  fst (do_download world_download_ok) = Ret tt
  /\ w_trace (snd (do_download world_download_ok))
     = [EvMkdir (lit "report-2.1");
        EvRun (curl_cmd (Some (lit "alice:secret"))
                        (index_url (w_args world_download_ok)) None None);
        EvRun (curl_cmd (Some (lit "alice:secret"))
                        (files_url (w_args world_download_ok)
                           [lit "report-2.1-summary.pdf"; lit "report-2.1-data.csv"])
                        None (Some (lit "report-2.1")))].
Proof. split; vm_compute; reflexivity. Qed.

(** ** [NEXUS_LOGIN] without [NEXUS_PASSWD] *)

Lemma main_eq w :
  main w = (if is_upload (w_args w) then do_upload else do_download) (configured w).
Proof. reflexivity. Qed.

Lemma no_run_write_remove p c : no_run [EvWrite p c; EvRemove p].
Proof. repeat constructor. Qed.

(** C9, as amended: with no login on the command line, [NEXUS_LOGIN] set
    and [NEXUS_PASSWD] not, every call of the Transport Invoker ends the run
    with the message about [NEXUS_PASSWD] before a process is started, and no
    run starts a process or ends well; a run may end earlier, with a
    validation error of its directory. *)
Theorem no_passwd_run w :
  login_without_passwd w ->
  (forall url data outdir,
      exists w', run_curl_cmd url data outdir w = (Exit 1, w')
                 /\ w_log w' = w_log w ++ [(ERROR, msg_no_passwd)]
                 /\ w_trace w' = w_trace w)
  /\ (exists o w' t,
         main w = (o, w') /\ w_trace w' = w_trace w ++ t /\ no_run t
         /\ o <> Ret tt).
Proof.
  intros Hlw. split.
  - intros url data outdir.
    destruct (@run_curl_cmd_no_passwd url data outdir w Hlw)
      as (w' & H & L & _ & T).
    eauto.
  - rewrite main_eq.
    assert (Hlw0 : login_without_passwd (configured w)) by exact Hlw.
    destruct (is_upload (w_args w)).
    + destruct (do_upload_spec (configured w))
        as (o & w' & l & t & H & _ & T & _ & Hu).
      exists o, w', t. split; [exact H|]. split; [exact T|].
      destruct Hu as [(-> & -> & _) | (_ & _ & [(e & -> & -> & _) | Hu])].
      * split; [constructor | discriminate].
      * split; [constructor | discriminate].
      * destruct Hu as (es & t2 & _ & Hu). cbv zeta in Hu.
        destruct Hu as (-> & _ & _ & NP & _).
        destruct (NP Hlw0) as [-> ->].
        split; [apply no_run_write_remove | discriminate].
    + destruct (do_download_spec (configured w))
        as (o & w' & l & t & H & _ & T & _ & Hd).
      exists o, w', t. split; [exact H|]. split; [exact T|]. auto.
Qed.

Lemma no_passwd_run_witness :
  login_without_passwd world_no_passwd
  /\ (exists w', run_curl_cmd upload_url_full None None world_no_passwd = (Exit 1, w')
                 /\ w_log w' = w_log world_no_passwd ++ [(ERROR, msg_no_passwd)]
                 /\ w_trace w' = w_trace world_no_passwd)
  /\ config_error_run world_no_passwd.
Proof.
  assert (H : login_without_passwd world_no_passwd).
  { split; [reflexivity|]. split; [|reflexivity].
    exists (lit "alice"). reflexivity. }
  split; [exact H|]. split.
  - apply (proj1 (no_passwd_run H)).
  - do 3 eexists. split; [vm_compute; reflexivity|].
    split; [vm_compute; reflexivity|]. split; [reflexivity|].
    split; [vm_compute; reflexivity|]. repeat constructor.
Defined.

(** C9, as stated, fails for the upload of a directory that does not
    exist: the run ends with the message of that check, not with the one
    about [NEXUS_PASSWD]. *)
Lemma no_passwd_counterexample :
  login_without_passwd world_no_passwd_missing
  /\ ~ config_error_run world_no_passwd_missing.
Proof.
  split.
  - split; [reflexivity|]. split; [|reflexivity].
    exists (lit "alice"). reflexivity.
  - intros (w' & l & t & H & L & E & _).
    vm_compute in H. injection H as <-.
    vm_compute in L. subst l. vm_compute in E. discriminate.
Qed.

(** Every form field of [data] is on the command line. *)
Lemma curl_cmd_fields auth url d k v :
  In (k, v) d -> In (k ++ lit "=" ++ v) (curl_cmd auth url (Some d) None).
Proof.
  intros H. unfold curl_cmd.
  destruct d as [|kv d]; [destruct H|].
  apply in_or_app. left. apply in_or_app. right.
  apply in_flat_map. exists (k, v). split; [exact H|]. right. left. reflexivity.
Qed.

(** ** The call sites of the Transport Invoker *)

(** The upload after its transfer call: the index file is removed, and the
    outcome of the call decides the rest. *)
Lemma upload_transfer_after directory st w w1 o2 w2 :
  let p := idx_file_path directory (data st) in
  write_file p (idxEntries st) w = (Ret tt, w1) ->
  run_curl_cmd upload_url_full (Some (register_index p (data st))) None w1
  = (o2, w2) ->
  exists w3,
    os_remove p w2 = (Ret tt, w3) /\ w_log w3 = w_log w2
    /\ upload_transfer directory st w
       = match o2 with
         | Ret (httpResponse, httpStatus, elapsed) =>
             ((if negb (httpStatus =? 204)%Z
               then die (msg_upload_failed httpStatus httpResponse elapsed)
               else ret tt) ;;;
              log INFO (msg_upload_ok elapsed)) w3
         | Exit c => (Exit c, w3)
         | Raise e => (Raise e, w3)
         end.
Proof.
  intros p Hw H2.
  destruct (write_file_spec p (idxEntries st) w)
    as [[e He] | (q & w1' & Hw' & R & N & D & P & Hr1 & Ht1 & F1)];
    [congruence|].
  rewrite Hw in Hw'. injection Hw' as <-.
  destruct F1 as (C1 & V1 & U1 & L1 & Y1 & A1 & N1 & G1).
  destruct (run_curl_cmd_spec upload_url_full
              (Some (register_index p (data st))) None w1)
    as (o2' & w2' & H2' & (E1 & E2 & _) & _).
  rewrite H2 in H2'. injection H2' as <- <-.
  assert (R2 : resolve (w_root w) (w_cwd w2) p = Some q) by (rewrite E2, C1; exact R).
  assert (Hroot2 : w_root w2
                   = set_at q (Some (File (List.concat (idxEntries st)))) (w_root w))
    by congruence.
  destruct (@os_remove_written p q _ (w_root w) w2 R2 N D P Hroot2)
    as (w3 & H3 & _ & _ & (_ & _ & _ & _ & _ & _ & _ & G3) & _ & _).
  exists w3. split; [exact H3|]. split; [exact G3|].
  unfold upload_transfer, bind, try_finally. fold p. rewrite Hw, H2, H3.
  destruct o2 as [[[resp status] elapsed]|c|e]; reflexivity.
Qed.

(** The start of [do_upload] up to the transfer call. *)
Lemma do_upload_after w vd wv st ws :
  upload_validate w = (Ret vd, wv) ->
  upload_scan (snd vd) wv = (Ret st, ws) ->
  do_upload w = upload_transfer (fst vd) st ws.
Proof.
  intros Hv Hs. unfold do_upload, bind. now rewrite Hv, Hs.
Qed.

(** The download after its index fetch. *)
Lemma download_fetch_after w o1 w1 :
  run_curl_cmd (index_url (w_args w)) None None w = (o1, w1) ->
  download_fetch w
  = match o1 with
    | Ret (fileNames, httpStatus, _) =>
        if negb (httpStatus =? 200)%Z then @die unit msg_index_not_found w1
        else if (List.length fileNames =? 0)%nat then @die unit msg_index_empty w1
             else
               (r <- run_curl_cmd (files_url (w_args w) fileNames) None
                                  (Some (dest_dir (w_args w))) ;;
                let '(httpResponse, httpStatus, elapsed) := r in
                (if negb (httpStatus =? 200)%Z
                 then die (msg_download_failed httpStatus elapsed httpResponse)
                 else ret tt) ;;;
                log INFO (msg_download_ok elapsed)) w1
    | Exit c => (Exit c, w1)
    | Raise e => (Raise e, w1)
    end.
Proof.
  intros H1. rewrite download_fetch_unfold. unfold bind at 1. rewrite H1.
  destruct o1 as [[[names status] el]|c|e]; try reflexivity.
  destruct (status =? 200)%Z; cbn [negb].
  - unfold bind at 1. unfold ret at 1.
    destruct (List.length names =? 0)%nat.
    + unfold bind at 1.
      destruct (@die_eq unit msg_index_empty w1) as (w2 & H2 & _).
      rewrite H2. reflexivity.
    + reflexivity.
  - unfold bind at 1.
    destruct (@die_eq unit msg_index_not_found w1) as (w2 & H2 & _).
    rewrite H2. reflexivity.
Qed.

Lemma get_auth_ret w auth wa :
  get_auth w = (Ret auth, wa) ->
  same_env w wa /\ w_trace wa = w_trace w /\ w_log wa = w_log w.
Proof.
  intros H.
  destruct (get_auth_spec w) as (o & w' & H' & E & T & _ & L).
  rewrite H in H'. injection H' as <- <-. auto.
Qed.

(** A call whose process ends ends as [transfer_result] says. *)
Lemma completed_run w url data outdir rc out d :
  completed_with w url data outdir rc out d ->
  exists w' l,
    run_curl_cmd url data outdir w = (fst (transfer_result rc out d), w')
    /\ same_env w w' /\ w_log w' = w_log w ++ l
    /\ errors l = snd (transfer_result rc out d).
Proof.
  intros (auth & wa & Ha & Hc).
  destruct (@get_auth_ret _ _ _ Ha) as (E & _ & L).
  destruct (@run_curl_cmd_completed url data outdir _ _ _ _ _ _ Ha Hc)
    as (w' & l & H & E' & L' & Er & _).
  exists w', l. split; [exact H|].
  split; [eapply same_env_trans; eassumption|].
  split; [congruence | exact Er].
Qed.

Lemma answered_result text d s out :
  decode_utf8 out = Some text -> parse_status (resp_lines text) = Ret s ->
  transfer_result 0 out d
  = if (s =? 401)%Z || (s =? 403)%Z then (Exit 1, [msg_auth s])
    else (Ret (removelast (resp_lines text), s, d), []).
Proof.
  intros Hd Hp. unfold transfer_result. cbn [Z.eqb negb].
  now rewrite Hd, Hp.
Qed.

(** An answered call with a status other than 401 and 403 returns the
    lines before the status line, the status and the elapsed time. *)
Lemma answered_run w url data outdir text d s :
  answered w url data outdir text d s -> s <> 401%Z -> s <> 403%Z ->
  exists w' l,
    run_curl_cmd url data outdir w
    = (Ret (removelast (resp_lines text), s, d), w')
    /\ same_env w w' /\ w_log w' = w_log w ++ l /\ errors l = [].
Proof.
  intros (out & Hc & Hd & Hp) H1 H2.
  destruct (@completed_run _ _ _ _ _ _ _ Hc) as (w' & l & H & E & L & Er).
  rewrite (@answered_result text d s out Hd Hp) in H, Er.
  apply Z.eqb_neq in H1, H2. rewrite H1, H2 in H, Er. cbn in H, Er.
  eauto 10.
Qed.

(** An answered call with status 401 or 403 ends the run with the message
    about login and password. *)
Lemma answered_auth w url data outdir text d s :
  answered w url data outdir text d s -> s = 401%Z \/ s = 403%Z ->
  exits_with (run_curl_cmd url data outdir w) w (msg_auth s).
Proof.
  intros (out & Hc & Hd & Hp) Hs.
  destruct (@completed_run _ _ _ _ _ _ _ Hc) as (w' & l & H & E & L & Er).
  rewrite (@answered_result text d s out Hd Hp) in H, Er.
  assert (X : (s =? 401)%Z || (s =? 403)%Z = true)
    by (destruct Hs as [-> | ->]; reflexivity).
  rewrite X in H, Er. cbn in H, Er.
  unfold exits_with. rewrite H. cbn. eauto.
Qed.

(** The log of an upload up to its transfer call holds no error. *)
Lemma upload_reaches_log w st p w1 :
  upload_reaches_transfer w st p w1 ->
  exists l0, w_log w1 = w_log w ++ l0 /\ errors l0 = [].
Proof.
  intros (vd & wv & ws & Hv & Hs & -> & Hw).
  destruct (upload_validate_spec w) as (o1 & w1' & l1 & H1 & _ & L1 & O1).
  rewrite Hv in H1. injection H1 as <- <-.
  destruct O1 as (_ & E1 & _).
  destruct (upload_scan_spec (snd vd) wv)
    as [(e & H2 & _) | (es & ws' & l2 & _ & H2 & _ & L2 & E2)];
    rewrite Hs in H2; [discriminate|].
  injection H2 as _ <-.
  destruct (write_file_spec (idx_file_path (fst vd) (data st)) (idxEntries st) ws)
    as [[e He] | (q & w1' & Hw' & _ & _ & _ & _ & _ & _ & F)];
    rewrite Hw in *; [discriminate|].
  injection Hw' as <-.
  destruct F as (_ & _ & _ & _ & _ & _ & _ & G).
  exists (l1 ++ l2). rewrite G, L2, L1, <- app_assoc, errors_app, E1, E2.
  split; reflexivity.
Qed.

(** The outcome of an upload from the outcome of its transfer call. *)
Lemma upload_reaches_after w st p w1 o2 w2 :
  upload_reaches_transfer w st p w1 ->
  run_curl_cmd upload_url_full (Some (register_index p (data st))) None w1
  = (o2, w2) ->
  exists w3,
    w_log w3 = w_log w2
    /\ do_upload w
       = match o2 with
         | Ret (httpResponse, httpStatus, elapsed) =>
             ((if negb (httpStatus =? 204)%Z
               then die (msg_upload_failed httpStatus httpResponse elapsed)
               else ret tt) ;;;
              log INFO (msg_upload_ok elapsed)) w3
         | Exit c => (Exit c, w3)
         | Raise e => (Raise e, w3)
         end.
Proof.
  intros (vd & wv & ws & Hv & Hs & -> & Hw) H2.
  destruct (@upload_transfer_after (fst vd) st ws _ _ _ Hw H2) as (w3 & _ & G & H).
  exists w3. split; [exact G|].
  now rewrite (@do_upload_after w _ _ _ _ Hv Hs).
Qed.

Lemma download_dest_ret w wd :
  download_dest w = (Ret tt, wd) ->
  w_args wd = w_args w /\ exists l, w_log wd = w_log w ++ l /\ errors l = [].
Proof.
  intros H.
  destruct (download_dest_spec w)
    as (o & w' & l & t & H' & L & _ & (_ & _ & A & _) & O).
  rewrite H in H'. injection H' as <- <-.
  split; [exact A|]. exists l. split; [exact L|].
  destruct (stat (w_root w) (w_cwd w) (dest_dir (w_args w))) as [[cf|[|e es]]|].
  - destruct O as ((e & X) & _). discriminate X.
  - destruct O as (_ & _ & _ & E). exact E.
  - destruct O as (_ & _ & X & _). discriminate X.
  - destruct O as (E & _). exact E.
Qed.

Lemma exits_with_later (A B : Type) (r : outcome A * World) (r' : outcome B * World)
      w w0 l0 m :
  w_log w0 = w_log w ++ l0 -> errors l0 = [] ->
  exits_with r w0 m -> fst r' = Exit 1 -> w_log (snd r') = w_log (snd r) ->
  exits_with r' w m.
Proof.
  intros L0 E0 (_ & l & L & E) H1 H2.
  split; [exact H1|]. exists (l0 ++ l).
  rewrite H2, L, L0, <- app_assoc, errors_app, E0. auto.
Qed.

(** ** Authentication errors *)

(** C6: a call of the Transport Invoker that is answered with the HTTP
    status 401 or 403 ends the run with the message that tells to check
    login and password as the one error message, at each of the three call
    sites, the upload, the index fetch and the bulk fetch; and this message
    is none of the messages of a failed transfer. *)
Theorem auth_error_distinct s :
  s = 401%Z \/ s = 403%Z ->
  (forall w url data outdir text d,
      answered w url data outdir text d s ->
      exits_with (run_curl_cmd url data outdir w) w (msg_auth s))
  /\ (forall w st p w1 text d,
         upload_reaches_transfer w st p w1 ->
         answered w1 upload_url_full (Some (register_index p (data st))) None
                  text d s ->
         exits_with (do_upload w) w (msg_auth s))
  /\ (forall w wd text d,
         download_dest w = (Ret tt, wd) ->
         answered wd (index_url (w_args wd)) None None text d s ->
         exits_with (do_download w) w (msg_auth s))
  /\ (forall w wd fileNames elapsed w1 text d,
         download_dest w = (Ret tt, wd) ->
         run_curl_cmd (index_url (w_args wd)) None None wd
         = (Ret (fileNames, 200%Z, elapsed), w1) ->
         fileNames <> [] ->
         answered w1 (files_url (w_args wd) fileNames) None
                  (Some (dest_dir (w_args wd))) text d s ->
         exits_with (do_download w) w (msg_auth s))
  /\ ((forall rc e out, msg_auth s <> msg_curl_failed rc e out)
      /\ (forall st resp e, msg_auth s <> msg_upload_failed st resp e)
      /\ (forall st e resp, msg_auth s <> msg_download_failed st e resp)
      /\ msg_auth s <> msg_index_not_found).
Proof.
  intros Hs. split; [|split; [|split; [|split]]].
  - intros w url data outdir text d Ha. exact (answered_auth Ha Hs).
  - intros w st p w1 text d Hr Ha.
    destruct (upload_reaches_log Hr) as (l0 & L0 & E0).
    pose proof (answered_auth Ha Hs) as X.
    destruct (run_curl_cmd upload_url_full (Some (register_index p (data st)))
                None w1) as [o2 w2] eqn:H2.
    destruct (upload_reaches_after Hr H2) as (w3 & G & H).
    destruct X as (Ho & X). cbn in Ho. subst o2.
    apply (@exits_with_later _ _ (@Exit (list str * Z * Z) 1, w2) (do_upload w)
             w w1 l0 (msg_auth s) L0 E0).
    + split; [reflexivity | exact X].
    + now rewrite H.
    + rewrite H. exact G.
  - intros w wd text d Hd Ha.
    destruct (@download_dest_ret w wd Hd) as (_ & l0 & L0 & E0).
    pose proof (answered_auth Ha Hs) as X.
    destruct (run_curl_cmd (index_url (w_args wd)) None None wd)
      as [o1 w1] eqn:H1.
    destruct X as (Ho & X). cbn in Ho. subst o1.
    assert (H : do_download w = (Exit 1, w1)).
    { unfold do_download, bind. rewrite Hd.
      now rewrite (@download_fetch_after wd _ _ H1). }
    apply (@exits_with_later _ _ (@Exit (list str * Z * Z) 1, w1) (do_download w)
             w wd l0 (msg_auth s) L0 E0).
    + split; [reflexivity | exact X].
    + now rewrite H.
    + now rewrite H.
  - intros w wd names el w1 text d Hd H1 Hn Ha.
    destruct (@download_dest_ret w wd Hd) as (_ & l0 & L0 & E0).
    destruct (run_curl_cmd_spec (index_url (w_args wd)) None None wd)
      as (o1 & w1' & H1' & _ & l1 & t1 & L1 & _ & O1).
    rewrite H1 in H1'. injection H1' as <- <-.
    destruct O1 as (E1 & _).
    pose proof (answered_auth Ha Hs) as X.
    destruct (run_curl_cmd (files_url (w_args wd) names) None
                (Some (dest_dir (w_args wd))) w1) as [o2 w2] eqn:H2.
    destruct X as (Ho & X). cbn in Ho. subst o2.
    assert (H : do_download w = (Exit 1, w2)).
    { unfold do_download, bind. rewrite Hd.
      rewrite (@download_fetch_after wd _ _ H1). cbn [Z.eqb negb].
      destruct names as [|n names]; [congruence|]. cbn [List.length Nat.eqb].
      unfold bind. now rewrite H2. }
    apply (@exits_with_later _ _ (@Exit (list str * Z * Z) 1, w2) (do_download w)
             w w1 (l0 ++ l1) (msg_auth s)).
    + rewrite L1, L0. now rewrite app_assoc.
    + now rewrite errors_app, E0, E1.
    + split; [reflexivity | exact X].
    + now rewrite H.
    + now rewrite H.
  - repeat split; intros; discriminate.
Qed.

Lemma auth_error_distinct_witness :
  exits_with (run_curl_cmd upload_url_full None None world_upload_403)
             world_upload_403 (msg_auth 403)
  /\ exits_with (do_upload world_upload_403) world_upload_403 (msg_auth 403).
Proof.
  pose proof (@auth_error_distinct 403 (or_intror eq_refl)) as (H1 & H2 & _).
  split.
  - apply (H1 world_upload_403 upload_url_full None None
              ([LF] ++ lit "**http_status=403" ++ [LF]) 1500000%Z).
    exists ([LF] ++ lit "**http_status=403" ++ [LF]).
    split; [|split; reflexivity].
    exists (Some (lit "alice:secret")), world_upload_403.
    split; reflexivity.
  - eapply (H2 world_upload_403 _ _ _
               ([LF] ++ lit "**http_status=403" ++ [LF]) 1500000%Z).
    + do 3 eexists. split; [vm_compute; reflexivity|].
      split; [vm_compute; reflexivity|]. split; [reflexivity|].
      vm_compute. reflexivity.
    + exists ([LF] ++ lit "**http_status=403" ++ [LF]).
      split; [|split; reflexivity].
      eexists. eexists. split; [vm_compute; reflexivity|]. reflexivity.
Defined.

(** ** Transport failures *)

Lemma exits_with_die (A : Type) (m : msg) (w w3 : World) (l0 : list (level * msg))
      (r : outcome A * World) :
  w_log w3 = w_log w ++ l0 -> errors l0 = [] ->
  r = @die A m w3 -> exits_with r w m.
Proof.
  intros L E ->. destruct (@die_eq A m w3) as (w4 & H & L4 & _).
  rewrite H. split; [reflexivity|]. exists (l0 ++ [(ERROR, m)]).
  cbn [snd]. rewrite L4, L, <- app_assoc, errors_app, E. auto.
Qed.

(** C7, as amended: a transfer process that ends with a return code other
    than 0, an upload that is answered with a status other than 204, and a
    bulk fetch that is answered with a status other than 200 end the run with
    a message that tells the status code, the elapsed time and the captured
    output; an index fetch that is answered with a status other than 200 ends
    the run with a fixed message that tells none of them; and when the
    process cannot be run, or runs out of time, the exception leaves the call
    and no error message is logged. *)
Theorem transport_failures :
  (forall w url data outdir rc out d,
      completed_with w url data outdir rc out d -> rc <> 0%Z ->
      exits_with (run_curl_cmd url data outdir w) w (msg_curl_failed rc d out)
      /\ reports_transfer (msg_curl_failed rc d out) = true)
  /\ (forall w st p w1 text d s,
         upload_reaches_transfer w st p w1 ->
         answered w1 upload_url_full (Some (register_index p (data st))) None
                  text d s ->
         s <> 204%Z -> s <> 401%Z -> s <> 403%Z ->
         exits_with (do_upload w) w
                    (msg_upload_failed s (removelast (resp_lines text)) d)
         /\ reports_transfer
              (msg_upload_failed s (removelast (resp_lines text)) d) = true)
  /\ (forall w wd fileNames elapsed w1 text d s,
         download_dest w = (Ret tt, wd) ->
         run_curl_cmd (index_url (w_args wd)) None None wd
         = (Ret (fileNames, 200%Z, elapsed), w1) ->
         fileNames <> [] ->
         answered w1 (files_url (w_args wd) fileNames) None
                  (Some (dest_dir (w_args wd))) text d s ->
         s <> 200%Z -> s <> 401%Z -> s <> 403%Z ->
         exits_with (do_download w) w
                    (msg_download_failed s d (removelast (resp_lines text)))
         /\ reports_transfer
              (msg_download_failed s d (removelast (resp_lines text))) = true)
  /\ (forall w wd text d s,
         download_dest w = (Ret tt, wd) ->
         answered wd (index_url (w_args wd)) None None text d s ->
         s <> 200%Z -> s <> 401%Z -> s <> 403%Z ->
         exits_with (do_download w) w msg_index_not_found
         /\ reports_transfer msg_index_not_found = false)
  /\ (forall w url data outdir e,
         not_run w url data outdir e ->
         exists w' l,
           run_curl_cmd url data outdir w = (Raise e, w')
           /\ w_log w' = w_log w ++ l /\ errors l = []).
Proof.
  split; [|split; [|split; [|split]]].
  - intros w url data outdir rc out d Hc Hrc. split; [|reflexivity].
    destruct (@completed_run _ _ _ _ _ _ _ Hc) as (w' & l & H & _ & L & E).
    unfold transfer_result in H, E.
    apply Z.eqb_neq in Hrc. rewrite Hrc in H, E. cbn in H, E.
    unfold exits_with. rewrite H. cbn. eauto.
  - intros w st p w1 text d s Hr Ha H204 H401 H403. split; [|reflexivity].
    destruct (@upload_reaches_log _ _ _ _ Hr) as (l0 & L0 & E0).
    destruct (@answered_run _ _ _ _ _ _ _ Ha H401 H403)
      as (w2 & l2 & H2 & _ & L2 & E2).
    destruct (@upload_reaches_after _ _ _ _ _ _ Hr H2) as (w3 & G & H).
    apply Z.eqb_neq in H204. rewrite H204 in H. cbn [negb] in H.
    assert (X : do_upload w
                = @die unit (msg_upload_failed s (removelast (resp_lines text)) d) w3).
    { rewrite H. unfold bind at 1.
      destruct (@die_eq unit (msg_upload_failed s (removelast (resp_lines text)) d) w3)
        as (w4 & H4 & _).
      now rewrite H4. }
    apply (@exits_with_die unit _ w w3 (l0 ++ l2)); auto.
    + rewrite G, L2, L0. now rewrite app_assoc.
    + now rewrite errors_app, E0, E2.
  - intros w wd names el w1 text d s Hd H1 Hn Ha H200 H401 H403.
    split; [|reflexivity].
    destruct (@download_dest_ret w wd Hd) as (_ & l0 & L0 & E0).
    destruct (run_curl_cmd_spec (index_url (w_args wd)) None None wd)
      as (o1 & w1' & H1' & _ & l1 & t1 & L1 & _ & O1).
    rewrite H1 in H1'. injection H1' as <- <-.
    destruct O1 as (E1 & _).
    destruct (@answered_run _ _ _ _ _ _ _ Ha H401 H403)
      as (w2 & l2 & H2 & _ & L2 & E2).
    apply Z.eqb_neq in H200.
    assert (X : do_download w
                = @die unit (msg_download_failed s d (removelast (resp_lines text)))
                       w2).
    { unfold do_download, bind. rewrite Hd.
      rewrite (@download_fetch_after wd _ _ H1). cbn [Z.eqb negb].
      destruct names as [|n names]; [congruence|]. cbn [List.length Nat.eqb].
      unfold bind. rewrite H2, H200. cbn [negb].
      destruct (@die_eq unit
                  (msg_download_failed s d (removelast (resp_lines text))) w2)
        as (w4 & H4 & _).
      now rewrite H4. }
    apply (@exits_with_die unit _ w w2 (l0 ++ l1 ++ l2)); auto.
    + rewrite L2, L1, L0. now rewrite <- !app_assoc.
    + now rewrite !errors_app, E0, E1, E2.
  - intros w wd text d s Hd Ha H200 H401 H403. split; [|reflexivity].
    destruct (@download_dest_ret w wd Hd) as (_ & l0 & L0 & E0).
    destruct (@answered_run _ _ _ _ _ _ _ Ha H401 H403)
      as (w1 & l1 & H1 & _ & L1 & E1).
    apply Z.eqb_neq in H200.
    assert (X : do_download w = @die unit msg_index_not_found w1).
    { unfold do_download, bind. rewrite Hd.
      rewrite (@download_fetch_after wd _ _ H1). now rewrite H200. }
    apply (@exits_with_die unit _ w w1 (l0 ++ l1)); auto.
    + rewrite L1, L0. now rewrite app_assoc.
    + now rewrite errors_app, E0, E1.
  - intros w url data outdir e (auth & wa & Ha & Hc).
    destruct (@get_auth_ret _ _ _ Ha) as (_ & _ & L).
    destruct (@run_curl_cmd_proc_error url data outdir _ _ _ _ Ha Hc)
      as (w' & l & H & _ & L' & E & _).
    exists w', l. split; [exact H|]. split; [congruence | exact E].
Qed.

Lemma transport_failures_witness :
  exits_with (run_curl_cmd upload_url_full None None world_upload_exit_22)
             world_upload_exit_22
             (msg_curl_failed 22 700000 (lit "curl: (22) error"))
  /\ exits_with (do_upload world_upload_500) world_upload_500
                (msg_upload_failed 500 [] 1500000).
Proof.
  pose proof transport_failures as (H1 & H2 & _).
  split.
  - apply (H1 world_upload_exit_22 upload_url_full None None 22%Z
              (lit "curl: (22) error") 700000%Z); [|discriminate].
    exists (Some (lit "alice:secret")), world_upload_exit_22.
    split; reflexivity.
  - refine (proj1 (H2 world_upload_500 _ _ _
                      ([LF] ++ lit "**http_status=500" ++ [LF]) 1500000%Z 500%Z
                      _ _ _ _ _)); try discriminate.
    + do 3 eexists. split; [vm_compute; reflexivity|].
      split; [vm_compute; reflexivity|]. split; [reflexivity|].
      vm_compute. reflexivity.
    + exists ([LF] ++ lit "**http_status=500" ++ [LF]).
      split; [|split; reflexivity].
      eexists. eexists. split; [vm_compute; reflexivity|]. reflexivity.
Defined.

(** C7, as stated, fails for a download whose index fetch is answered with
    404: the run ends with the fixed message about the index file, which
    tells no status code, no elapsed time and no output. *)
Lemma index_not_found_counterexample :
  exits_with (main world_download_404) world_download_404 msg_index_not_found
  /\ ~ transport_failure_reported world_download_404.
Proof.
  split.
  - split; [vm_compute; reflexivity|].
    eexists. split; [vm_compute; reflexivity | reflexivity].
  - intros (m & (_ & l & L & E) & R).
    vm_compute in L. subst l. vm_compute in E. injection E as <-.
    vm_compute in R. discriminate.
Qed.

(** ** A file with the name of the index file *)

Lemma split_on_app_sep sep a b :
  split_on sep (a ++ sep :: b) = split_on sep a ++ split_on sep b.
Proof.
  induction a as [|c r IH]; simpl.
  - now rewrite N.eqb_refl.
  - destruct (c =? sep); rewrite IH.
    + reflexivity.
    + pose proof (split_on_not_nil sep r).
      destruct (split_on sep r); [congruence | reflexivity].
Qed.

Lemma dropwhile_head p l c r : dropwhile p l = c :: r -> p c = false.
Proof.
  induction l as [|x l IH]; simpl; [discriminate|].
  destruct (p x) eqn:E; auto. intros [= <- _]. exact E.
Qed.

(** A trimmed string does not end with a trimmed character. *)
Lemma strip_by_last p s s' c : strip_by p s = s' ++ [c] -> p c = false.
Proof.
  unfold strip_by, rstrip. intros H.
  apply (f_equal (@rev _)) in H. rewrite rev_involutive, rev_app_distr in H.
  simpl in H. now apply dropwhile_head in H.
Qed.

(** The base name of a path is empty only for the empty path and for a
    path that ends with a slash. *)
Lemma basename_empty s : basename s = [] -> s = [] \/ exists s', s = s' ++ [SLASH].
Proof.
  unfold basename. intros H.
  pose proof (split_on_not_nil SLASH s) as NN.
  destruct (@exists_last _ _ NN) as (l & a & E).
  rewrite E, last_last in H. subst a.
  pose proof (join_split SLASH s) as J. rewrite E in J.
  destruct l as [|x l].
  - left. now rewrite <- J.
  - right. rewrite join_snoc in J by discriminate.
    exists (join [SLASH] (x :: l)). rewrite <- J. now rewrite app_nil_r.
Qed.

(** The base name is the end of the path, and holds no slash. *)
Lemma basename_suffix s : exists s', s = s' ++ basename s.
Proof.
  unfold basename.
  pose proof (split_on_not_nil SLASH s) as NN.
  destruct (@exists_last _ _ NN) as (l & a & E).
  rewrite E, last_last.
  pose proof (join_split SLASH s) as J. rewrite E in J.
  destruct l as [|x l].
  - exists []. now rewrite <- J.
  - rewrite join_snoc in J by discriminate.
    exists (join [SLASH] (x :: l) ++ [SLASH]). now rewrite <- app_assoc.
Qed.

Lemma basename_no_slash s : contains SLASH (basename s) = false.
Proof.
  unfold basename.
  pose proof (split_on_not_nil SLASH s) as NN.
  destruct (@exists_last _ _ NN) as (l & a & E).
  rewrite E, last_last.
  pose proof (split_on_parts_no_sep SLASH s) as F. rewrite E in F.
  apply Forall_app in F. destruct F as [_ F]. now inversion F.
Qed.

(** The name [<artifactId>.txt] of an artifact without a dot splits into
    the artifact and [txt]. *)
Lemma index_name_parts a :
  contains DOT a = false ->
  split_on DOT (a ++ lit ".txt") = [a; lit "txt"].
Proof.
  intros H. change (lit ".txt") with (DOT :: lit "txt").
  rewrite split_on_app_sep, (@split_on_no_sep _ _ H). reflexivity.
Qed.

(** One more component after a path that names a directory. *)
Lemma resolve_child root cwd d q n :
  resolve root cwd d = Some q -> is_dir (lookup root q) = true ->
  contains SLASH n = false -> n <> [] ->
  is_dot n = false -> is_dotdot n = false ->
  resolve root cwd (d ++ lit "/" ++ n) = Some (q ++ [n]).
Proof.
  intros R D Hs Hn H1 H2. unfold resolve in *.
  destruct d as [|c d]; [discriminate|].
  change ((c :: d) ++ lit "/" ++ n) with (c :: (d ++ SLASH :: n)).
  cbv beta iota.
  change (c :: (d ++ SLASH :: n)) with ((c :: d) ++ SLASH :: n).
  rewrite split_on_app_sep, fold_left_app, R, (@split_on_no_sep _ _ Hs).
  cbn [fold_left step]. rewrite D, H1, H2.
  destruct n; [congruence | reflexivity].
Qed.

Lemma lookup_child es name :
  lookup (Dir es) [name] = assoc name es.
Proof.
  change (lookup (Dir es) [name])
    with (match assoc name es with
          | Some ch => lookup ch []
          | None => None
          end).
  destruct (assoc name es); reflexivity.
Qed.

Lemma resolve_not_empty root cwd p q : resolve root cwd p = Some q -> p <> [].
Proof. intros H ->. discriminate H. Qed.

Lemma is_sep_slash : is_sep SLASH = true.
Proof. reflexivity. Qed.

(** The artifact of an upload whose trimmed path names something, without a
    dot: its name is not empty and holds no dot. *)
Lemma artifact_name_ok root cwd args q :
  resolve root cwd (upload_directory args) = Some q ->
  contains DOT (upload_directory args) = false ->
  let a := basename (upload_directory args) in
  a <> [] /\ contains DOT a = false
  /\ split_on DOT (index_name args) = [a; lit "txt"]
  /\ startswith DOT (index_name args) = false
  /\ contains DOT (index_name args) = true
  /\ contains SLASH (index_name args) = false
  /\ index_name args <> []
  /\ is_dot (index_name args) = false /\ is_dotdot (index_name args) = false.
Proof.
  intros R Hd a.
  assert (Ha : a <> []).
  { intros E. destruct (@basename_empty _ E) as [E' | (s' & E')].
    - apply (@resolve_not_empty _ _ _ _ R). exact E'.
    - unfold upload_directory in E'. apply strip_by_last in E'. discriminate E'. }
  assert (Hda : contains DOT a = false).
  { destruct (basename_suffix (upload_directory args)) as (s' & E).
    rewrite E, contains_app in Hd. now apply orb_false_iff in Hd. }
  assert (Hlen : (5 <= List.length (index_name args))%nat).
  { unfold index_name. fold a. rewrite length_app.
    destruct a; [congruence | simpl; lia]. }
  split; [exact Ha|]. split; [exact Hda|].
  split; [now apply index_name_parts|].
  split.
  { unfold index_name. fold a. destruct a as [|x a']; [congruence|].
    simpl. unfold contains in Hda. simpl in Hda.
    apply orb_false_iff in Hda. destruct Hda as [Hx _].
    now rewrite N.eqb_sym. }
  split; [unfold index_name; rewrite contains_app; apply orb_true_r|].
  split.
  { unfold index_name. rewrite contains_app, basename_no_slash. reflexivity. }
  split; [intros E; rewrite E in Hlen; simpl in Hlen; lia|].
  split; apply eqb_neq; intros E; rewrite E in Hlen; simpl in Hlen; lia.
Qed.

(** The loss of a file that has the name of the index file.  When the
    directory argument and its trimmed form name the same directory, a
    regular file [<artifactId>.txt] that the directory
    holds is listed by the scan as an eligible file, with the classifier
    [<artifactId>] and the extension [txt]; the index path names this file,
    the index is written over it, and when [do_upload] ends, however it ends,
    the file has been removed and the directory lists it no more. *)
Theorem index_file_clobbered w c0 st p w1 :
  same_directory w ->
  dir_has_file (w_root w) (w_cwd w) (a_directory (w_args w))
               (index_name (w_args w)) c0 ->
  upload_reaches_transfer w st p w1 ->
  let D := a_directory (w_args w) in
  let name := index_name (w_args w) in
  let entry := dir_entry D (name, File c0) in
  (exists es, stat (w_root w) (w_cwd w) D = Some (Dir es)
              /\ In entry (map (dir_entry D) es))
  /\ eligible entry = true
  /\ classifier_of name = basename (upload_directory (w_args w))
  /\ extension_of name = lit "txt"
  /\ p = index_path (w_args w)
  /\ stat (w_root w) (w_cwd w) p = Some (File c0)
  /\ (exists o w' t2,
         do_upload w = (o, w')
         /\ w_trace w' = w_trace w
                         ++ EvWrite p (List.concat (idxEntries st))
                            :: t2 ++ [EvRemove p])
  /\ dir_lacks (w_root (snd (do_upload w))) (w_cwd (snd (do_upload w))) D name.
Proof.
  intros Hsame (es & Hstat & Hassoc) (vd & wv & ws & Hv & Hs & Hp & Hw) D name entry.
  (* the checks *)
  destruct (upload_validate_spec w) as (o1 & wv' & l1 & H1 & S1 & _ & O1).
  rewrite Hv in H1. injection H1 as <- <-.
  destruct O1 as (Evd & _ & Hfound & Hdot).
  subst vd. cbn [fst snd] in *.
  destruct S1 as ((R1 & C1 & _) & A1 & _ & T1).
  (* the scan *)
  match type of Hs with
  | upload_scan ?d wv = _ =>
      destruct (upload_scan_spec d wv)
        as [(e & H2 & _) | (es' & ws' & l2 & Hs' & H2 & S2 & _)];
      rewrite Hs in H2; [discriminate|]
  end.
  injection H2 as Est <-.
  destruct S2 as ((R2 & C2 & _) & A2 & _ & T2).
  rewrite A1, R1, C1 in Hs'. fold D in Hs', Hstat.
  rewrite Hstat in Hs'. injection Hs' as <-.
  (* the directory and the name *)
  unfold stat in Hstat.
  destruct (resolve (w_root w) (w_cwd w) D) as [q|] eqn:RD; [|discriminate].
  unfold same_directory in Hsame. fold D in Hsame. rewrite RD in Hsame.
  symmetry in Hsame.
  destruct (@artifact_name_ok _ _ _ _ Hsame Hdot)
    as (Ha & Hda & Hparts & Hstart & Hcd & Hsl & Hne & Hd1 & Hd2).
  fold name in Hparts, Hstart, Hcd, Hsl, Hne, Hd1, Hd2.
  assert (Dq : is_dir (lookup (w_root w) q) = true) by now rewrite Hstat.
  assert (Epath : p = index_path (w_args w)).
  { rewrite Hp, Est, A1. fold D.
    rewrite idx_file_path_scan by reflexivity. reflexivity. }
  assert (Rp : resolve (w_root w) (w_cwd w) p = Some (q ++ [name])).
  { rewrite Epath. unfold index_path.
    apply (@resolve_child _ _ _ q (index_name (w_args w))); assumption. }
  assert (Sp : stat (w_root w) (w_cwd w) p = Some (File c0)).
  { unfold stat. rewrite Rp, lookup_app, Hstat, lookup_child. exact Hassoc. }
  (* the transfer *)
  assert (Hup : do_upload w = upload_transfer (upload_directory (w_args w)) st ws)
    by (apply (@do_upload_after w _ _ _ _ Hv Hs)).
  destruct (upload_transfer_spec (upload_directory (w_args w)) st ws)
    as [(e & He & _) | (o & w' & t & l & H3 & T3 & _ & S3 & C3 & DD & _)];
    cbv zeta in *; rewrite <- Hp in *; [congruence|].
  rewrite <- Hup in H3.
  split; [exists es; split; [unfold stat; now rewrite RD|];
          apply in_map; now apply assoc_In|].
  split; [unfold eligible, entry; cbn [dir_entry de_name de_is_file fst snd is_file];
          now rewrite Hstart, Hcd|].
  split; [unfold classifier_of; rewrite Hparts; reflexivity|].
  split; [unfold extension_of; rewrite Hparts; reflexivity|].
  split; [exact Epath|]. split; [exact Sp|].
  split; [exists o, w', t; split; [exact H3|]; rewrite T3; congruence|].
  (* the directory at the end *)
  rewrite H3. cbn [snd].
  assert (DD' : forall r, is_dir (lookup (w_root w') r) = is_dir (lookup (w_root w) r))
    by (intros r; rewrite DD; congruence).
  assert (Cw : w_cwd w' = w_cwd w) by congruence.
  unfold dir_lacks, stat in *. rewrite Cw in *.
  rewrite (@resolve_same_dirs _ _ (w_cwd w) D DD'), RD.
  rewrite (@resolve_same_dirs _ _ (w_cwd w) p DD'), Rp, lookup_app in S3.
  specialize (DD' q). rewrite Dq in DD'.
  destruct (lookup (w_root w') q) as [[cf|es'']|]; try discriminate.
  exists es''. split; [reflexivity|].
  now rewrite lookup_child in S3.
Qed.

Lemma index_file_clobbered_witness :
  stat (w_root world_clobber) (w_cwd world_clobber) (lit "report/report.txt")
  = Some (File (lit "precious"))
  /\ fst (do_upload world_clobber) = Ret tt
  /\ dir_lacks (w_root (snd (do_upload world_clobber)))
               (w_cwd (snd (do_upload world_clobber)))
               (lit "report") (lit "report.txt").
Proof.
  assert (R : exists st p w1, upload_reaches_transfer world_clobber st p w1).
  { do 6 eexists. split; [vm_compute; reflexivity|].
    split; [vm_compute; reflexivity|]. split; [reflexivity|].
    vm_compute. reflexivity. }
  destruct R as (st & p & w1 & R).
  assert (S : same_directory world_clobber) by reflexivity.
  assert (F : dir_has_file (w_root world_clobber) (w_cwd world_clobber)
                (a_directory (w_args world_clobber))
                (index_name (w_args world_clobber)) (lit "precious")).
  { eexists. split; [vm_compute; reflexivity | reflexivity]. }
  pose proof (@index_file_clobbered world_clobber (lit "precious") st p w1 S F R)
    as (_ & _ & _ & _ & _ & _ & _ & L).
  split; [reflexivity|]. split; [vm_compute; reflexivity | exact L].
Defined.

(** C10: for a directory given by an absolute path the code scans one
    directory and keeps its index file in another.  [do_upload] checks the
    directory with the separators at its ends taken off, and builds the path
    of the index file from it, but scans the directory as it was given.  For
    [/srv/report], run in [/home/u] where a directory [srv/report] is there
    too, the file [/srv/report/report.txt] is listed as an asset, with the
    classifier [report] and the extension [txt]; the index file is written,
    and removed, at [srv/report/report.txt] under the current directory; the
    upload ends well; and [/srv/report/report.txt] holds at the end what it
    held before: it is neither written over nor removed, as the claim has
    it. *)
Theorem index_file_misplaced :
  stat (w_root world_absolute) (w_cwd world_absolute) (lit "/srv/report/report.txt")
  = Some (File (lit "precious"))
  /\ fst (do_upload world_absolute) = Ret tt
  /\ w_trace (snd (do_upload world_absolute))
     = [EvWrite (lit "srv/report/report.txt")
                (lit "report-2.1-report.txt" ++ [LF]
                 ++ lit "report-2.1-a.bin" ++ [LF]);
        EvRun (curl_cmd (Some (lit "alice:secret")) upload_url_full
                 (Some [(lit "maven2.groupId", lit "fr.gouv.minint.rrf.ops");
                        (lit "maven2.version", lit "2.1");
                        (lit "maven2.artifactId", lit "report");
                        (lit "maven2.asset2", lit "@/srv/report/report.txt");
                        (lit "maven2.asset2.classifier", lit "report");
                        (lit "maven2.asset2.extension", lit "txt");
                        (lit "maven2.asset3", lit "@/srv/report/a.bin");
                        (lit "maven2.asset3.classifier", lit "a");
                        (lit "maven2.asset3.extension", lit "bin");
                        (lit "maven2.asset1", lit "@srv/report/report.txt");
                        (lit "maven2.asset1.extension", lit "txt")])
                 None);
        EvRemove (lit "srv/report/report.txt")]
  /\ stat (w_root (snd (do_upload world_absolute)))
          (w_cwd (snd (do_upload world_absolute))) (lit "/srv/report/report.txt")
     = Some (File (lit "precious"))
  /\ ~ index_file_lost world_absolute.
Proof.
  split; [vm_compute; reflexivity|]. split; [vm_compute; reflexivity|].
  split; [vm_compute; reflexivity|]. split; [vm_compute; reflexivity|].
  intros H.
  assert (R : exists st p w1, upload_reaches_transfer world_absolute st p w1).
  { do 6 eexists. split; [vm_compute; reflexivity|].
    split; [vm_compute; reflexivity|]. split; [reflexivity|].
    vm_compute. reflexivity. }
  destruct R as (st & p & w1 & R).
  assert (F : dir_has_file (w_root world_absolute) (w_cwd world_absolute)
                (a_directory (w_args world_absolute))
                (index_name (w_args world_absolute)) (lit "precious")).
  { eexists. split; [vm_compute; reflexivity | reflexivity]. }
  destruct (H _ _ _ _ F R) as (es & Hs & Ha).
  vm_compute in Hs. injection Hs as <-. vm_compute in Ha. discriminate.
Qed.

(* ================================================================== *)
(** * Further properties of the code *)
(* ================================================================== *)

(** ** Stripping *)

Lemma dropwhile_incl p s c : In c (dropwhile p s) -> In c s.
Proof.
  induction s as [|x s IH]; simpl; auto.
  destruct (p x); simpl; auto.
Qed.

Lemma dropwhile_suffix p s : exists pre, s = pre ++ dropwhile p s.
Proof.
  induction s as [|x s (pre & IH)]; simpl.
  - now exists [].
  - destruct (p x).
    + exists (x :: pre). simpl. now f_equal.
    + now exists [].
Qed.

Lemma dropwhile_all p s : forallb p s = true -> dropwhile p s = [].
Proof.
  induction s as [|x s IH]; simpl; auto.
  rewrite andb_true_iff. intros [-> H]. auto.
Qed.

Lemma dropwhile_none p s :
  (forall c, In c s -> p c = false) -> dropwhile p s = s.
Proof.
  intros H. apply dropwhile_id. intros c r ->. apply H. now left.
Qed.

Lemma strip_by_incl p s c : In c (strip_by p s) -> In c s.
Proof.
  unfold strip_by, rstrip, lstrip. intros H.
  apply in_rev, dropwhile_incl in H. apply in_rev in H.
  now apply dropwhile_incl in H.
Qed.

Lemma strip_by_all p s : forallb p s = true -> strip_by p s = [].
Proof.
  intros H. unfold strip_by, rstrip, lstrip.
  rewrite (dropwhile_all p s H). reflexivity.
Qed.

Lemma strip_by_none p s :
  (forall c, In c s -> p c = false) -> strip_by p s = s.
Proof.
  intros H. unfold strip_by, rstrip, lstrip.
  rewrite (dropwhile_none p s H), dropwhile_none, rev_involutive; auto.
  intros c Hc. apply H. now apply in_rev.
Qed.

(** Stripping twice is stripping once. *)
Lemma strip_by_idem p s : strip_by p (strip_by p s) = strip_by p s.
Proof.
  unfold strip_by, rstrip, lstrip.
  set (t := dropwhile p s).
  set (u := dropwhile p (rev t)).
  assert (Hu : dropwhile p u = u).
  { apply dropwhile_id. intros c r E. apply (@dropwhile_head p (rev t) c r).
    exact E. }
  assert (Hr : dropwhile p (rev u) = rev u).
  { apply dropwhile_id. intros c r E.
    destruct (dropwhile_suffix p (rev t)) as (pre & Hpre). fold u in Hpre.
    apply (f_equal (@rev _)) in Hpre.
    rewrite rev_involutive, rev_app_distr, E in Hpre.
    apply (@dropwhile_head p s c (r ++ rev pre)). exact Hpre. }
  now rewrite Hr, rev_involutive, Hu.
Qed.

(** ** Lines *)

Lemma str_ind2 (P : str -> Prop) :
  P [] -> (forall c, P [c]) ->
  (forall c c' r, P r -> P (c' :: r) -> P (c :: c' :: r)) ->
  forall s, P s.
Proof.
  intros H0 H1 H2 s.
  enough (G : P s /\ forall c, P (c :: s)) by apply G.
  induction s as [|x s [IH1 IH2]]; split; auto.
Qed.

Lemma splitlines_cons c r :
  splitlines (c :: r)
  = if is_linebreak c then
      if c =? CR then
        match r with
        | c' :: r' => if c' =? LF then [] :: splitlines r' else [] :: splitlines r
        | [] => [[]]
        end
      else [] :: splitlines r
    else
      match splitlines r with
      | [] => [[c]]
      | l :: ls => (c :: l) :: ls
      end.
Proof. reflexivity. Qed.

Lemma splitlines_cons_not_nil c r : splitlines (c :: r) <> [].
Proof.
  rewrite splitlines_cons.
  destruct (is_linebreak c); [destruct (c =? CR); [destruct r as [|c' r']|]|].
  - discriminate.
  - destruct (c' =? LF); discriminate.
  - discriminate.
  - destruct (splitlines r); discriminate.
Qed.

(** A line holds characters of the text only, and no line boundary. *)
Lemma splitlines_chars s :
  Forall (fun l => forall c, In c l -> In c s /\ is_linebreak c = false)
         (splitlines s).
Proof.
  assert (W : forall t u : str,
             (forall x, In x t -> In x u) ->
             Forall (fun l => forall c, In c l -> In c t /\ is_linebreak c = false)
                    (splitlines t) ->
             Forall (fun l => forall c, In c l -> In c u /\ is_linebreak c = false)
                    (splitlines t)).
  { intros t u I. apply Forall_impl. intros l H x Hx.
    destruct (H x Hx). auto. }
  assert (E0 : forall u : str, forall c : char, In c [] -> In c u /\ is_linebreak c = false)
    by (intros u c []).
  revert s. apply str_ind2; [ | intros c | intros c c' r IHr IHc].
  - constructor.
  - rewrite splitlines_cons.
    destruct (is_linebreak c) eqn:E; [destruct (c =? CR)|]; simpl.
    + constructor; [intros x [] | constructor].
    + constructor; [intros x [] | constructor].
    + constructor; [|constructor].
      intros x [<- | []]. split; [now left | exact E].
  - rewrite splitlines_cons.
    destruct (is_linebreak c) eqn:E.
    + destruct (c =? CR).
      * destruct (c' =? LF); constructor; try (intros x []; fail).
        -- apply (W r); [|exact IHr]. intros x Hx. right. now right.
        -- apply (W (c' :: r)); [|exact IHc]. intros x Hx. now right.
      * constructor; try (intros x []; fail).
        apply (W (c' :: r)); [|exact IHc]. intros x Hx. now right.
    + apply (W (c' :: r) (c :: c' :: r)) in IHc; [|intros x Hx; now right].
      destruct (splitlines (c' :: r)) as [|l ls].
      * constructor; auto. intros x [<- | []]. split; [now left | exact E].
      * inversion_clear IHc. constructor; auto.
        intros x [<- | Hx]; [split; [now left | exact E] | auto].
Qed.

(** A line feed between two texts ends the last line of the first one, or
    opens an empty line. *)
Lemma splitlines_app_LF a b :
  exists e, (e = [] \/ e = [[]])
            /\ splitlines (a ++ LF :: b) = splitlines a ++ e ++ splitlines b.
Proof.
  revert a. apply str_ind2; [ | intros c | intros c c' r IHr IHc].
  - exists [[]]. split; [now right | reflexivity].
  - change ([c] ++ LF :: b) with (c :: LF :: b).
    rewrite !splitlines_cons.
    destruct (is_linebreak c) eqn:E.
    + destruct (c =? CR) eqn:E2.
      * exists []. split; [now left | reflexivity].
      * exists [[]]. split; [now right | reflexivity].
    + exists []. split; [now left | reflexivity].
  - change ((c :: c' :: r) ++ LF :: b) with (c :: (c' :: r) ++ LF :: b).
    rewrite (splitlines_cons c ((c' :: r) ++ LF :: b)).
    rewrite (splitlines_cons c (c' :: r)).
    destruct IHr as (e1 & He1 & IHr). destruct IHc as (e2 & He2 & IHc).
    destruct (is_linebreak c) eqn:E.
    + destruct (c =? CR) eqn:E2.
      * change ((c' :: r) ++ LF :: b) with (c' :: r ++ LF :: b) in *.
        cbv iota. destruct (c' =? LF).
        -- exists e1. split; [exact He1|]. now rewrite IHr.
        -- exists e2. split; [exact He2|]. now rewrite IHc.
      * exists e2. split; [exact He2|]. now rewrite IHc.
    + exists e2. split; [exact He2|]. rewrite IHc.
      pose proof (splitlines_cons_not_nil c' r) as NN.
      destruct (splitlines (c' :: r)) as [|l ls]; [congruence|]. reflexivity.
Qed.

Lemma resp_lines_app_LF a b :
  resp_lines (a ++ LF :: b) = resp_lines a ++ resp_lines b.
Proof.
  rewrite !resp_lines_filter.
  destruct (splitlines_app_LF a b) as (e & He & ->).
  rewrite !map_app, !filter_app.
  destruct He as [-> | ->]; reflexivity.
Qed.

(** The lines of a response are stripped, not empty, and hold no line
    boundary. *)
Lemma resp_lines_clean text :
  Forall (fun l => l <> [] /\ strip l = l
                   /\ forall c, In c l -> In c text /\ is_linebreak c = false)
         (resp_lines text).
Proof.
  rewrite resp_lines_filter.
  pose proof (splitlines_chars text) as H.
  induction H as [|l ls Hl _ IH]; simpl; [constructor|].
  destruct (truthy (strip l)) eqn:E; [|exact IH].
  constructor; [|exact IH].
  split; [intros X; rewrite X in E; discriminate|].
  split; [apply strip_by_idem|].
  intros c Hc. apply Hl. now apply strip_by_incl in Hc.
Qed.

(** A text of white space only has no response line. *)
Lemma resp_lines_blank text : forallb is_space text = true -> resp_lines text = [].
Proof.
  intros H. rewrite resp_lines_filter.
  pose proof (splitlines_chars text) as F.
  induction F as [|l ls Hl _ IH]; simpl; [reflexivity|].
  unfold strip at 1 2. rewrite strip_by_all; [exact IH|].
  apply forallb_forall. intros c Hc.
  rewrite forallb_forall in H. apply H. now apply Hl.
Qed.

(** ** Numerals *)

Lemma lit_String a s : lit (String a s) = N_of_ascii a :: lit s.
Proof. reflexivity. Qed.

Lemma int_digits_step c acc r :
  48 <= c <= 57 ->
  int_digits acc false (c :: r)
  = int_digits (10 * acc + Z.of_N (c - 48))%Z false r.
Proof.
  intros [H1 H2]. cbn [int_digits]. unfold digit_val.
  assert (E1 : (c =? 95) = false) by (apply N.eqb_neq; lia).
  assert (E2 : (48 <=? c) = true) by (apply N.leb_le; lia).
  assert (E3 : (c <=? 57) = true) by (apply N.leb_le; lia).
  now rewrite E1, E2, E3.
Qed.

Ltac digit_step :=
  rewrite lit_String;
  match goal with
  | |- context [N_of_ascii ?a] =>
      let v := eval vm_compute in (N_of_ascii a) in
      change (N_of_ascii a) with v
  end;
  rewrite int_digits_step by lia.

Lemma int_digits_uint_acc d : forall p,
  int_digits (Z.pos p) false (lit (NilEmpty.string_of_uint d))
  = Some (Z.pos (Pos.of_uint_acc d p)).
Proof.
  induction d; intros p; cbn [NilEmpty.string_of_uint Pos.of_uint_acc];
    [reflexivity|..];
    (digit_step;
     match goal with
     | |- int_digits ?a false _ = Some (Z.pos (Pos.of_uint_acc _ ?q)) =>
         replace a with (Z.pos q) by lia
     end; apply IHd).
Qed.

Lemma int_digits_uint d :
  int_digits 0%Z false (lit (NilEmpty.string_of_uint d))
  = Some (Z.of_N (Pos.of_uint d)).
Proof.
  induction d; cbn [NilEmpty.string_of_uint Pos.of_uint];
    [reflexivity | digit_step; exact IHd |..];
    (digit_step;
     match goal with
     | |- int_digits ?a false _ = Some (Z.of_N (N.pos (Pos.of_uint_acc _ ?q))) =>
         replace a with (Z.pos q) by lia
     end; apply int_digits_uint_acc).
Qed.

(** The characters of a numeral: digits, after a minus sign at most. *)
Lemma uint_chars d c :
  In c (lit (NilEmpty.string_of_uint d)) -> 48 <= c <= 57.
Proof.
  induction d; cbn [NilEmpty.string_of_uint]; [intros [] |..];
    rewrite lit_String; (intros [<- | H]; [vm_compute; split; discriminate | auto]).
Qed.

Lemma of_Z_chars z c : In c (of_Z z) -> c = 45 \/ 48 <= c <= 57.
Proof.
  unfold of_Z, NilZero.string_of_int, NilZero.string_of_uint.
  destruct (Z.to_int z) as [d|d].
  - destruct d; try (intros H; right; revert H; apply uint_chars).
    intros [<- | []]. right. cbn. lia.
  - rewrite lit_String. intros [<- | H]; [now left|]. right.
    destruct d; try (revert H; apply uint_chars).
    destruct H as [<- | []]. cbn. lia.
Qed.

Lemma of_Z_no_space z : strip (of_Z z) = of_Z z.
Proof.
  apply strip_by_none. intros c Hc.
  apply of_Z_chars in Hc. unfold is_space.
  destruct Hc as [-> | Hc]; [reflexivity|].
  repeat (apply orb_false_iff; split);
    rewrite ?andb_false_iff, ?N.leb_gt, ?N.eqb_neq; lia.
Qed.

Lemma uint_head d :
  d <> Decimal.Nil ->
  NilZero.string_of_uint d = NilEmpty.string_of_uint d
  /\ exists c r, lit (NilEmpty.string_of_uint d) = c :: r /\ 48 <= c <= 57.
Proof.
  intros H. split; [destruct d; congruence || reflexivity|].
  destruct (lit (NilEmpty.string_of_uint d)) as [|c r] eqn:E.
  - destruct d; [congruence|..]; cbn [NilEmpty.string_of_uint] in E;
      rewrite lit_String in E; discriminate.
  - exists c, r. split; [reflexivity|].
    apply (@uint_chars d). rewrite E. now left.
Qed.

Lemma to_int_digit_head c r :
  48 <= c <= 57 -> strip (c :: r) = c :: r ->
  to_int (c :: r) = option_map (Z.mul 1) (int_digits 0%Z false (c :: r)).
Proof.
  intros H S. unfold to_int. rewrite S.
  assert (D : c = 48 \/ c = 49 \/ c = 50 \/ c = 51 \/ c = 52 \/ c = 53
              \/ c = 54 \/ c = 55 \/ c = 56 \/ c = 57) by lia.
  repeat (destruct D as [-> | D]; [reflexivity|]). subst c. reflexivity.
Qed.

Lemma to_int_minus_head c r :
  48 <= c <= 57 -> strip (45 :: c :: r) = 45 :: c :: r ->
  to_int (45 :: c :: r) = option_map (Z.mul (-1)) (int_digits 0%Z false (c :: r)).
Proof.
  intros H S. unfold to_int. rewrite S.
  assert (D : c = 48 \/ c = 49 \/ c = 50 \/ c = 51 \/ c = 52 \/ c = 53
              \/ c = 54 \/ c = 55 \/ c = 56 \/ c = 57) by lia.
  repeat (destruct D as [-> | D]; [reflexivity|]). subst c. reflexivity.
Qed.

(** [int(str(z))] is [z]. *)
Lemma to_int_of_Z z : to_int (of_Z z) = Some z.
Proof.
  pose proof (of_Z_no_space z) as S.
  pose proof (DecimalZ.of_to z) as E.
  destruct (to_int_not_nil z) as [N1 N2].
  unfold of_Z, NilZero.string_of_int in *.
  destruct (Z.to_int z) as [d|d]; unfold Z.of_int, Z.of_uint in E;
    cbv beta iota in S |- *.
  - assert (Nd : d <> Decimal.Nil) by congruence.
    destruct (uint_head Nd) as (U & c & r & Hd & Hc).
    rewrite U in *. pose proof (int_digits_uint d) as I.
    rewrite Hd in *.
    transitivity (option_map (Z.mul 1) (Some (Z.of_N (Pos.of_uint d)))).
    { rewrite <- I. exact (to_int_digit_head Hc S). }
    cbn [option_map]. f_equal. lia.
  - assert (Nd : d <> Decimal.Nil) by congruence.
    destruct (uint_head Nd) as (U & c & r & Hd & Hc).
    rewrite U in *. pose proof (int_digits_uint d) as I.
    rewrite lit_String in *. change (N_of_ascii "-") with 45 in *.
    rewrite Hd in *.
    transitivity (option_map (Z.mul (-1)) (Some (Z.of_N (Pos.of_uint d)))).
    { rewrite <- I. exact (to_int_minus_head Hc S). }
    cbn [option_map]. f_equal. lia.
Qed.

(** ** The status line of an output *)

Lemma status_line_chars code c :
  In c (status_line code) -> is_space c = false /\ is_linebreak c = false.
Proof.
  unfold status_line. intros H. apply in_app_or in H.
  destruct H as [H | H].
  - unfold lit in H. cbn in H.
    repeat (destruct H as [<- | H]; [split; reflexivity|]). destruct H.
  - apply of_Z_chars in H. unfold is_space, is_linebreak.
    destruct H as [-> | H]; [split; reflexivity|].
    split; repeat (apply orb_false_iff; split);
      rewrite ?andb_false_iff, ?N.leb_gt, ?N.eqb_neq; lia.
Qed.

Lemma status_line_lines code : resp_lines (status_line code ++ [LF]) = [status_line code].
Proof.
  rewrite resp_lines_filter, splitlines_last.
  - cbn [map filter]. unfold strip.
    rewrite strip_by_none by (intros c Hc; now apply status_line_chars in Hc).
    reflexivity.
  - apply forallb_forall. intros c Hc. apply status_line_chars in Hc.
    destruct Hc as [_ ->]. reflexivity.
Qed.

Lemma status_line_fields code :
  split_on 61 (status_line code) = [lit "**http_status"; of_Z code].
Proof.
  unfold status_line.
  change (lit "**http_status=") with (lit "**http_status" ++ [61]).
  rewrite <- app_assoc. change ([61] ++ of_Z code) with (61 :: of_Z code).
  rewrite split_on_app_sep, !split_on_no_sep; [reflexivity | | reflexivity].
  apply contains_false_iff, Forall_forall. intros c Hc ->.
  apply of_Z_chars in Hc. destruct Hc; [discriminate | lia].
Qed.

(** The parser and the write-out format agree: from what the transfer
    program prints, the status is read back, and the lines before the status
    line are the stripped lines of the body that are not empty. *)
Lemma write_out_parsed body code :
  parse_status (resp_lines (curl_output body code)) = Ret code
  /\ removelast (resp_lines (curl_output body code)) = resp_lines body.
Proof.
  assert (E : resp_lines (curl_output body code)
              = resp_lines body ++ [status_line code]).
  { unfold curl_output.
    change (body ++ [LF] ++ lit "**http_status=" ++ of_Z code ++ [LF])
      with (body ++ LF :: lit "**http_status=" ++ of_Z code ++ [LF]).
    rewrite resp_lines_app_LF. f_equal.
    rewrite app_assoc. apply status_line_lines. }
  rewrite E. split.
  - unfold parse_status. rewrite rev_app_distr. cbn [rev app].
    rewrite status_line_fields, to_int_of_Z. reflexivity.
  - apply removelast_last.
Qed.

(** A text without [=] has no status line that can be read. *)
Lemma parse_status_no_field text :
  contains 61 text = false -> parse_status (resp_lines text) = Raise IndexError.
Proof.
  intros H. unfold parse_status.
  destruct (rev (resp_lines text)) as [|x xs] eqn:E; [reflexivity|].
  assert (Hx : In x (resp_lines text)) by (apply in_rev; rewrite E; now left).
  pose proof (resp_lines_clean text) as F. rewrite Forall_forall in F.
  destruct (F x Hx) as (_ & _ & Hc).
  rewrite split_on_no_sep; [reflexivity|].
  apply contains_false_iff, Forall_forall. intros c Hi ->.
  apply Hc in Hi. destruct Hi as [Hi _].
  apply contains_false_iff in H. rewrite Forall_forall in H.
  now apply (H 61 Hi).
Qed.

(** ** What the Transport Invoker returns *)

(** A call that returns was answered: the process ended with the return
    code 0, and the lines and the status are those of its output. *)
Lemma run_curl_cmd_ret url data outdir w lines s e w' :
  run_curl_cmd url data outdir w = (Ret (lines, s, e), w') ->
  exists text,
    answered w url data outdir text e s
    /\ lines = removelast (resp_lines text).
Proof.
  intros H.
  destruct (get_auth w) as [[auth|c|x] wa] eqn:Ha.
  2,3: unfold run_curl_cmd in H; unfold bind at 1 in H; rewrite Ha in H;
       discriminate.
  destruct (w_curl wa (curl_cmd auth url data outdir) (w_root wa) (w_cwd wa))
    as [x|rc out d] eqn:Hc.
  - destruct (@run_curl_cmd_proc_error url data outdir w auth wa x Ha Hc)
      as (w1 & l & H1 & _).
    rewrite H in H1. discriminate.
  - destruct (@run_curl_cmd_completed url data outdir w auth wa rc out d Ha Hc)
      as (w1 & l & H1 & _).
    rewrite H in H1. unfold transfer_result in H1.
    destruct (rc =? 0)%Z eqn:Hrc; cbn [negb] in H1; [|discriminate].
    apply Z.eqb_eq in Hrc. subst rc.
    destruct (decode_utf8 out) as [text|] eqn:Hd; [|discriminate].
    destruct (parse_status (resp_lines text)) as [s'|c|x] eqn:Hp;
      try discriminate.
    destruct ((s' =? 401)%Z || (s' =? 403)%Z); [discriminate|].
    cbn [fst] in H1. injection H1 as -> -> -> _.
    exists text. split; [|reflexivity].
    exists out. split; [|split; assumption].
    exists auth, wa. split; assumption.
Qed.

Lemma Forall_removelast (A : Type) (P : A -> Prop) (l : list A) :
  Forall P l -> Forall P (removelast l).
Proof.
  intros H. apply Forall_forall. intros x Hx.
  rewrite Forall_forall in H. apply H.
  revert Hx. clear. induction l as [|a [|b l] IH]; cbn; auto.
  intros [<- | Hx]; [now left | right; now apply IH].
Qed.

(** X1: what the transfer program prints under the write-out format of the
    call is read back by the call: when the process ends with the return
    code 0 and its output is a body followed by the status line of a code
    other than 401 and 403, the call returns that code, the stripped lines of
    the body that are not empty, and the time the process took. *)
Theorem write_out_round_trip w url data outdir out d body code :
  completed_with w url data outdir 0 out d ->
  decode_utf8 out = Some (curl_output body code) ->
  code <> 401%Z -> code <> 403%Z ->
  exists w',
    run_curl_cmd url data outdir w = (Ret (resp_lines body, code, d), w').
Proof.
  intros Hc Hd H1 H2.
  destruct (write_out_parsed body code) as (Hp & Hl).
  assert (A : answered w url data outdir (curl_output body code) d code)
    by (exists out; auto).
  destruct (@answered_run _ _ _ _ _ _ _ A H1 H2) as (w' & l & H & _).
  rewrite Hl in H. eauto.
Qed.

Lemma write_out_round_trip_witness :
  exists w',
    run_curl_cmd (index_url (w_args world_download_ok)) None None world_download_ok
    = (Ret ([lit "report-2.1-summary.pdf"; lit "report-2.1-data.csv"], 200%Z,
            300000%Z), w').
Proof.
  apply (@write_out_round_trip world_download_ok
           (index_url (w_args world_download_ok)) None None
           (lit "report-2.1-summary.pdf" ++ [LF] ++ lit "report-2.1-data.csv"
            ++ [LF] ++ [LF] ++ lit "**http_status=200" ++ [LF])
           300000%Z
           (lit "report-2.1-summary.pdf" ++ [LF] ++ lit "report-2.1-data.csv"
            ++ [LF])
           200%Z).
  - exists (Some (lit "alice:secret")), world_download_ok.
    split; reflexivity.
  - vm_compute. reflexivity.
  - discriminate.
  - discriminate.
Defined.

(** X2: an output that cannot be read ends the call with an exception that
    nothing catches, and with no error message: [UnicodeDecodeError] for an
    output that is not UTF-8, [IndexError] for a text without [=], so for an
    empty output. *)
Theorem unreadable_output w url data outdir out d :
  completed_with w url data outdir 0 out d ->
  (decode_utf8 out = None ->
   exists w' l,
     run_curl_cmd url data outdir w = (Raise UnicodeDecodeError, w')
     /\ w_log w' = w_log w ++ l /\ errors l = [])
  /\ (forall text,
         decode_utf8 out = Some text -> contains 61 text = false ->
         exists w' l,
           run_curl_cmd url data outdir w = (Raise IndexError, w')
           /\ w_log w' = w_log w ++ l /\ errors l = []).
Proof.
  intros Hc.
  destruct (@completed_run _ _ _ _ _ _ _ Hc) as (w' & l & H & _ & L & E).
  unfold transfer_result in H, E. cbn [Z.eqb negb] in H, E.
  split.
  - intros Hd. rewrite Hd in H, E. eauto.
  - intros text Hd Hn. rewrite Hd, (parse_status_no_field _ Hn) in H, E. eauto.
Qed.

Lemma unreadable_output_witness :
  (exists w' l,
      run_curl_cmd (index_url (w_args world_binary)) None None world_binary
      = (Raise UnicodeDecodeError, w')
      /\ w_log w' = w_log world_binary ++ l /\ errors l = [])
  /\ (exists w' l,
         run_curl_cmd (index_url (w_args world_silent)) None None world_silent
         = (Raise IndexError, w')
         /\ w_log w' = w_log world_silent ++ l /\ errors l = []).
Proof.
  split.
  - refine (proj1 (@unreadable_output world_binary
                     (index_url (w_args world_binary)) None None
                     [255; 254] 1000%Z _) _).
    + exists (Some (lit "alice:secret")), world_binary. split; reflexivity.
    + reflexivity.
  - refine (proj2 (@unreadable_output world_silent
                     (index_url (w_args world_silent)) None None
                     [] 1000%Z _) [] _ _).
    + exists (Some (lit "alice:secret")), world_silent. split; reflexivity.
    + reflexivity.
    + reflexivity.
Defined.

(** X3: the lines that a call returns are never empty, have no white space
    at either end, and hold no line boundary; and the status it returns is
    neither 401 nor 403. *)
Theorem returned_lines_clean url data outdir w lines s e w' :
  run_curl_cmd url data outdir w = (Ret (lines, s, e), w') ->
  Forall (fun l => l <> [] /\ strip l = l
                   /\ forallb (fun c => negb (is_linebreak c)) l = true) lines
  /\ s <> 401%Z /\ s <> 403%Z.
Proof.
  intros H. split.
  - destruct (run_curl_cmd_ret _ _ _ _ H) as (text & _ & ->).
    apply Forall_removelast.
    pose proof (resp_lines_clean text) as F.
    revert F. apply Forall_impl. intros l (N & S & C).
    split; [exact N|]. split; [exact S|].
    apply forallb_forall. intros c Hc. apply C in Hc.
    destruct Hc as [_ ->]. reflexivity.
  - destruct (run_curl_cmd_spec url data outdir w)
      as (o & w1 & H1 & _ & l & t & _ & _ & O).
    rewrite H in H1. injection H1 as <- _.
    destruct O as (_ & _ & O). exact O.
Qed.

Lemma returned_lines_clean_witness :
  Forall (fun l => l <> [] /\ strip l = l
                   /\ forallb (fun c => negb (is_linebreak c)) l = true)
         [lit "report-2.1-summary.pdf"; lit "report-2.1-data.csv"]
  /\ 200%Z <> 401%Z /\ 200%Z <> 403%Z.
Proof.
  refine (@returned_lines_clean (index_url (w_args world_download_ok)) None None
            world_download_ok _ 200%Z 300000%Z
            (snd (run_curl_cmd (index_url (w_args world_download_ok)) None None
                               world_download_ok)) _).
  vm_compute. reflexivity.
Defined.

(** ** Credentials, again *)

(** X4: the credentials are found once: after a call of [get_auth] that
    returns, [args] holds what it found, and a further call returns the same
    credentials and changes nothing, without a prompt and without a look at
    the environment. *)
Theorem get_auth_cached w a w1 :
  get_auth w = (Ret a, w1) ->
  get_auth w1 = (Ret a, w1)
  /\ forall c environ tty,
       a = Some c ->
       fst (get_auth {| w_root := w_root w1; w_cwd := w_cwd w1;
                        w_environ := environ; w_args := w_args w1;
                        w_tty := tty; w_now := w_now w1; w_curl := w_curl w1;
                        w_level := w_level w1; w_log := w_log w1;
                        w_trace := w_trace w1 |})
       = Ret a.
Proof.
  unfold get_auth, get_auth_rec, bind, get_args, environ_get,
    getpass, get_world, set_args, ret, raise, die, log, sys_exit.
  cbn.
  destruct (a_login (w_args w)) as [login|] eqn:E1.
  - destruct (a_passwd (w_args w)) as [p|] eqn:E2; cbn.
    + intros [= <- <-]. rewrite ?E1, ?E2. split; reflexivity.
    + destruct (w_tty w) as [p|] eqn:E3; cbn; [|discriminate].
      intros [= <- <-]. cbn. rewrite ?E1. split; reflexivity.
  - destruct (assoc (lit "NEXUS_LOGIN") (w_environ w)) as [l|] eqn:E2; cbn.
    + destruct (assoc (lit "NEXUS_PASSWD") (w_environ w)) as [p|] eqn:E3; cbn.
      * intros [= <- <-]. cbn. split; reflexivity.
      * discriminate.
    + intros [= <- <-]. rewrite ?E1, ?E2. split; [reflexivity|].
      intros c environ tty [=].
Qed.

Lemma get_auth_cached_witness :
  get_auth (snd (get_auth world_env_credentials))
  = (Ret (Some (lit "alice:secret")), snd (get_auth world_env_credentials)).
Proof.
  refine (proj1 (@get_auth_cached world_env_credentials
                   (Some (lit "alice:secret"))
                   (snd (get_auth world_env_credentials)) _)).
  reflexivity.
Defined.

(** X5: [get_auth] calls itself once at most: two levels of calls are
    enough for every [args] and every environment, more levels change
    nothing, and one level is not enough when the login comes from the
    environment. *)
Theorem get_auth_depth w :
  (forall n, get_auth_rec (2 + n) w = get_auth w)
  /\ (forall e, fst (get_auth w) = Raise e -> e = EOFError)
  /\ (a_login (w_args w) = None ->
      (exists l, assoc (lit "NEXUS_LOGIN") (w_environ w) = Some l) ->
      (exists p, assoc (lit "NEXUS_PASSWD") (w_environ w) = Some p) ->
      fst (get_auth_rec 1 w) = Raise RecursionError).
Proof.
  split; [intros n; apply get_auth_fuel|].
  unfold get_auth, get_auth_rec, bind, get_args, environ_get,
    getpass, get_world, set_args, ret, raise, die, log, sys_exit.
  cbn. split.
  - intros e.
    destruct (a_login (w_args w)) as [login|] eqn:E1.
    + destruct (a_passwd (w_args w)) as [p|] eqn:E2; cbn; [discriminate|].
      destruct (w_tty w) as [p|] eqn:E3; cbn; [discriminate|].
      now intros [= <-].
    + destruct (assoc (lit "NEXUS_LOGIN") (w_environ w)) as [l|] eqn:E2; cbn;
        [|discriminate].
      destruct (assoc (lit "NEXUS_PASSWD") (w_environ w)) as [p|] eqn:E3; cbn;
        discriminate.
  - intros -> (l & ->) (p & ->). reflexivity.
Qed.

Lemma get_auth_depth_witness :
  fst (get_auth_rec 1 world_env_credentials) = Raise RecursionError.
Proof.
  refine (proj2 (proj2 (get_auth_depth world_env_credentials)) _ _ _).
  - reflexivity.
  - exists (lit "alice"). reflexivity.
  - exists (lit "secret"). reflexivity.
Defined.

(** The credentials are a login and a password around a colon. *)
Lemma get_auth_some w a wa :
  get_auth w = (Ret (Some a), wa) ->
  exists l p, a = l ++ lit ":" ++ p.
Proof.
  unfold get_auth, get_auth_rec, bind, get_args, environ_get,
    getpass, get_world, set_args, ret, raise, die, log, sys_exit.
  cbn.
  destruct (a_login (w_args w)) as [login|] eqn:E1.
  - destruct (a_passwd (w_args w)) as [p|] eqn:E2; cbn.
    + intros [= <- _]. do 2 eexists. reflexivity.
    + destruct (w_tty w) as [p|] eqn:E3; cbn; [|discriminate].
      intros [= <- _]. do 2 eexists. reflexivity.
  - destruct (assoc (lit "NEXUS_LOGIN") (w_environ w)) as [l|] eqn:E2; cbn.
    + destruct (assoc (lit "NEXUS_PASSWD") (w_environ w)) as [p|] eqn:E3; cbn.
      * intros [= <- _]. do 2 eexists. reflexivity.
      * discriminate.
    + discriminate.
Qed.

(** ** What every step of a run keeps *)

Section Preserves.
Variable R : World -> World -> Prop.
Hypothesis R_refl : forall w, R w w.
Hypothesis R_trans : forall a b c, R a b -> R b c -> R a c.

Lemma preserves_pure (A : Type) (m : M A) :
  (forall w, snd (m w) = w) -> preserves R m.
Proof. intros H w. rewrite H. apply R_refl. Qed.

Lemma preserves_bind (A B : Type) (m : M A) (k : A -> M B) :
  preserves R m -> (forall a, preserves R (k a)) -> preserves R (bind m k).
Proof.
  intros Hm Hk w. unfold bind. specialize (Hm w).
  destruct (m w) as [[a|c|e] w1]; cbn in *; auto.
  apply R_trans with w1; [exact Hm | apply Hk].
Qed.

Lemma preserves_try_finally (A : Type) (m : M A) (c : M unit) :
  preserves R m -> preserves R c -> preserves R (try_finally m c).
Proof.
  intros Hm Hc w. unfold try_finally. specialize (Hm w).
  destruct (m w) as [o w1]. cbn in Hm. specialize (Hc w1).
  destruct (c w1) as [[u|k|e] w2]; cbn in *; eapply R_trans; eassumption.
Qed.

Lemma preserves_for_each (A S : Type) (f : A -> S -> M S) (l : list A) :
  (forall a s, preserves R (f a s)) -> forall s, preserves R (for_each f l s).
Proof.
  intros Hf. induction l as [|a l IH]; intros s; cbn [for_each].
  - apply preserves_pure. reflexivity.
  - apply preserves_bind; auto.
Qed.

End Preserves.

Lemma same_request_refl a : same_request a a.
Proof. repeat split. Qed.

Lemma same_request_trans a b c :
  same_request a b -> same_request b c -> same_request a c.
Proof.
  intros (A1 & A2 & A3 & A4 & A5) (B1 & B2 & B3 & B4 & B5).
  repeat split; congruence.
Qed.

Lemma steady_refl w : steady w w.
Proof.
  split; [apply same_request_refl|]. repeat split.
  exists []. split; [now rewrite app_nil_r | constructor].
Qed.

Lemma steady_trans a b c : steady a b -> steady b c -> steady a c.
Proof.
  intros (A0 & A1 & A2 & A3 & A4 & A5 & l1 & L1 & F1)
         (B0 & B1 & B2 & B3 & B4 & B5 & l2 & L2 & F2).
  split; [eapply same_request_trans; eassumption|].
  repeat (split; [congruence|]).
  exists (l1 ++ l2). split; [rewrite L2, L1; symmetry; apply app_assoc|].
  apply Forall_app. split; [exact F1|]. rewrite A5 in F2. exact F2.
Qed.

Lemma steady_pure (A : Type) (m : M A) :
  (forall w, snd (m w) = w) -> preserves steady m.
Proof. apply preserves_pure, steady_refl. Qed.

Lemma steady_bind (A B : Type) (m : M A) (k : A -> M B) :
  preserves steady m -> (forall a, preserves steady (k a)) ->
  preserves steady (bind m k).
Proof. apply preserves_bind, steady_trans. Qed.

Lemma steady_log l m : preserves steady (log l m).
Proof.
  intros w. unfold log. cbn.
  split; [apply same_request_refl|]. repeat split. cbn.
  destruct (level_rank (w_level w) <=? level_rank l)%nat eqn:E.
  - exists [(l, m)]. split; [reflexivity|].
    constructor; [|constructor]. now apply Nat.leb_le.
  - exists []. split; [now rewrite app_nil_r | constructor].
Qed.

(** A step that leaves the request, the surroundings and the logger as they
    are. *)
Lemma steady_frame (A : Type) (m : M A) :
  (forall w, w_args (snd (m w)) = w_args w /\ w_cwd (snd (m w)) = w_cwd w
             /\ w_environ (snd (m w)) = w_environ w
             /\ w_curl (snd (m w)) = w_curl w /\ w_tty (snd (m w)) = w_tty w
             /\ w_level (snd (m w)) = w_level w /\ w_log (snd (m w)) = w_log w) ->
  preserves steady m.
Proof.
  intros H w. destruct (H w) as (A1 & A2 & A3 & A4 & A5 & A6 & A7).
  split; [rewrite A1; apply same_request_refl|].
  repeat (split; [assumption|]).
  exists []. split; [now rewrite app_nil_r | constructor].
Qed.

Lemma steady_emit e : preserves steady (emit e).
Proof. apply steady_frame. intros w. cbn. repeat split. Qed.

Lemma steady_set_root r : preserves steady (set_root r).
Proof. apply steady_frame. intros w. cbn. repeat split. Qed.

Lemma steady_set_now t : preserves steady (set_now t).
Proof. apply steady_frame. intros w. cbn. repeat split. Qed.

Ltac steady_step :=
  match goal with
  | |- preserves steady (bind _ _) => apply steady_bind; [|intros ?]
  | |- preserves steady (log _ _) => apply steady_log
  | |- preserves steady (emit _) => apply steady_emit
  | |- preserves steady (set_root _) => apply steady_set_root
  | |- preserves steady (set_now _) => apply steady_set_now
  | |- preserves steady (try_finally _ _) =>
      apply (preserves_try_finally steady_trans)
  | |- preserves steady (for_each _ _ _) =>
      apply (preserves_for_each steady_refl steady_trans); intros ? ?
  | |- preserves steady (if ?b then _ else _) => destruct b
  | |- preserves steady (match ?x with _ => _ end) => destruct x
  | |- preserves steady _ => solve [apply steady_pure; intros ?; reflexivity]
  | |- preserves steady _ => assumption
  end.

Lemma steady_die (A : Type) m : preserves steady (@die A m).
Proof. unfold die. repeat steady_step. Qed.

Lemma steady_subprocess_run cmd : preserves steady (subprocess_run cmd).
Proof. unfold subprocess_run. repeat steady_step. Qed.

Lemma steady_write_file p lines : preserves steady (write_file p lines).
Proof. unfold write_file. repeat steady_step. Qed.

Lemma steady_os_remove p : preserves steady (os_remove p).
Proof. unfold os_remove. repeat steady_step. Qed.

Lemma steady_os_mkdir p : preserves steady (os_mkdir p).
Proof. unfold os_mkdir. repeat steady_step. Qed.

Lemma steady_os_scandir p : preserves steady (os_scandir p).
Proof. unfold os_scandir. repeat steady_step. Qed.

Lemma steady_os_listdir p : preserves steady (os_listdir p).
Proof. unfold os_listdir. repeat steady_step. Qed.

(** [get_auth] changes the login and the password of [args] at most. *)
Lemma steady_get_auth : preserves steady get_auth.
Proof.
  intros w.
  assert (R0 : same_request (w_args w) (w_args (snd (get_auth w)))).
  { unfold get_auth, get_auth_rec, bind, get_args, environ_get,
      getpass, get_world, set_args, ret, raise, die, log, sys_exit.
    cbn.
    destruct (a_login (w_args w)) as [login|] eqn:E1.
    - destruct (a_passwd (w_args w)) as [p|] eqn:E2; cbn.
      + apply same_request_refl.
      + destruct (w_tty w) as [p|] eqn:E3; cbn; repeat split.
    - destruct (assoc (lit "NEXUS_LOGIN") (w_environ w)) as [l|] eqn:E2; cbn.
      + destruct (assoc (lit "NEXUS_PASSWD") (w_environ w)) as [p|] eqn:E3; cbn;
          repeat split.
      + apply same_request_refl. }
  destruct (get_auth_spec w) as (o & w' & H & (_ & C & V & U & Lv & Y) & _ & _ & L).
  rewrite H in *. cbn [snd] in *.
  split; [exact R0|]. repeat (split; [assumption|]).
  destruct o as [a|c|e].
  - exists []. split; [now rewrite app_nil_r | constructor].
  - destruct L as (_ & L & _). exists [(ERROR, msg_no_passwd)].
    split; [exact L|]. constructor; [|constructor].
    cbn. destruct (w_level w); cbn; lia.
  - exists []. split; [now rewrite app_nil_r | constructor].
Qed.

Lemma steady_run_curl_cmd url data outdir :
  preserves steady (run_curl_cmd url data outdir).
Proof.
  unfold run_curl_cmd.
  apply steady_bind; [apply steady_get_auth | intros auth].
  repeat first [steady_step | apply steady_subprocess_run | apply steady_die].
Qed.

Lemma steady_scan_entry f st : preserves steady (scan_entry f st).
Proof. unfold scan_entry. repeat steady_step. Qed.

Lemma steady_do_upload : preserves steady do_upload.
Proof.
  unfold do_upload, upload_validate, upload_scan, upload_transfer, get_groupId.
  repeat first [steady_step | apply steady_die | apply steady_os_scandir
                | apply steady_scan_entry | apply steady_write_file
                | apply steady_run_curl_cmd | apply steady_os_remove].
Qed.

Lemma steady_download_dest : preserves steady download_dest.
Proof.
  unfold download_dest.
  repeat first [steady_step | apply steady_die | apply steady_os_listdir
                | apply steady_os_mkdir].
Qed.

Lemma steady_download_fetch : preserves steady download_fetch.
Proof.
  unfold download_fetch, get_groupId.
  repeat first [steady_step | apply steady_die | apply steady_run_curl_cmd].
Qed.

Lemma steady_do_download : preserves steady do_download.
Proof.
  unfold do_download.
  apply steady_bind; [apply steady_download_dest | intros _].
  apply steady_download_fetch.
Qed.

(** The run of [main], from the configuration of the logger on. *)
Lemma steady_main w : steady (configured w) (snd (main w)).
Proof.
  rewrite main_eq.
  destruct (is_upload (w_args w)); [apply steady_do_upload | apply steady_do_download].
Qed.

(** ** What is logged *)

(** *** The record of the command line *)

Lemma discreet_refl w : discreet w w.
Proof. exists []. split; [now rewrite app_nil_r | constructor]. Qed.

Lemma discreet_trans a b c : discreet a b -> discreet b c -> discreet a c.
Proof.
  intros (l1 & L1 & F1) (l2 & L2 & F2).
  exists (l1 ++ l2). split; [rewrite L2, L1; symmetry; apply app_assoc|].
  apply Forall_app. split; assumption.
Qed.

Lemma discreet_pure (A : Type) (m : M A) :
  (forall w, snd (m w) = w) -> preserves discreet m.
Proof. apply preserves_pure, discreet_refl. Qed.

Lemma discreet_bind (A B : Type) (m : M A) (k : A -> M B) :
  preserves discreet m -> (forall a, preserves discreet (k a)) ->
  preserves discreet (bind m k).
Proof. apply preserves_bind, discreet_trans. Qed.

(** A step that leaves the log as it is. *)
Lemma discreet_frame (A : Type) (m : M A) :
  (forall w, w_log (snd (m w)) = w_log w) -> preserves discreet m.
Proof.
  intros H w. exists []. split; [rewrite H; now rewrite app_nil_r | constructor].
Qed.

Lemma discreet_log l m :
  l = DEBUG \/ is_cmd_record m = false -> preserves discreet (log l m).
Proof.
  intros H w. unfold log, discreet. cbn.
  destruct (level_rank (w_level w) <=? level_rank l)%nat.
  - exists [(l, m)]. split; [reflexivity|]. constructor; [exact H | constructor].
  - exists []. split; [now rewrite app_nil_r | constructor].
Qed.

Lemma discreet_die (A : Type) m :
  is_cmd_record m = false -> preserves discreet (@die A m).
Proof.
  intros H. unfold die. apply discreet_bind; [apply discreet_log; now right|].
  intros _. apply discreet_pure. reflexivity.
Qed.

Ltac discreet_step :=
  match goal with
  | |- preserves discreet (bind _ _) => apply discreet_bind; [|intros ?]
  | |- preserves discreet (log _ _) =>
      apply discreet_log; first [left; reflexivity | right; reflexivity]
  | |- preserves discreet (die _) => apply discreet_die; reflexivity
  | |- preserves discreet (try_finally _ _) =>
      apply (preserves_try_finally discreet_trans)
  | |- preserves discreet (for_each _ _ _) =>
      apply (preserves_for_each discreet_refl discreet_trans); intros ? ?
  | |- preserves discreet (if ?b then _ else _) => destruct b
  | |- preserves discreet (match ?x with _ => _ end) => destruct x
  | |- preserves discreet _ => solve [apply discreet_frame; intros ?; reflexivity]
  | |- preserves discreet _ => assumption
  end.

Lemma discreet_subprocess_run cmd : preserves discreet (subprocess_run cmd).
Proof. unfold subprocess_run. repeat discreet_step. Qed.

Lemma discreet_write_file p lines : preserves discreet (write_file p lines).
Proof. unfold write_file. repeat discreet_step. Qed.

Lemma discreet_os_remove p : preserves discreet (os_remove p).
Proof. unfold os_remove. repeat discreet_step. Qed.

Lemma discreet_os_mkdir p : preserves discreet (os_mkdir p).
Proof. unfold os_mkdir. repeat discreet_step. Qed.

Lemma discreet_os_scandir p : preserves discreet (os_scandir p).
Proof. unfold os_scandir. repeat discreet_step. Qed.

Lemma discreet_os_listdir p : preserves discreet (os_listdir p).
Proof. unfold os_listdir. repeat discreet_step. Qed.

Lemma discreet_get_auth : preserves discreet get_auth.
Proof.
  intros w.
  destruct (get_auth_spec w) as (o & w' & H & _ & _ & _ & L).
  rewrite H. cbn [snd].
  destruct o as [a|c|e].
  - exists []. split; [now rewrite app_nil_r | constructor].
  - destruct L as (_ & L & _). exists [(ERROR, msg_no_passwd)].
    split; [exact L|]. constructor; [now right | constructor].
  - exists []. split; [now rewrite app_nil_r | constructor].
Qed.

Lemma discreet_run_curl_cmd url data outdir :
  preserves discreet (run_curl_cmd url data outdir).
Proof.
  unfold run_curl_cmd.
  apply discreet_bind; [apply discreet_get_auth | intros auth].
  repeat first [discreet_step | apply discreet_subprocess_run].
Qed.

Lemma discreet_scan_entry f st : preserves discreet (scan_entry f st).
Proof. unfold scan_entry. repeat discreet_step. Qed.

Lemma discreet_do_upload : preserves discreet do_upload.
Proof.
  unfold do_upload, upload_validate, upload_scan, upload_transfer, get_groupId.
  repeat first [discreet_step | apply discreet_os_scandir
                | apply discreet_scan_entry | apply discreet_write_file
                | apply discreet_run_curl_cmd | apply discreet_os_remove].
Qed.

Lemma discreet_download_dest : preserves discreet download_dest.
Proof.
  unfold download_dest.
  repeat first [discreet_step | apply discreet_os_listdir
                | apply discreet_os_mkdir].
Qed.

Lemma discreet_download_fetch : preserves discreet download_fetch.
Proof.
  unfold download_fetch, get_groupId.
  repeat first [discreet_step | apply discreet_run_curl_cmd].
Qed.

Lemma discreet_do_download : preserves discreet do_download.
Proof.
  unfold do_download.
  apply discreet_bind; [apply discreet_download_dest | intros _].
  apply discreet_download_fetch.
Qed.

Lemma discreet_main w : discreet (configured w) (snd (main w)).
Proof.
  rewrite main_eq.
  destruct (is_upload (w_args w));
    [apply discreet_do_upload | apply discreet_do_download].
Qed.

(** X6: without the option for verbose logging a run logs no record at the
    level [DEBUG], and no record of it, at any level, is the record of the
    command line of the transfer program, the one that holds the login and
    the password.  (The output of a transfer program that fails is logged
    all the same, in the error message of [run_curl_cmd].) *)
Theorem no_debug_record w :
  a_verbose (w_args w) = None ->
  exists l, w_log (snd (main w)) = w_log w ++ l
            /\ Forall (fun r => fst r <> DEBUG
                                /\ forall cmd,
                                     snd r <> [T (lit "curl cmd="); L cmd]) l.
Proof.
  intros H.
  destruct (steady_main w) as (_ & _ & _ & _ & _ & _ & l & L & F).
  destruct (discreet_main w) as (l' & L' & F').
  rewrite L in L'. apply app_inv_head in L'. subst l'.
  unfold configured in L, F. rewrite H in L, F. cbn in L, F.
  exists l. split; [exact L|].
  apply Forall_forall. intros [lv m] Hin.
  pose proof (proj1 (Forall_forall _ _) F _ Hin) as Hr.
  pose proof (proj1 (Forall_forall _ _) F' _ Hin) as Hc.
  cbn in Hr, Hc |- *.
  assert (Hlv : lv <> DEBUG) by (intros ->; cbn in Hr; lia).
  split; [exact Hlv|].
  intros cmd ->. destruct Hc as [Hc | Hc]; [contradiction|].
  vm_compute in Hc. discriminate Hc.
Qed.

Lemma no_debug_record_witness :
  exists l, w_log (snd (main world_upload_ok)) = w_log world_upload_ok ++ l
            /\ Forall (fun r => fst r <> DEBUG
                                /\ forall cmd,
                                     snd r <> [T (lit "curl cmd="); L cmd]) l.
Proof.
  apply (@no_debug_record world_upload_ok). reflexivity.
Defined.

(** The output of a transfer program that fails is in the log of a run
    without the option for verbose logging, at the level [ERROR]. *)
Example failed_output_logged :
  a_verbose (w_args world_upload_exit_22) = None
  /\ In (ERROR, msg_curl_failed 22 700000 (lit "curl: (22) error"))
        (w_log (snd (main world_upload_exit_22))).
Proof.
  split; [reflexivity|]. vm_compute.
  repeat first [left; reflexivity | right].
Qed.

Lemma log_kept (A : Type) (k : M A) l m w :
  (level_rank (w_level w) <= level_rank l)%nat ->
  preserves steady k ->
  In (l, m) (w_log (snd ((log l m ;;; k) w))).
Proof.
  intros Hl Hk. unfold bind.
  change (log l m w) with (Ret tt, snd (log l m w)).
  destruct (Hk (snd (log l m w))) as (_ & _ & _ & _ & _ & _ & l' & L & _).
  rewrite L, (log_emitted l m w Hl).
  apply in_or_app. left. apply in_or_app. right. now left.
Qed.

Lemma curl_cmd_auth a url data outdir :
  truthy a = true -> In a (curl_cmd (Some a) url data outdir).
Proof.
  intros H. unfold curl_cmd. rewrite H. cbn [verify_tls CONF negb].
  apply in_or_app. left.
  assert (G : In a ([lit "curl"; lit "--parallel"; lit "--write-out";
                     write_out_format] ++ [lit "-u"; a]))
    by (apply in_or_app; right; right; now left).
  destruct data as [[|x d]|]; destruct outdir as [[|y o]|];
    repeat first [exact G | apply in_or_app; left].
Qed.

(** X7: with verbose logging every call of the Transport Invoker that
    finds credentials logs the command line of the transfer program, and the
    login and the password are on that command line, in clear. *)
Theorem verbose_logs_credentials w url data outdir a wa :
  w_level w = DEBUG ->
  get_auth w = (Ret (Some a), wa) ->
  In (DEBUG, [T (lit "curl cmd="); L (curl_cmd (Some a) url data outdir)])
     (w_log (snd (run_curl_cmd url data outdir w)))
  /\ In a (curl_cmd (Some a) url data outdir)
  /\ exists login passwd, a = login ++ lit ":" ++ passwd.
Proof.
  intros Hl Ha.
  destruct (get_auth_some _ Ha) as (login & passwd & E).
  split; [|split; [|eauto]].
  - destruct (get_auth_ret _ Ha) as ((_ & _ & _ & _ & Lv & _) & _ & _).
    unfold run_curl_cmd. unfold bind at 1. rewrite Ha.
    apply log_kept; [rewrite Lv, Hl; cbn; lia|].
    repeat first [steady_step | apply steady_subprocess_run | apply steady_die].
  - apply curl_cmd_auth. subst a. destruct login; reflexivity.
Qed.

Lemma verbose_logs_credentials_witness :
  In (DEBUG, [T (lit "curl cmd=");
              L (curl_cmd (Some (lit "alice:secret")) upload_url_full None None)])
     (w_log (snd (run_curl_cmd upload_url_full None None world_verbose)))
  /\ In (lit "alice:secret")
        (curl_cmd (Some (lit "alice:secret")) upload_url_full None None)
  /\ exists login passwd, lit "alice:secret" = login ++ lit ":" ++ passwd.
Proof.
  apply (@verbose_logs_credentials world_verbose upload_url_full None None
           (lit "alice:secret") world_verbose); reflexivity.
Defined.

(** ** Exit codes and error messages *)










(** ** The files that an upload leaves alone *)

Lemma lookup_Dir_cons es c r :
  lookup (Dir es) (c :: r)
  = match assoc c es with Some ch => lookup ch r | None => None end.
Proof. reflexivity. Qed.

Lemma lookup_File_cons cf c r : lookup (File cf) (c :: r) = None.
Proof. reflexivity. Qed.

(** Putting a regular file, or nothing, where no directory stands changes
    no other regular file. *)
Lemma file_at_set_at q : forall v n q',
  is_dir v = false -> is_dir (lookup n q) = false -> q' <> q ->
  file_at (set_at q v n) q' = file_at n q'.
Proof.
  induction q as [|c q IH]; intros v n q' Hv Hn Hq; [reflexivity|].
  destruct n as [cf|es]; [reflexivity|].
  destruct q' as [|c0 r].
  - destruct q; reflexivity.
  - unfold file_at. destruct q as [|c' q1].
    + change (set_at [c] v (Dir es))
        with (Dir (match v with Some x => aset c x es | None => adel c es end)).
      rewrite !lookup_Dir_cons. rewrite lookup_Dir_cons in Hn.
      assert (Hr : eqb c c0 = true -> r <> [])
        by (intros E; apply eqb_eq in E; subst c0; congruence).
      destruct v as [x|].
      * rewrite assoc_aset. destruct (eqb c c0) eqn:E; [|reflexivity].
        apply eqb_eq in E. subst c0.
        destruct r as [|c1 r1]; [now destruct (Hr eq_refl)|].
        destruct x as [cx|]; [|discriminate]. rewrite lookup_File_cons.
        destruct (assoc c es) as [[cy|es']|]; try discriminate; reflexivity.
      * rewrite assoc_adel. destruct (eqb c c0) eqn:E; [|reflexivity].
        apply eqb_eq in E. subst c0.
        destruct r as [|c1 r1]; [now destruct (Hr eq_refl)|].
        destruct (assoc c es) as [[cy|es']|]; try discriminate; reflexivity.
    + change (set_at (c :: c' :: q1) v (Dir es))
        with (Dir (amap_at c (set_at (c' :: q1) v) es)).
      rewrite !lookup_Dir_cons. rewrite lookup_Dir_cons in Hn.
      rewrite assoc_amap_at.
      destruct (eqb c c0) eqn:E; [|reflexivity].
      apply eqb_eq in E. subst c0.
      destruct (assoc c es) as [ch|] eqn:E2; cbn [option_map]; [|reflexivity].
      apply (IH v ch r Hv Hn). congruence.
Qed.

Lemma root_after_check (b : bool) m m' w :
  w_root (snd (((if b then @die unit m else ret tt) ;;; log INFO m') w)) = w_root w.
Proof.
  unfold bind. destruct b.
  - destruct (@die_eq unit m w) as (w' & H & _ & (R & _) & _).
    rewrite H. exact R.
  - reflexivity.
Qed.

(** The file system after the transfer of an upload: the index file was put
    in its place and taken away again. *)
Lemma upload_transfer_root directory st w w1 :
  let p := idx_file_path directory (data st) in
  write_file p (idxEntries st) w = (Ret tt, w1) ->
  exists q,
    resolve (w_root w) (w_cwd w) p = Some q /\ q <> []
    /\ is_dir (lookup (w_root w) q) = false
    /\ w_root (snd (upload_transfer directory st w))
       = set_at q None (set_at q (Some (File (List.concat (idxEntries st))))
                               (w_root w)).
Proof.
  intros p Hw.
  destruct (write_file_spec p (idxEntries st) w)
    as [[e He] | (q & w1' & Hw' & R & N & D & P & Hr1 & Ht1 & F1)];
    [congruence|].
  rewrite Hw in Hw'. injection Hw' as <-.
  destruct F1 as (C1 & _).
  destruct (run_curl_cmd upload_url_full (Some (register_index p (data st))) None w1)
    as [o2 w2] eqn:H2.
  destruct (run_curl_cmd_spec upload_url_full
              (Some (register_index p (data st))) None w1)
    as (o2' & w2' & H2' & (E1 & E2 & _) & _).
  rewrite H2 in H2'. injection H2' as <- <-.
  assert (R2 : resolve (w_root w) (w_cwd w2) p = Some q) by (rewrite E2, C1; exact R).
  assert (Hroot2 : w_root w2
                   = set_at q (Some (File (List.concat (idxEntries st)))) (w_root w))
    by congruence.
  destruct (@os_remove_written p q _ (w_root w) w2 R2 N D P Hroot2)
    as (w3 & H3 & Hr3 & _).
  destruct (@upload_transfer_after directory st w w1 o2 w2 Hw H2)
    as (w3' & H3' & _ & H).
  fold p in H3'. rewrite H3 in H3'. injection H3' as <-.
  exists q. split; [exact R|]. split; [exact N|]. split; [exact D|].
  rewrite H, <- Hroot2, <- Hr3.
  destruct o2 as [[[resp status] elapsed]|c|e]; try reflexivity.
  apply root_after_check.
Qed.

(** An upload either comes to write its index file, or ends with the file
    system and the trace as they were. *)
Lemma upload_reaches_dec w :
  (exists st p w1, upload_reaches_transfer w st p w1)
  \/ (w_root (snd (do_upload w)) = w_root w
      /\ w_trace (snd (do_upload w)) = w_trace w).
Proof.
  destruct (upload_validate_spec w) as (o1 & wv & l1 & Hv & SB1 & _ & O1).
  destruct SB1 as ((R1 & _) & _ & _ & T1).
  destruct o1 as [vd|c|e]; [| |destruct O1].
  2:{ right. unfold do_upload, bind. rewrite Hv. auto. }
  destruct (upload_scan_spec (snd vd) wv)
    as [(e & Hs & _) | (es & ws & l2 & _ & Hs & SB2 & _)].
  { right. unfold do_upload, bind. rewrite Hv, Hs. auto. }
  destruct SB2 as ((R2 & _) & _ & _ & T2).
  set (st := fold_left scan_step (map (dir_entry (a_directory (w_args wv))) es)
                       {| data := snd vd; idxEntries := []; assetIdx := 2 |}) in *.
  destruct (write_file_spec (idx_file_path (fst vd) (data st)) (idxEntries st) ws)
    as [[e He] | (q & w1 & Hw & _)].
  - right. unfold do_upload, bind. rewrite Hv, Hs.
    unfold upload_transfer, bind. rewrite He. cbn [snd]. split; congruence.
  - left. exists st, (idx_file_path (fst vd) (data st)), w1.
    exists vd, wv, ws. auto.
Qed.

(** The worlds of an upload that comes to write its index file. *)
Lemma upload_reaches_frame w st p w1 :
  upload_reaches_transfer w st p w1 ->
  p = index_path (w_args w)
  /\ exists ws,
       w_root ws = w_root w /\ w_cwd ws = w_cwd w
       /\ write_file p (idxEntries st) ws = (Ret tt, w1)
       /\ do_upload w = upload_transfer (upload_directory (w_args w)) st ws
       /\ p = idx_file_path (upload_directory (w_args w)) (data st).
Proof.
  intros (vd & wv & ws & Hv & Hs & Hp & Hw).
  destruct (upload_validate_spec w) as (o1 & wv' & l1 & Hv' & SB1 & _ & O1).
  rewrite Hv in Hv'. injection Hv' as <- <-.
  destruct O1 as (Evd & _). destruct SB1 as ((R1 & C1 & _) & A1 & _).
  destruct (upload_scan_spec (snd vd) wv)
    as [(e & Hs' & _) | (es & ws' & l2 & _ & Hs' & SB2 & _)];
    rewrite Hs in Hs'; [discriminate|].
  injection Hs' as Est <-. destruct SB2 as ((R2 & C2 & _) & _).
  assert (Ep : p = index_path (w_args w)).
  { rewrite Hp, Est, Evd. cbn [fst snd]. unfold index_path.
    apply idx_file_path_scan. reflexivity. }
  split; [exact Ep|]. exists ws.
  split; [congruence|]. split; [congruence|]. split; [exact Hw|].
  rewrite (@do_upload_after w _ _ _ _ Hv Hs), Hp, Evd. auto.
Qed.

(** X9: an upload changes no regular file but its index file, which is
    gone at the end, and makes or removes no directory: at every other place
    the file system holds what it held before, however the run ends. *)
Theorem upload_keeps_files w :
  (forall r, is_dir (lookup (w_root (snd (do_upload w))) r)
             = is_dir (lookup (w_root w) r))
  /\ (forall q',
         resolve (w_root w) (w_cwd w) (index_path (w_args w)) <> Some q' ->
         file_at (w_root (snd (do_upload w))) q' = file_at (w_root w) q').
Proof.
  destruct (upload_reaches_dec w) as [(st & p & w1 & Hr) | (R & _)].
  2:{ rewrite R. auto. }
  destruct (upload_reaches_frame Hr) as (Ep & ws & Rs & Cs & Hw & Hu & Ep').
  rewrite Ep' in Hw.
  destruct (upload_transfer_root _ _ _ Hw) as (q & Rq & Nq & Dq & Hroot).
  rewrite <- Ep', Rs, Cs in Rq. rewrite Rs in Dq, Hroot.
  rewrite Hu, Hroot.
  assert (D1 : is_dir (lookup (set_at q (Some (File (List.concat (idxEntries st))))
                                      (w_root w)) q) = false)
    by (rewrite is_dir_lookup_set_at; auto).
  split.
  - intros r. rewrite !is_dir_lookup_set_at; auto.
  - intros q' Hq. rewrite Ep in Rq.
    assert (Nq' : q' <> q) by congruence.
    rewrite !file_at_set_at; auto.
Qed.

Lemma upload_keeps_files_witness :
  file_at (w_root (snd (do_upload world_upload_ok)))
          [lit "home"; lit "u"; lit "report"; lit "data.csv"]
  = Some (lit "a,b").
Proof.
  rewrite (proj2 (upload_keeps_files world_upload_ok)
             [lit "home"; lit "u"; lit "report"; lit "data.csv"]).
  - reflexivity.
  - vm_compute. discriminate.
Defined.

(** ** The target of an upload *)

(** X10: an upload whose target, after the separators at its ends are
    taken off, names nothing, or names a regular file, ends at once: with
    the message that there is no such file or directory, or with the message
    that the target must be a directory, with nothing written and no process
    started. *)
Theorem upload_target_checked w :
  let directory := upload_directory (w_args w) in
  (stat (w_root w) (w_cwd w) directory = None ->
   exits_with (do_upload w) w (msg_no_such directory)
   /\ w_trace (snd (do_upload w)) = w_trace w
   /\ w_root (snd (do_upload w)) = w_root w)
  /\ (forall c,
         stat (w_root w) (w_cwd w) directory = Some (File c) ->
         exits_with (do_upload w) w msg_not_a_directory
         /\ w_trace (snd (do_upload w)) = w_trace w
         /\ w_root (snd (do_upload w)) = w_root w).
Proof.
  intros directory.
  destruct (do_upload_spec w) as (o & w' & l & t & H & L & T & _ & O).
  fold directory in O. rewrite H. cbn [snd]. unfold exits_with. cbn [fst snd].
  split.
  - intros Hs. rewrite Hs in O.
    destruct O as [(-> & -> & R & m & E & M) | (X & _)]; [|discriminate].
    rewrite app_nil_r in T.
    destruct M as [(_ & ->) | [(X & _) | (X & _)]];
      [| congruence | discriminate].
    split; [|auto]. split; [reflexivity|]. eauto.
  - intros c Hs. rewrite Hs in O.
    destruct O as [(-> & -> & R & m & E & M) | (X & _)]; [|discriminate].
    rewrite app_nil_r in T.
    destruct M as [(X & _) | [(_ & _ & ->) | (X & _)]]; try discriminate.
    split; [|auto]. split; [reflexivity|]. eauto.
Qed.

Lemma upload_target_checked_witness :
  exits_with (do_upload world_upload_missing) world_upload_missing
             (msg_no_such (lit "missing"))
  /\ exits_with (do_upload world_upload_file) world_upload_file
                msg_not_a_directory.
Proof.
  split.
  - apply (proj1 (upload_target_checked world_upload_missing)). reflexivity.
  - apply (proj2 (upload_target_checked world_upload_file) (lit "a,b")).
    reflexivity.
Defined.

(** ** The exception of a path that names nothing *)

(** A walk that goes through ends at a name that is missing. *)
Lemma walk_errno_resolved root : forall cs cur q,
  fold_left (step root) cs (Some cur) = Some q -> walk_errno root cur cs = ENOENT.
Proof.
  induction cs as [|c cs IH]; intros cur q F; cbn [walk_errno]; [reflexivity|].
  cbn [fold_left] in F.
  destruct (step root (Some cur) c) as [q1|] eqn:S1;
    [|rewrite fold_step_none in F; discriminate].
  destruct (lookup root cur) as [[cf|es]|] eqn:K;
    try (unfold step in S1; rewrite K in S1; discriminate).
  exact (IH _ _ F).
Qed.

Lemma resolve_errno_resolved root cwd p q :
  resolve root cwd p = Some q -> resolve_errno root cwd p = ENOENT.
Proof.
  unfold resolve, resolve_errno. destruct p as [|c p]; [discriminate|].
  apply walk_errno_resolved.
Qed.

Lemma os_error_cases e : os_error e = FileNotFoundError \/ os_error e = NotADirectoryError.
Proof. destruct e; auto. Qed.

(** The two exceptions at work: a name that is missing in a directory, a
    walk through a regular file, a [/] after a regular file. *)
Example errno_examples :
  resolve_errno sample_root [lit "home"; lit "u"] (lit "missing") = ENOENT
  /\ resolve_errno sample_root [lit "home"; lit "u"] (lit "missing/x") = ENOENT
  /\ resolve_errno sample_root [lit "home"; lit "u"] (lit "report/data.csv/x")
     = ENOTDIR
  /\ resolve_errno sample_root [lit "home"; lit "u"] (lit "report/data.csv/")
     = ENOTDIR
  /\ resolve_errno through_file_root [lit "home"; lit "u"] (lit "/f/report")
     = ENOTDIR
  /\ resolve_errno through_file_root [lit "home"; lit "u"] (lit "f/report/nope")
     = ENOENT.
Proof. repeat split; vm_compute; reflexivity. Qed.

(** X11: the checks of an upload look at the target with the separators at
    its ends taken off, the scan lists the target as it was given.  When the
    first names a directory and the second does not, the checks pass and the
    scan raises what [os.scandir] raises, which nothing catches: no error
    message, nothing written, no process started.  The exception is
    [FileNotFoundError] when the target as given names nothing inside a
    directory that is there, [NotADirectoryError] when it names a regular
    file; when it names nothing at all it is one of the two, by the walk
    along the path: [NotADirectoryError] when the walk meets a regular
    file. *)
Theorem upload_scans_given_target w :
  is_dir (stat (w_root w) (w_cwd w) (upload_directory (w_args w))) = true ->
  contains DOT (upload_directory (w_args w)) = false ->
  let ends e :=
    fst (do_upload w) = Raise e
    /\ w_trace (snd (do_upload w)) = w_trace w
    /\ w_root (snd (do_upload w)) = w_root w
    /\ exists l, w_log (snd (do_upload w)) = w_log w ++ l /\ errors l = [] in
  (free_name (w_root w) (w_cwd w) (a_directory (w_args w)) ->
   ends FileNotFoundError)
  /\ (forall c,
         stat (w_root w) (w_cwd w) (a_directory (w_args w)) = Some (File c) ->
         ends NotADirectoryError)
  /\ (stat (w_root w) (w_cwd w) (a_directory (w_args w)) = None ->
      ends (os_error (resolve_errno (w_root w) (w_cwd w) (a_directory (w_args w))))).
Proof.
  intros Hd Hdot ends.
  destruct (upload_validate_spec w) as (o1 & wv & l1 & Hv & SB1 & L1 & O1).
  destruct SB1 as ((R1 & C1 & _) & A1 & _ & T1).
  destruct o1 as [vd|c|e]; [| |destruct O1].
  2:{ exfalso. destruct O1 as (_ & m & _ & [(X & _) | [(_ & X & _) | (_ & X & _)]]).
      - rewrite X in Hd. discriminate.
      - congruence.
      - congruence. }
  destruct O1 as (_ & E1 & _).
  assert (G : forall e,
             os_scandir (a_directory (w_args wv)) wv = (Raise e, wv) -> ends e).
  { intros e He. unfold ends, do_upload, upload_scan, bind, get_args.
    rewrite Hv. cbn [fst snd]. rewrite He. cbn [fst snd].
    repeat split; auto. eauto. }
  unfold os_scandir, bind, get_world, raise in G.
  rewrite A1, R1, C1 in G. cbn in G.
  split; [|split].
  - intros (q & Rq & Kq).
    assert (Hs : stat (w_root w) (w_cwd w) (a_directory (w_args w)) = None)
      by (unfold stat; now rewrite Rq).
    apply G. rewrite Hs, (resolve_errno_resolved _ _ _ Rq). reflexivity.
  - intros c Hs. apply G. now rewrite Hs.
  - intros Hs. apply G. now rewrite Hs.
Qed.

Lemma upload_scans_given_target_witness :
  (fst (do_upload world_upload_backslash) = Raise FileNotFoundError
   /\ w_trace (snd (do_upload world_upload_backslash))
      = w_trace world_upload_backslash)
  /\ (fst (do_upload world_upload_through_file) = Raise NotADirectoryError
      /\ w_trace (snd (do_upload world_upload_through_file))
         = w_trace world_upload_through_file).
Proof.
  split.
  - destruct (upload_scans_given_target world_upload_backslash) as [H _].
    + reflexivity.
    + reflexivity.
    + destruct H as (H1 & H2 & _).
      * exists [lit "home"; lit "u"; lit "report" ++ [BACKSLASH]].
        split; reflexivity.
      * split; assumption.
  - destruct (upload_scans_given_target world_upload_through_file)
      as (_ & _ & H).
    + reflexivity.
    + reflexivity.
    + destruct H as (H1 & H2 & _); [reflexivity|]. split; assumption.
Defined.

(** The walk through a regular file, run: the checks pass on [f/report],
    the scan of [/f/report] raises [NotADirectoryError]. *)
Example upload_through_file_run :
  is_dir (stat through_file_root [lit "home"; lit "u"] (lit "f/report")) = true
  /\ fst (do_upload world_upload_through_file) = Raise NotADirectoryError
  /\ w_trace (snd (do_upload world_upload_through_file)) = []
  /\ errors (w_log (snd (do_upload world_upload_through_file))) = [].
Proof. repeat split; vm_compute; reflexivity. Qed.

(** ** An upload without an eligible file *)

Lemma scan_no_eligible files st :
  Forall (fun f => eligible f = false) files -> fold_left scan_step files st = st.
Proof.
  induction 1 as [|f files Hf _ IH]; cbn [fold_left]; [reflexivity|].
  unfold scan_step at 2. rewrite Hf. exact IH.
Qed.

(** X12: a directory without an eligible file is not refused: when the
    checks have passed and the index file can be written, the upload writes
    an empty index file and goes on to the transfer, with a manifest that
    holds the group, the version, the artifact and the index file as its one
    asset. *)
Theorem upload_without_eligible_file w es :
  let directory := upload_directory (w_args w) in
  let p := index_path (w_args w) in
  is_dir (stat (w_root w) (w_cwd w) directory) = true ->
  contains DOT directory = false ->
  stat (w_root w) (w_cwd w) (a_directory (w_args w)) = Some (Dir es) ->
  Forall (fun f => eligible f = false)
         (map (dir_entry (a_directory (w_args w))) es) ->
  (exists e, fst (do_upload w) = Raise e
             /\ w_trace (snd (do_upload w)) = w_trace w)
  \/ exists t2,
       w_trace (snd (do_upload w))
       = w_trace w ++ EvWrite p [] :: t2 ++ [EvRemove p]
       /\ (t2 = []
           \/ exists auth,
               t2 = [EvRun (curl_cmd auth upload_url_full
                        (Some [(lit "maven2.groupId", full_groupId (w_args w));
                               (lit "maven2.version", version_or_default (w_args w));
                               (lit "maven2.artifactId", basename directory);
                               (lit "maven2.asset1", lit "@" ++ p);
                               (lit "maven2.asset1.extension", lit "txt")])
                        None)]).
Proof.
  intros directory p Hd Hdot Hs Hn.
  destruct (do_upload_spec w) as (o & w' & l & t & H & L & T & _ & O).
  fold directory in O. rewrite H. cbn [fst snd].
  destruct O as [(_ & _ & _ & m & _ & M) | (_ & _ & [(e & -> & -> & _) | O])].
  - exfalso. destruct M as [(X & _) | [(_ & X & _) | (_ & X & _)]].
    + rewrite X in Hd. discriminate.
    + congruence.
    + congruence.
  - left. exists e. rewrite app_nil_r in T. auto.
  - right. destruct O as (es' & t2 & Hs' & O). cbv zeta in O.
    rewrite Hs in Hs'. injection Hs' as <-.
    rewrite (scan_no_eligible _ Hn) in O.
    destruct O as (-> & O2 & _).
    exists t2. split; [exact T|].
    destruct O2 as [-> | (auth & ->)]; [now left|].
    right. exists auth. reflexivity.
Qed.

Lemma upload_without_eligible_file_witness :
  exists t2,
    w_trace (snd (do_upload world_upload_bare))
    = w_trace world_upload_bare
      ++ EvWrite (lit "bare/bare.txt") [] :: t2 ++ [EvRemove (lit "bare/bare.txt")].
Proof.
  destruct (@upload_without_eligible_file world_upload_bare
              [(lit ".keep", File []); (lit "README", File (lit "read me"));
               (lit "old", Dir [])])
    as [(e & H & _) | (t2 & H & _)].
  - reflexivity.
  - reflexivity.
  - reflexivity.
  - repeat constructor.
  - vm_compute in H. discriminate H.
  - exists t2. exact H.
Defined.

(** ** The destination of a download that is there already *)

(** X13: a download whose destination is there as a regular file ends with
    [NotADirectoryError], which nothing catches, before any process is
    started; a download whose destination is there as an empty directory
    uses it as it is: no directory is made, and every event of the run is the
    start of a process: the script itself writes nothing, when the index
    fetch begins the file system is as it was. *)
Theorem download_into_existing w :
  let dest := dest_dir (w_args w) in
  (forall c,
      stat (w_root w) (w_cwd w) dest = Some (File c) ->
      fst (do_download w) = Raise NotADirectoryError
      /\ w_trace (snd (do_download w)) = w_trace w
      /\ w_root (snd (do_download w)) = w_root w
      /\ exists l, w_log (snd (do_download w)) = w_log w ++ l /\ errors l = [])
  /\ (stat (w_root w) (w_cwd w) dest = Some (Dir []) ->
      exists wd,
        download_dest w = (Ret tt, wd)
        /\ w_trace wd = w_trace w /\ w_root wd = w_root w
        /\ do_download w = download_fetch wd
        /\ exists t, w_trace (snd (do_download w)) = w_trace w ++ t
                     /\ only_runs t).
Proof.
  intros dest. split.
  - intros c Hs.
    assert (E : w_log (snd (do_download w)) = w_log (snd (download_dest w))
                /\ fst (do_download w) = Raise NotADirectoryError
                /\ w_trace (snd (do_download w)) = w_trace w
                /\ w_root (snd (do_download w)) = w_root w).
    { unfold do_download, download_dest, bind, get_args, log, path_exists,
        os_listdir, get_world, raise, ret.
      cbn. fold dest. rewrite Hs. cbn. rewrite Hs. cbn. auto. }
    destruct E as (EL & Eo & Et & Er).
    split; [exact Eo|]. split; [exact Et|]. split; [exact Er|].
    destruct (download_dest_spec w) as (o & w' & l & t & H & L & _ & _ & O).
    fold dest in O. rewrite Hs in O. destruct O as (_ & _ & _ & E).
    rewrite EL, H. eauto.
  - intros Hs.
    destruct (download_dest_spec w) as (o1 & wd & l1 & t1 & H1 & _ & T1 & _ & O1).
    fold dest in O1. rewrite Hs in O1. destruct O1 as (-> & R1 & -> & _).
    rewrite app_nil_r in T1.
    destruct (do_download_spec w) as (o & w' & l & t & H & _ & T & O & _).
    fold dest in O. rewrite Hs in O. destruct O as (Rn & _).
    exists wd. split; [exact H1|]. split; [exact T1|]. split; [exact R1|].
    split; [unfold do_download, bind; now rewrite H1|].
    rewrite H. eauto.
Qed.

Lemma download_into_existing_witness :
  fst (do_download world_download_dest_file) = Raise NotADirectoryError
  /\ exists wd,
       download_dest world_download_dest_empty = (Ret tt, wd)
       /\ w_trace wd = w_trace world_download_dest_empty
       /\ w_root wd = w_root world_download_dest_empty.
Proof.
  split.
  - apply (proj1 (download_into_existing world_download_dest_file) []).
    reflexivity.
  - destruct (proj2 (download_into_existing world_download_dest_empty))
      as (wd & H & T & R & _); [reflexivity|].
    exists wd. repeat split; assumption.
Defined.

(** ** The index of a download *)

Lemma do_download_after w wd :
  download_dest w = (Ret tt, wd) -> do_download w = download_fetch wd.
Proof. intros H. unfold do_download, bind. now rewrite H. Qed.

Lemma run_curl_cmd_ret_trace url data outdir w r w' :
  run_curl_cmd url data outdir w = (Ret r, w') ->
  exists auth, w_trace w' = w_trace w ++ [EvRun (curl_cmd auth url data outdir)].
Proof.
  intros H.
  destruct (run_curl_cmd_spec url data outdir w)
    as (o & w1 & H1 & _ & l & t & _ & T & O).
  rewrite H in H1. injection H1 as <- <-.
  destruct r as [[x y] z]. destruct O as (_ & (auth & ->) & _). eauto.
Qed.

(** X14: an index without a name is refused: when the index fetch is
    answered with the status 200 and no line before the status line, the
    download ends with the message that there is nothing to download, after
    that one process and before any bulk fetch. *)
Theorem empty_index_refused w wd text d :
  download_dest w = (Ret tt, wd) ->
  answered wd (index_url (w_args wd)) None None text d 200 ->
  removelast (resp_lines text) = [] ->
  exits_with (do_download w) w msg_index_empty
  /\ exists auth,
       w_trace (snd (do_download w))
       = w_trace wd ++ [EvRun (curl_cmd auth (index_url (w_args wd)) None None)].
Proof.
  intros Hd Ha Hn.
  destruct (@download_dest_ret _ _ Hd) as (_ & l0 & L0 & E0).
  assert (N1 : 200%Z <> 401%Z) by discriminate.
  assert (N2 : 200%Z <> 403%Z) by discriminate.
  destruct (@answered_run _ _ _ _ _ _ _ Ha N1 N2) as (w1 & l1 & H1 & _ & L1 & E1).
  rewrite Hn in H1.
  destruct (@run_curl_cmd_ret_trace _ _ _ _ _ _ H1) as (auth & T1).
  rewrite (@do_download_after _ _ Hd), (@download_fetch_after _ _ _ H1).
  cbn [Z.eqb Pos.eqb negb List.length Nat.eqb].
  destruct (@die_eq unit msg_index_empty w1) as (w2 & H2 & L2 & _ & _ & _ & T2).
  split.
  - apply (@exits_with_die unit msg_index_empty w w1 (l0 ++ l1)).
    + rewrite L1, L0. symmetry. apply app_assoc.
    + now rewrite errors_app, E0, E1.
    + reflexivity.
  - exists auth. rewrite H2. cbn [snd]. congruence.
Qed.

Lemma empty_index_refused_witness :
  exits_with (do_download world_download_empty) world_download_empty
             msg_index_empty.
Proof.
  refine (proj1 (@empty_index_refused world_download_empty
                   (snd (download_dest world_download_empty))
                   ([LF] ++ lit "**http_status=200" ++ [LF]) 1500000%Z _ _ _)).
  - vm_compute. reflexivity.
  - exists ([LF] ++ lit "**http_status=200" ++ [LF]).
    split; [|split; reflexivity].
    eexists. eexists. split; [vm_compute; reflexivity|]. reflexivity.
  - reflexivity.
Defined.

(** ** A download that is tried again *)

Lemma download_dest_made w wd :
  download_dest w = (Ret tt, wd) ->
  stat (w_root wd) (w_cwd wd) (dest_dir (w_args wd)) = Some (Dir []).
Proof.
  intros H.
  destruct (download_dest_spec w)
    as (o & w' & l & t & H' & _ & _ & (C & _ & A & _) & O).
  rewrite H in H'. injection H' as <- <-. rewrite A.
  destruct (stat (w_root w) (w_cwd w) (dest_dir (w_args w))) as [[cf|[|e es]]|] eqn:Hs.
  - destruct O as ((e & X) & _). discriminate X.
  - destruct O as (_ & R & _). now rewrite R, C.
  - destruct O as (_ & _ & X & _). discriminate X.
  - destruct O as (_ & [(e & X & _) | (_ & _ & S)]); [discriminate X | exact S].
Qed.

Lemma dest_dir_same_request a a' : same_request a a' -> dest_dir a' = dest_dir a.
Proof.
  intros (_ & V & _ & _ & D). unfold dest_dir, version_or_default.
  now rewrite V, D.
Qed.

(** X15: a download whose index fetch is answered with a status other than
    200 ends with [sys.exit(1)] and leaves its destination behind, as an empty
    directory; a further run in the world it leaves passes the check of the
    destination, and makes no directory. *)
Theorem failed_index_fetch_retried w wd text d s :
  download_dest w = (Ret tt, wd) ->
  answered wd (index_url (w_args wd)) None None text d s ->
  s <> 200%Z ->
  let w' := snd (do_download w) in
  fst (do_download w) = Exit 1
  /\ stat (w_root w') (w_cwd w') (dest_dir (w_args w')) = Some (Dir [])
  /\ exists w'',
       download_dest w' = (Ret tt, w'')
       /\ w_trace w'' = w_trace w' /\ w_root w'' = w_root w'.
Proof.
  intros Hd Ha Hs w'.
  pose proof (@download_dest_made _ _ Hd) as Hm.
  assert (F : fst (download_fetch wd) = Exit 1
              /\ w_root (snd (download_fetch wd)) = w_root wd).
  { destruct (Z.eq_dec s 401) as [E1 | N1];
      [|destruct (Z.eq_dec s 403) as [E2 | N2]].
    - assert (X : s = 401%Z \/ s = 403%Z) by auto.
      destruct (run_curl_cmd (index_url (w_args wd)) None None wd) as [o1 w1] eqn:H1.
      pose proof (@answered_auth _ _ _ _ _ _ _ Ha X) as (Ho & _).
      rewrite H1 in Ho. cbn [fst] in Ho. subst o1.
      destruct (run_curl_cmd_spec (index_url (w_args wd)) None None wd)
        as (o & w1' & H1' & (R & _) & _).
      rewrite H1 in H1'. injection H1' as <- <-.
      rewrite (@download_fetch_after _ _ _ H1). auto.
    - assert (X : s = 401%Z \/ s = 403%Z) by auto.
      destruct (run_curl_cmd (index_url (w_args wd)) None None wd) as [o1 w1] eqn:H1.
      pose proof (@answered_auth _ _ _ _ _ _ _ Ha X) as (Ho & _).
      rewrite H1 in Ho. cbn [fst] in Ho. subst o1.
      destruct (run_curl_cmd_spec (index_url (w_args wd)) None None wd)
        as (o & w1' & H1' & (R & _) & _).
      rewrite H1 in H1'. injection H1' as <- <-.
      rewrite (@download_fetch_after _ _ _ H1). auto.
    - destruct (@answered_run _ _ _ _ _ _ _ Ha N1 N2)
        as (w1 & l1 & H1 & (R & _) & _).
      rewrite (@download_fetch_after _ _ _ H1).
      apply Z.eqb_neq in Hs. rewrite Hs. cbn [negb].
      destruct (@die_eq unit msg_index_not_found w1)
        as (w2 & H2 & _ & ((R2 & _) & _)).
      rewrite H2. cbn [fst snd]. split; [reflexivity | congruence]. }
  destruct F as (Fo & Fr).
  pose proof (steady_download_fetch wd) as (Rq & C & _).
  unfold w'. rewrite (@do_download_after _ _ Hd).
  assert (S' : stat (w_root (snd (download_fetch wd)))
                    (w_cwd (snd (download_fetch wd)))
                    (dest_dir (w_args (snd (download_fetch wd))))
               = Some (Dir [])).
  { rewrite Fr, C, (@dest_dir_same_request _ _ Rq). exact Hm. }
  split; [exact Fo|]. split; [exact S'|].
  destruct (download_dest_spec (snd (download_fetch wd)))
    as (o & w2 & l & t & H & _ & T & _ & O).
  rewrite S' in O. destruct O as (-> & R & -> & _).
  exists w2. rewrite app_nil_r in T. auto.
Qed.

Lemma failed_index_fetch_retried_witness :
  fst (do_download world_download_404) = Exit 1
  /\ exists w'',
       download_dest (snd (do_download world_download_404)) = (Ret tt, w'')
       /\ w_trace w'' = w_trace (snd (do_download world_download_404)).
Proof.
  destruct (@failed_index_fetch_retried world_download_404
              (snd (download_dest world_download_404))
              ([LF] ++ lit "**http_status=404" ++ [LF]) 1500000%Z 404%Z)
    as (H1 & _ & w'' & H2 & H3 & _).
  - vm_compute. reflexivity.
  - exists ([LF] ++ lit "**http_status=404" ++ [LF]).
    split; [|split; reflexivity].
    eexists. eexists. split; [vm_compute; reflexivity|]. reflexivity.
  - discriminate.
  - split; [exact H1|]. exists w''. split; assumption.
Defined.

(** ** The events of a run *)






(** ** A separator after the directory of an upload *)

Lemma strip_by_snoc p s c : p c = true -> strip_by p (s ++ [c]) = strip_by p s.
Proof.
  intros Hc. unfold strip_by, rstrip, lstrip.
  assert (D : dropwhile p (s ++ [c]) = dropwhile p s ++ [c]
              \/ (dropwhile p (s ++ [c]) = [] /\ dropwhile p s = [])).
  { induction s as [|x s IH]; cbn.
    - rewrite Hc. right. auto.
    - destruct (p x); [exact IH | left; reflexivity]. }
  destruct D as [-> | (-> & ->)]; [|reflexivity].
  rewrite rev_app_distr. cbn. now rewrite Hc.
Qed.

Lemma stat_trailing_slash root cwd D :
  D <> [] -> is_dir (stat root cwd D) = true ->
  stat root cwd (D ++ [SLASH]) = stat root cwd D.
Proof.
  intros HD Hs. unfold stat in *.
  assert (R : resolve root cwd (D ++ [SLASH]) = resolve root cwd D).
  { unfold resolve in *. destruct D as [|c r]; [congruence|].
    change ((c :: r) ++ [SLASH]) with (c :: (r ++ [SLASH])).
    cbv iota.
    change (c :: (r ++ [SLASH])) with ((c :: r) ++ [SLASH]).
    rewrite split_on_snoc_sep, fold_left_app. cbn [fold_left].
    destruct (fold_left (step root) (split_on SLASH (c :: r))
                        (Some (if c =? SLASH then [] else cwd))) as [q|];
      [|reflexivity].
    unfold step. now rewrite Hs. }
  now rewrite R.
Qed.

Lemma dir_entry_trailing_slash D e :
  D <> [] -> endswith SLASH D = false ->
  dir_entry (D ++ [SLASH]) e = dir_entry D e.
Proof.
  intros HD He. unfold dir_entry. f_equal. unfold path_join.
  destruct (startswith SLASH (fst e)); [reflexivity|].
  rewrite He.
  assert (E : endswith SLASH (D ++ [SLASH]) = true).
  { unfold endswith. rewrite rev_app_distr. reflexivity. }
  rewrite E.
  destruct D as [|c r]; [congruence|].
  cbn [app]. now rewrite <- app_assoc.
Qed.

Lemma log_with_directory l m w d :
  snd (log l m (with_directory w d)) = with_directory (snd (log l m w)) d.
Proof. reflexivity. Qed.

Lemma log_notice_with_directory o w d :
  log_notice o (with_directory w d) = with_directory (log_notice o w) d.
Proof. destruct o as [[l m]|]; reflexivity. Qed.

Lemma scan_log_with_directory files : forall w d,
  fold_left (fun w f => log_notice (scan_notice f) w) files (with_directory w d)
  = with_directory (fold_left (fun w f => log_notice (scan_notice f) w) files w) d.
Proof.
  induction files as [|f files IH]; intros w d; cbn [fold_left]; [reflexivity|].
  now rewrite log_notice_with_directory, IH.
Qed.

(** The checks of an upload see the directory with the separators at its
    ends taken off. *)
Lemma upload_validate_with_directory w d :
  strip_by is_sep d = strip_by is_sep (a_directory (w_args w)) ->
  upload_validate (with_directory w d)
  = (fst (upload_validate w), with_directory (snd (upload_validate w)) d).
Proof.
  intros Hd.
  unfold upload_validate, get_groupId, path_exists, path_isdir.
  repeat run_step. rewrite Hd.
  set (directory := strip_by is_sep (a_directory (w_args w))).
  destruct (stat (w_root w) (w_cwd w) directory) as [[cf|es]|] eqn:Hf;
    repeat run_step; rewrite ?Hf; cbn; repeat run_step;
    try reflexivity.
  destruct (contains DOT directory) eqn:Hdot; repeat run_step; reflexivity.
Qed.

Lemma upload_scan_with_directory dd w d :
  is_dir (stat (w_root w) (w_cwd w) (a_directory (w_args w))) = true ->
  stat (w_root w) (w_cwd w) d = stat (w_root w) (w_cwd w) (a_directory (w_args w)) ->
  (forall e, dir_entry d e = dir_entry (a_directory (w_args w)) e) ->
  upload_scan dd (with_directory w d)
  = (fst (upload_scan dd w), with_directory (snd (upload_scan dd w)) d).
Proof.
  intros Hdir Hs He. unfold upload_scan, os_scandir. repeat run_step. rewrite Hs.
  destruct (stat (w_root w) (w_cwd w) (a_directory (w_args w))) as [[cf|es]|];
    try discriminate Hdir.
  cbn.
  rewrite (map_ext _ _ He), !for_each_scan. cbn [fst snd].
  now rewrite scan_log_with_directory.
Qed.

Lemma write_file_with_directory p lines w d :
  write_file p lines (with_directory w d)
  = (fst (write_file p lines w), with_directory (snd (write_file p lines w)) d).
Proof.
  unfold write_file. repeat run_step.
  destruct (resolve (w_root w) (w_cwd w) p) as [q|]; [|reflexivity].
  destruct q as [|c q]; [reflexivity|].
  destruct (lookup (w_root w) (c :: q)) as [[cf|es]|]; reflexivity.
Qed.

(** X18: a [/] after the directory of an upload changes nothing in what is
    sent: the run passes the same checks, lists the same entries under the
    same paths, and comes to the transfer with the same manifest and the same
    index file, at the same path. *)
Theorem trailing_slash_same_manifest w st p w1 :
  let D := a_directory (w_args w) in
  D <> [] -> endswith SLASH D = false ->
  upload_reaches_transfer w st p w1 ->
  upload_reaches_transfer (with_directory w (D ++ [SLASH])) st p
                          (with_directory w1 (D ++ [SLASH])).
Proof.
  intros D HD He (vd & wv & ws & Hv & Hs & Hp & Hw).
  set (D' := D ++ [SLASH]).
  assert (Sd : strip_by is_sep D' = strip_by is_sep D)
    by (apply strip_by_snoc; reflexivity).
  destruct (upload_validate_spec w) as (o1 & wv' & l1 & Hv' & SB1 & _ & _).
  rewrite Hv in Hv'. injection Hv' as <- <-.
  destruct SB1 as ((R1 & C1 & _) & A1 & _).
  assert (Dv : a_directory (w_args wv) = D) by (now rewrite A1).
  assert (Ss : is_dir (stat (w_root wv) (w_cwd wv) D) = true).
  { destruct (upload_scan_spec (snd vd) wv)
      as [(e & Hs' & _) | (es & ws' & l2 & St & _)].
    - rewrite Hs in Hs'. discriminate.
    - rewrite Dv in St. now rewrite St. }
  exists vd, (with_directory wv D'), (with_directory ws D').
  split; [|split; [|split]].
  - rewrite (@upload_validate_with_directory w D' Sd), Hv. reflexivity.
  - rewrite (@upload_scan_with_directory (snd vd) wv D'), Hs; [reflexivity | | |].
    + rewrite Dv. exact Ss.
    + rewrite Dv. apply stat_trailing_slash; assumption.
    + intros e. rewrite Dv. apply dir_entry_trailing_slash; assumption.
  - exact Hp.
  - rewrite write_file_with_directory, Hw. reflexivity.
Qed.

Lemma trailing_slash_same_manifest_witness :
  exists st p w1,
    upload_reaches_transfer
      (with_directory world_upload_ok (lit "report" ++ [SLASH])) st p w1
    /\ p = lit "report/report.txt"
    /\ List.concat (idxEntries st)
       = lit "report-2.1-summary.pdf" ++ [LF] ++ lit "report-2.1-data.csv" ++ [LF].
Proof.
  assert (R : exists st p w1,
             upload_reaches_transfer world_upload_ok st p w1
             /\ p = lit "report/report.txt"
             /\ List.concat (idxEntries st)
                = lit "report-2.1-summary.pdf" ++ [LF]
                  ++ lit "report-2.1-data.csv" ++ [LF]).
  { do 3 eexists. split; [|split].
    - do 3 eexists. split; [vm_compute; reflexivity|].
      split; [vm_compute; reflexivity|]. split; [reflexivity|].
      vm_compute. reflexivity.
    - vm_compute. reflexivity.
    - vm_compute. reflexivity. }
  destruct R as (st & p & w1 & H & Ep & Ec).
  exists st, p, (with_directory w1 (lit "report" ++ [SLASH])).
  split; [|split; assumption].
  apply (@trailing_slash_same_manifest world_upload_ok st p w1).
  - discriminate.
  - reflexivity.
  - exact H.
Defined.
